(** * htskk: order-data aggregation (appStreamlit.py)

    A shallow embedding of the pure core of [appStreamlit.py]: the field
    normalizers, the two table parsers, the summary aggregation, the pivot
    export and the POP (SVG) renderer, followed by the properties of the
    specification that were checked against them.

    Conventions of the embedding.
    - Python [str] values are [string]s holding the UTF-8 bytes of the text.
    - Python/pandas floats are [pyfloat]: an exact rational, an infinity or
      NaN.  The conversion of an [int] to a float rounds to the nearest
      double; the rounding of sums and products is not modelled: [fadd]
      and [fmul] stand for the binary64 operations up to their rounding.
    - A call that can raise returns a [res]: [Ok v] or [Raise e].
    - Library routines whose full behaviour is outside the repository
      (Python's [float(str)], pandas' [to_numeric] on text, pandas'
      [to_datetime], the [repr] of a finite float, the decimal digits
      outside ASCII, today's year) are the fields of a [PyLib] record
      that the embedded functions take as an argument. *)

From Stdlib Require Import ZArith QArith Qabs String Ascii List Bool Lia.
From Stdlib Require Import DecimalString Sorting.Sorted Sorting.Permutation.
Import ListNotations.
Open Scope string_scope.
Open Scope Z_scope.

(** ** Exceptions and results *)

Inductive exn := ValueError | TypeError | OverflowError | KeyError.

Inductive res (A : Type) := Ok (a : A) | Raise (e : exn).
Arguments Ok {A} a.
Arguments Raise {A} e.

Definition bind {A B} (r : res A) (k : A -> res B) : res B :=
  match r with Ok a => k a | Raise e => Raise e end.

Notation "x <- r ;; k" := (bind r (fun x => k))
  (at level 61, r at next level, right associativity).

Fixpoint mapM {A B} (f : A -> res B) (l : list A) : res (list B) :=
  match l with
  | [] => Ok []
  | a :: l' => b <- f a ;; bs <- mapM f l' ;; Ok (b :: bs)
  end.

(** ** Strings *)

Module Str.

Definition is_digit (c : ascii) : bool :=
  let n := nat_of_ascii c in (48 <=? n)%nat && (n <=? 57)%nat.

(** The ASCII characters Python's [str.strip()] removes. *)
Definition is_space (c : ascii) : bool :=
  let n := nat_of_ascii c in
  ((9 <=? n)%nat && (n <=? 13)%nat) || ((28 <=? n)%nat && (n <=? 32)%nat).

Fixpoint lstrip_by (p : ascii -> bool) (s : string) : string :=
  match s with
  | String c s' => if p c then lstrip_by p s' else s
  | EmptyString => EmptyString
  end.

Fixpoint rev_acc (s acc : string) : string :=
  match s with
  | EmptyString => acc
  | String c s' => rev_acc s' (String c acc)
  end.

Definition rev (s : string) : string := rev_acc s EmptyString.

Definition rstrip_by (p : ascii -> bool) (s : string) : string :=
  rev (lstrip_by p (rev s)).

(** White space beyond ASCII, as UTF-8 byte sequences: U+0085 and U+00A0
    take two bytes; U+1680, U+2000..U+200A, U+2028, U+2029, U+202F, U+205F
    and U+3000 take three. *)
Definition space2 (a b : ascii) : bool :=
  (nat_of_ascii a =? 194)%nat &&
  ((nat_of_ascii b =? 133)%nat || (nat_of_ascii b =? 160)%nat).

Definition space3 (a b c : ascii) : bool :=
  let x := nat_of_ascii a in
  let y := nat_of_ascii b in
  let z := nat_of_ascii c in
  ((x =? 225) && (y =? 154) && (z =? 128))%nat ||
  ((x =? 226)%nat && (y =? 128)%nat &&
   (((128 <=? z)%nat && (z <=? 138)%nat) || (z =? 168)%nat || (z =? 169)%nat
    || (z =? 175)%nat)) ||
  ((x =? 226) && (y =? 129) && (z =? 159))%nat ||
  ((x =? 227) && (y =? 128) && (z =? 128))%nat.

(** [s.lstrip()]: leading white space characters go, of one, two or three
    bytes. *)
Fixpoint lstrip_ws (s : string) : string :=
  match s with
  | String a r1 =>
      if is_space a then lstrip_ws r1
      else match r1 with
           | String b r2 =>
               if space2 a b then lstrip_ws r2
               else match r2 with
                    | String c r3 => if space3 a b c then lstrip_ws r3 else s
                    | EmptyString => s
                    end
           | EmptyString => s
           end
  | EmptyString => EmptyString
  end.

(** The same on the reversed text, where the bytes of a character come
    last byte first. *)
Fixpoint lstrip_ws_rev (s : string) : string :=
  match s with
  | String a r1 =>
      if is_space a then lstrip_ws_rev r1
      else match r1 with
           | String b r2 =>
               if space2 b a then lstrip_ws_rev r2
               else match r2 with
                    | String c r3 => if space3 c b a then lstrip_ws_rev r3 else s
                    | EmptyString => s
                    end
           | EmptyString => s
           end
  | EmptyString => EmptyString
  end.

(** [s.strip()] *)
Definition strip (s : string) : string :=
  rev (lstrip_ws_rev (rev (lstrip_ws s))).

(** [s.lstrip("'")]: every leading apostrophe goes. *)
Definition lstrip_quote (s : string) : string :=
  lstrip_by (Ascii.eqb "'"%char) s.

Definition lower_char (c : ascii) : ascii :=
  let n := nat_of_ascii c in
  if (65 <=? n)%nat && (n <=? 90)%nat then ascii_of_nat (n + 32) else c.

Fixpoint lower (s : string) : string :=
  match s with
  | EmptyString => EmptyString
  | String c s' => String (lower_char c) (lower s')
  end.

(** [sub in s] *)
Fixpoint contains (sub s : string) : bool :=
  prefix sub s ||
  match s with
  | EmptyString => false
  | String _ s' => contains sub s'
  end.

Definition ends_with (suf s : string) : bool := prefix (rev suf) (rev s).

(** [re.sub(r'\.0$', '', s)] on a string without a trailing newline. *)
Definition drop_dot_zero (s : string) : string :=
  if ends_with ".0" s then substring 0 (String.length s - 2) s else s.

Fixpoint repeat_char (c : ascii) (n : nat) : string :=
  match n with O => EmptyString | S n' => String c (repeat_char c n') end.

(** [s.zfill(w)]: zeros go after a leading sign. *)
Definition zfill (w : nat) (s : string) : string :=
  let pad := repeat_char "0"%char (w - String.length s) in
  match s with
  | String c s' =>
      if Ascii.eqb c "-"%char || Ascii.eqb c "+"%char
      then String c (pad ++ s') else pad ++ s
  | EmptyString => pad
  end.

(** [str(n)] for an [int]. *)
Definition of_Z (z : Z) : string := NilZero.string_of_int (Z.to_int z).

(** [html.escape(s)] with its default [quote=True]. *)
Fixpoint html_escape (s : string) : string :=
  match s with
  | EmptyString => EmptyString
  | String c s' =>
      let r := html_escape s' in
      if Ascii.eqb c "&"%char then "&amp;" ++ r
      else if Ascii.eqb c "<"%char then "&lt;" ++ r
      else if Ascii.eqb c ">"%char then "&gt;" ++ r
      else if Ascii.eqb c (ascii_of_nat 34) then "&quot;" ++ r
      else if Ascii.eqb c "'"%char then "&#x27;" ++ r
      else String c r
  end.

Fixpoint all_digits (s : string) : bool :=
  match s with
  | EmptyString => true
  | String c s' => is_digit c && all_digits s'
  end.

Definition digit_val (c : ascii) : Z := Z.of_nat (nat_of_ascii c) - 48.

Fixpoint digits_val_acc (s : string) (acc : Z) : Z :=
  match s with
  | EmptyString => acc
  | String c s' => digits_val_acc s' (10 * acc + digit_val c)
  end.

(** [int(s)] for a string of ASCII digits. *)
Definition digits_val (s : string) : Z := digits_val_acc s 0.

End Str.

(** ** Floats and dynamically typed values *)

Inductive pyfloat := Fin (q : Q) | Inf (neg : bool) | NaN.

Definition fzero : pyfloat := Fin 0.

Definition isnan (f : pyfloat) : bool :=
  match f with NaN => true | _ => false end.

(** [a >= b]; every comparison with NaN is false. *)
Definition fge (a b : pyfloat) : bool :=
  match a, b with
  | NaN, _ | _, NaN => false
  | Fin x, Fin y => Qle_bool y x
  | Inf false, _ => true
  | Inf true, Inf true => true
  | Inf true, _ => false
  | Fin _, Inf neg => neg
  end.

(** [a == b] *)
Definition feq (a b : pyfloat) : bool :=
  match a, b with
  | Fin x, Fin y => Qeq_bool x y
  | Inf n, Inf m => Bool.eqb n m
  | _, _ => false
  end.

(** [a > b] *)
Definition fgt (a b : pyfloat) : bool := fge a b && negb (feq a b).

Definition qsign (q : Q) : comparison := (0 ?= q)%Q.

Definition fadd (a b : pyfloat) : pyfloat :=
  match a, b with
  | NaN, _ | _, NaN => NaN
  | Fin x, Fin y => Fin (Qred (x + y))
  | Inf n, Inf m => if Bool.eqb n m then Inf n else NaN
  | Inf n, Fin _ | Fin _, Inf n => Inf n
  end.

Definition fmul (a b : pyfloat) : pyfloat :=
  match a, b with
  | NaN, _ | _, NaN => NaN
  | Fin x, Fin y => Fin (Qred (x * y))
  | Inf n, Inf m => Inf (xorb n m)
  | Inf n, Fin x | Fin x, Inf n =>
      match qsign x with
      | Eq => NaN
      | Lt => Inf n
      | Gt => Inf (negb n)
      end
  end.

Inductive pyval :=
| VNone
| VInt (z : Z)
| VFloat (f : pyfloat)
| VStr (s : string).

(** [pd.isna(v)] on a scalar. *)
Definition isna (v : pyval) : bool :=
  match v with
  | VNone | VFloat NaN => true
  | _ => false
  end.

(** ** Calendar dates ([datetime.date]) *)

Record date := mkdate { year : Z; month : Z; day : Z }.

Definition is_leap (y : Z) : bool :=
  ((y mod 4 =? 0) && negb (y mod 100 =? 0)) || (y mod 400 =? 0).

Definition days_in_month (y m : Z) : Z :=
  if m =? 2 then (if is_leap y then 29 else 28)
  else if (m =? 4) || (m =? 6) || (m =? 9) || (m =? 11) then 30
  else 31.

Definition valid_date (y m d : Z) : bool :=
  (1 <=? y) && (y <=? 9999) && (1 <=? m) && (m <=? 12) &&
  (1 <=? d) && (d <=? days_in_month y m).

(** [datetime.date(y, m, d)]: a year that does not fit a C [int] is an
    OverflowError, any other invalid field a ValueError. *)
Definition date_ctor (y m d : Z) : res date :=
  if (y <? - 2 ^ 31) || (2 ^ 31 <=? y) then Raise OverflowError
  else if valid_date y m d then Ok (mkdate y m d)
  else Raise ValueError.

Definition date_eqb (a b : date) : bool :=
  (year a =? year b) && (month a =? month b) && (day a =? day b).

Definition date_leb (a b : date) : bool :=
  (year a <? year b) ||
  ((year a =? year b) &&
   ((month a <? month b) || ((month a =? month b) && (day a <=? day b)))).

(** ** Library routines taken as parameters *)

Record PyLib := {
  (** [float(s)] for a [str]; [None] is its ValueError. *)
  float_of_str : string -> option pyfloat;
  (** pandas' numeric parse of a text cell; [None] is a parse failure. *)
  to_numeric_str : string -> option pyfloat;
  (** [pd.to_datetime(s).date()]; [None] when it raises or yields NaT. *)
  to_datetime_str : string -> option date;
  (** [repr] of a finite float. *)
  repr_float : Q -> string;
  (** [datetime.date.today().year] *)
  today_year : Z;
  (** A decimal digit beyond ASCII (Unicode category Nd) at the head of a
      text, as the class [\d] of [re] and [int] read it: its value and the
      text after it. *)
  unicode_digit : string -> option (Z * string)
}.

(** ** Conversions of the Python runtime *)

Section Runtime.

Variable L : PyLib.

(** [str(v)] *)
Definition py_str (v : pyval) : string :=
  match v with
  | VNone => "None"
  | VInt z => Str.of_Z z
  | VFloat NaN => "nan"
  | VFloat (Inf false) => "inf"
  | VFloat (Inf true) => "-inf"
  | VFloat (Fin q) => repr_float L q
  | VStr s => s
  end.

(** The double nearest to a natural number [a], ties to the even
    mantissa: below 2^53 the number itself, above it a multiple of the
    power of two that leaves 53 bits. *)
Definition round_to_double (a : Z) : Z :=
  if a <? 2 ^ 53 then a
  else
    let e := Z.log2 a - 52 in
    let q := a / 2 ^ e in
    let r := a mod 2 ^ e in
    let half := 2 ^ (e - 1) in
    let q' := if (half <? r) || ((r =? half) && Z.odd q) then q + 1 else q in
    q' * 2 ^ e.

(** [float(n)] for an [int]: the nearest double, an OverflowError when
    that is beyond the largest double. *)
Definition float_of_int (z : Z) : res pyfloat :=
  let m := round_to_double (Z.abs z) in
  if 2 ^ 1024 <=? m then Raise OverflowError
  else Ok (Fin (inject_Z (Z.sgn z * m))).

(** [float(v)]: [None] is a TypeError, text that is no number a
    ValueError, an [int] beyond the float range an OverflowError. *)
Definition py_float (v : pyval) : res pyfloat :=
  match v with
  | VNone => Raise TypeError
  | VInt z => float_of_int z
  | VFloat f => Ok f
  | VStr s =>
      match float_of_str L s with
      | Some f => Ok f
      | None => Raise ValueError
      end
  end.

(** [int(f)] for a float: truncation toward zero; NaN is a ValueError and
    an infinity an OverflowError. *)
Definition py_int (f : pyfloat) : res Z :=
  match f with
  | Fin q => Ok (Z.quot (Qnum q) (Z.pos (Qden q)))
  | Inf _ => Raise OverflowError
  | NaN => Raise ValueError
  end.

(** [pd.to_numeric(v, errors='coerce')] on one cell. *)
Definition to_numeric (v : pyval) : pyfloat :=
  match v with
  | VNone => NaN
  | VInt z => Fin (inject_Z z)
  | VFloat f => f
  | VStr s =>
      match to_numeric_str L s with
      | Some f => f
      | None => NaN
      end
  end.

(** [.fillna(0)] on one numeric cell. *)
Definition fillna0 (f : pyfloat) : pyfloat :=
  if isnan f then fzero else f.

(** ** Field normalizers *)

Definition clean_jan (jan_val : pyval) : string :=
  let s := Str.strip (py_str jan_val) in
  let s := Str.lstrip_quote s in
  Str.drop_dot_zero s.

(** The [try] body of [clean_dept]. *)
Definition clean_dept_body (dept_val : pyval) : res string :=
  f <- py_float dept_val ;;
  n <- py_int f ;;
  Ok (Str.zfill 3 (Str.of_Z n)).

Definition clean_dept (dept_val : pyval) : res string :=
  match clean_dept_body dept_val with
  | Raise ValueError | Raise TypeError => Ok "000"
  | r => r
  end.

(** One character of the class [\d] at the head of [s]: its value, whether
    it is an ASCII digit, and the text after it. *)
Definition digit_at (s : string) : option (Z * bool * string) :=
  match s with
  | String c r =>
      if Str.is_digit c then Some (Str.digit_val c, true, r)
      else if (128 <=? nat_of_ascii c)%nat then
        match unicode_digit L s with
        | Some (v, r') =>
            if (0 <=? v) && (v <=? 9) then Some (v, false, r') else None
        | None => None
        end
      else None
  | EmptyString => None
  end.

(** [n] characters of the class [\d] in a row. *)
Fixpoint read_digits (n : nat) (s : string) : option (list (Z * bool) * string) :=
  match n with
  | O => Some ([], s)
  | S n' =>
      match digit_at s with
      | Some (v, a, r) =>
          match read_digits n' r with
          | Some (ds, r') => Some ((v, a) :: ds, r')
          | None => None
          end
      | None => None
      end
  end.

(** [re.match(r'^\d{8}$', s)] on a stripped text: its eight digits. *)
Definition eight_digits (s : string) : option (list (Z * bool)) :=
  match read_digits 8 s with
  | Some (ds, EmptyString) => Some ds
  | _ => None
  end.

(** The month field of [strptime]: [1[0-2]|0[1-9]] in ASCII digits. *)
Definition month_field (m1 m2 : Z * bool) : bool :=
  snd m1 && snd m2 &&
  (1 <=? 10 * fst m1 + fst m2) && (10 * fst m1 + fst m2 <=? 12).

(** The day field of [strptime]: [3[01]|[12]\d|0[1-9]], the first digit
    in ASCII, the second one too except after 1 or 2. *)
Definition day_field (d1 d2 : Z * bool) : bool :=
  snd d1 &&
  (((fst d1 =? 3) && snd d2 && (fst d2 <=? 1)) ||
   ((1 <=? fst d1) && (fst d1 <=? 2)) ||
   ((fst d1 =? 0) && snd d2 && (1 <=? fst d2))).

(** [datetime.datetime.strptime(s, '%Y%m%d').date()] on eight digits. *)
Definition strptime_Ymd (ds : list (Z * bool)) : res date :=
  match ds with
  | [y1; y2; y3; y4; m1; m2; d1; d2] =>
      let y := 1000 * fst y1 + 100 * fst y2 + 10 * fst y3 + fst y4 in
      let m := 10 * fst m1 + fst m2 in
      let d := 10 * fst d1 + fst d2 in
      if month_field m1 m2 && day_field d1 d2 && valid_date y m d
      then Ok (mkdate y m d) else Raise ValueError
  | _ => Raise ValueError
  end.

(** One [(\d{1,2})] group at the head of [s], greedy: the integer read and
    the rest, longest alternative first. *)
Definition digits12 (s : string) : list (Z * string) :=
  match digit_at s with
  | Some (v1, _, r1) =>
      match digit_at r1 with
      | Some (v2, _, r2) => [(10 * v1 + v2, r2); (v1, r1)]
      | None => [(v1, r1)]
      end
  | None => []
  end.

(** [re.match(r'(\d{1,2})/(\d{1,2})', s)]: the two groups as integers. *)
Definition match_md (s : string) : option (Z * Z) :=
  let after_slash (g1 : Z * string) :=
    match snd g1 with
    | String c r =>
        if Ascii.eqb c "/"%char then
          match digits12 r with
          | (g2, _) :: _ => Some (fst g1, g2)
          | [] => None
          end
        else None
    | EmptyString => None
    end in
  match digits12 s with
  | g :: rest =>
      match after_slash g with
      | Some r => Some r
      | None =>
          match rest with
          | g' :: _ => after_slash g'
          | [] => None
          end
      end
  | [] => None
  end.

(** The last strategy of [parse_date_str]; its bare [except] swallows
    everything. *)
Definition parse_date_general (s : string) : option date := to_datetime_str L s.

(** The [M/D] strategy and what follows it. *)
Definition parse_date_md (s : string) (default_year : Z) : res (option date) :=
  match match_md s with
  | Some (m, d) =>
      match date_ctor default_year m d with
      | Ok dt => Ok (Some dt)
      | Raise ValueError => Ok (parse_date_general s)
      | Raise e => Raise e
      end
  | None => Ok (parse_date_general s)
  end.

Definition parse_date_str (date_str : pyval) (default_year : option Z)
  : res (option date) :=
  let default_year :=
    match default_year with
    | None => today_year L
    | Some y => y
    end in
  let s := Str.strip (py_str date_str) in
  if (String.length s =? 0)%nat || String.eqb (Str.lower s) "nan" then Ok None
  else
    match eight_digits s with
    | Some ds =>
        match strptime_Ymd ds with
        | Ok dt => Ok (Some dt)
        | Raise _ => parse_date_md s default_year
        end
    | None => parse_date_md s default_year
    end.

End Runtime.

(** ** The canonical record and the unified column names *)

Definition COL_DATE := "date".
Definition COL_DEPT := "department".
Definition COL_JAN := "jan".
Definition COL_NAME := "product_name".
Definition COL_QTY := "quantity".
Definition COL_PRICE := "unit_price".
Definition COL_PROMO := "promotion".
Definition COL_AMOUNT := "total_amount".

(** One row of the unified long-form table.  [rec_date = None] is a null
    date ([None]/NaT); the product name is whatever cell the source held. *)
Record record := mkrecord {
  rec_date : option date;
  department : string;
  jan : string;
  product_name : pyval;
  quantity : pyfloat;
  unit_price : pyfloat;
  promotion : string
}.

(** ** Tables as [read_csv] delivers them *)

(** A table with labels of type [K]: the header and the rows.  A row that
    is shorter than the header reads as NaN beyond its end.  Lookup by
    label takes the first column carrying it; the embedding is meant for
    headers whose labels are pairwise distinct. *)
Record frame (K : Type) := mkframe {
  columns : list K;
  rows : list (list pyval)
}.
Arguments mkframe {K} columns rows.
Arguments columns {K} f.
Arguments rows {K} f.

Definition cell (i : nat) (row : list pyval) : pyval := nth i row (VFloat NaN).

Fixpoint index_of {K} (eqb : K -> K -> bool) (k : K) (l : list K) : option nat :=
  match l with
  | [] => None
  | x :: l' =>
      if eqb k x then Some O
      else match index_of eqb k l' with
           | Some i => Some (S i)
           | None => None
           end
  end.

Definition mem_str (k : string) (l : list string) : bool :=
  existsb (String.eqb k) l.

(** [df[name]]: the cells of a column, a KeyError when there is none. *)
Definition column (df : frame string) (name : string) : res (list pyval) :=
  match index_of String.eqb name (columns df) with
  | Some i => Ok (map (cell i) (rows df))
  | None => Raise KeyError
  end.

Section Parsers.

Variable L : PyLib.

(** *** ODR_RES layout (one header row) *)

Definition rename_map : list (string * string) :=
  [ ("納品日", COL_DATE); ("部門", COL_DEPT); ("商品コード", COL_JAN);
    ("商品名", COL_NAME); ("発注数量", COL_QTY); ("売単価", COL_PRICE);
    ("発注区分", COL_PROMO) ].

Fixpoint assoc_str {V} (k : string) (l : list (string * V)) : option V :=
  match l with
  | [] => None
  | (k', v) :: l' => if String.eqb k k' then Some v else assoc_str k l'
  end.

(** [df.rename(columns=rename_map)] on one label. *)
Definition rename (c : string) : string :=
  match assoc_str c rename_map with
  | Some c' => c'
  | None => c
  end.

(** [.fillna('').astype(str).replace(['nan', 'None'], '')] on one cell. *)
Definition promo_cell (v : pyval) : string :=
  let s := if isna v then EmptyString else py_str L v in
  if String.eqb s "nan" || String.eqb s "None" then EmptyString else s.

Definition required_columns : list string := ["納品日"; "部門"; "商品コード"].

Fixpoint zip_records (ds : list (option date)) (ps js : list string)
    (ns : list pyval) (qs us : list pyfloat) (os : list string) : list record :=
  match ds, ps, js, ns, qs, us, os with
  | d :: ds, p :: ps, j :: js, n :: ns, q :: qs, u :: us, o :: os =>
      mkrecord d p j n q u o :: zip_records ds ps js ns qs us os
  | _, _, _, _, _, _, _ => []
  end.

Definition has_date (r : record) : bool :=
  match rec_date r with Some _ => true | None => false end.

(** [df.dropna(subset=[COL_DATE])] *)
Definition dropna_date (l : list record) : list record := filter has_date l.

Definition process_format_1 (df : frame string) : res (list record) :=
  if negb (forallb (fun c => mem_str c (columns df)) required_columns)
  then Ok []
  else
    let df := mkframe (map rename (columns df)) (rows df) in
    raw_date <- column df COL_DATE ;;
    dates <- mapM (fun x => parse_date_str L x None) raw_date ;;
    raw_dept <- column df COL_DEPT ;;
    depts <- mapM (clean_dept L) raw_dept ;;
    raw_jan <- column df COL_JAN ;;
    raw_qty <- column df COL_QTY ;;
    raw_price <- column df COL_PRICE ;;
    raw_promo <- column df COL_PROMO ;;
    names <- column df COL_NAME ;;
    Ok (dropna_date
          (zip_records dates depts (map (clean_jan L) raw_jan) names
             (map (fun v => fillna0 (to_numeric L v)) raw_qty)
             (map (fun v => fillna0 (to_numeric L v)) raw_price)
             (map promo_cell raw_promo))).

(** *** OrderCheckList layout (two header rows) *)

(** The forward fill of the top header; [last_top] starts as [None]. *)
Fixpoint fill_tops (last_top : option string) (cols : list (string * string))
  : list (option string * string) :=
  match cols with
  | [] => []
  | (top, bottom) :: cols' =>
      let last_top :=
        if negb (Str.contains "Unnamed" top) && negb (Str.contains "週合計" top)
        then Some top else last_top in
      let final_top := if Str.contains "Unnamed" top then last_top else Some top in
      (final_top, bottom) :: fill_tops last_top cols'
  end.

Definition key_eqb (a b : option string * string) : bool :=
  match fst a, fst b with
  | Some x, Some y => String.eqb x y && String.eqb (snd a) (snd b)
  | None, None => String.eqb (snd a) (snd b)
  | _, _ => false
  end.

(** The keys of [fixed_col_map], in insertion order. *)
Definition fixed_keys (new_cols : list (option string * string))
  : list (option string * string) :=
  filter (fun k => Str.contains "Unnamed" (snd k)) new_cols.

Fixpoint add_date_cols (new_cols : list (option string * string))
    (date_cols : list string) : list string :=
  match new_cols with
  | [] => date_cols
  | (top, bottom) :: rest =>
      let date_cols :=
        if Str.contains "Unnamed" bottom then date_cols
        else match top with
             | Some t =>
                 if negb (Str.contains "週合計" t) && negb (mem_str t date_cols)
                 then (date_cols ++ [t])%list else date_cols
             | None => date_cols
             end in
      add_date_cols rest date_cols
  end.

(** [row.get(key)] and [row[key]]: [None] when the header has no such
    column.  The cell read is that of the first column with the key.  On
    a key that the filled header repeats (a placeholder after a weekly
    total takes the label carried before it) pandas hands back all the
    cells of the key and the tests on the value raise; the statements
    about the cells read are made for headers without a repeated key. *)
Definition row_get (new_cols : list (option string * string))
    (row : list pyval) (key : option string * string) : pyval :=
  match index_of key_eqb key new_cols with
  | Some i => cell i row
  | None => VNone
  end.

(** [base_info]: the dict from the top label of each fixed column to the
    row's cell there, as the list of its insertions. *)
Definition base_info (new_cols : list (option string * string))
    (row : list pyval) : list (option string * pyval) :=
  map (fun k => (fst k, row_get new_cols row k)) (fixed_keys new_cols).

(** [base_info.get(name, default)]: a later insertion under the same label
    replaces an earlier one. *)
Definition info_get (info : list (option string * pyval)) (name : string)
    (default : pyval) : pyval :=
  fold_left (fun acc kv =>
               match fst kv with
               | Some t => if String.eqb t name then snd kv else acc
               | None => acc
               end) info default.

(** The body of the inner loop for one date label: no record, or one. *)
Definition date_cell_record (new_cols : list (option string * string))
    (row : list pyval) (dept_val jan_val name_val : pyval) (date_str : string)
  : res (list record) :=
  if (String.length date_str =? 0)%nat || String.eqb date_str "nan" then Ok []
  else
    let qty := to_numeric L (row_get new_cols row (Some date_str, "数量")) in
    if isnan qty || feq qty fzero then Ok []
    else
      let price := to_numeric L (row_get new_cols row (Some date_str, "売価")) in
      let promo_val := row_get new_cols row (Some date_str, "販促") in
      let promo_str := if isna promo_val then EmptyString else py_str L promo_val in
      d <- parse_date_str L (VStr date_str) None ;;
      p <- clean_dept L dept_val ;;
      Ok [ mkrecord d p (clean_jan L jan_val) name_val qty price promo_str ].

Fixpoint concatM {A B} (f : A -> res (list B)) (l : list A) : res (list B) :=
  match l with
  | [] => Ok []
  | a :: l' => x <- f a ;; xs <- concatM f l' ;; Ok (x ++ xs)%list
  end.

(** The records one row contributes. *)
Definition row_records (new_cols : list (option string * string))
    (date_cols : list string) (row : list pyval) : res (list record) :=
  let info := base_info new_cols row in
  let jan_val := info_get info "JANコード" VNone in
  if isna jan_val then Ok []
  else
    concatM (date_cell_record new_cols row
               (info_get info "部門" (VStr "000"))
               jan_val
               (info_get info "商品名" (VStr EmptyString)))
            date_cols.

Definition process_format_2_from_df (df : frame (string * string))
  : res (list record) :=
  let new_cols := fill_tops None (columns df) in
  let date_cols := add_date_cols new_cols [] in
  concatM (row_records new_cols date_cols) (rows df).

End Parsers.

(** ** Generic list helpers for grouping and sorting *)

Section Lists.

Context {A : Type}.

Fixpoint insert_by (leb : A -> A -> bool) (x : A) (l : list A) : list A :=
  match l with
  | [] => [x]
  | y :: l' => if leb x y then x :: l else y :: insert_by leb x l'
  end.

(** A stable sort; it stands for the library sorts, whose order among
    equal keys is not used by any statement below. *)
Fixpoint sort_by (leb : A -> A -> bool) (l : list A) : list A :=
  match l with
  | [] => []
  | x :: l' => insert_by leb x (sort_by leb l')
  end.

(** The distinct elements, each at its first occurrence. *)
Fixpoint distinct_by (eqb : A -> A -> bool) (l : list A) : list A :=
  match l with
  | [] => []
  | x :: l' => x :: filter (fun y => negb (eqb x y)) (distinct_by eqb l')
  end.

End Lists.

(** ** Column reductions of pandas *)

Definition notnan (f : pyfloat) : bool := negb (isnan f).

(** [sum] with its default [skipna]: NaN entries count as nothing. *)
Definition fsum (l : list pyfloat) : pyfloat :=
  fold_left fadd (filter notnan l) fzero.

(** [max] with its default [skipna]; NaN when nothing is left. *)
Definition fmax (l : list pyfloat) : pyfloat :=
  match filter notnan l with
  | [] => NaN
  | x :: l' => fold_left (fun m y => if fgt y m then y else m) l' x
  end.

(** [first] of a group: the first entry that is not null. *)
Definition first_valid (l : list pyval) : pyval :=
  match filter (fun v => negb (isna v)) l with
  | v :: _ => v
  | [] => VNone
  end.

(** ** Summary aggregation (the [agg_view] of [main]) *)

(** [master_df[COL_AMOUNT] = master_df[COL_QTY] * master_df[COL_PRICE]] *)
Definition total_amount (r : record) : pyfloat :=
  fmul (quantity r) (unit_price r).

Record agg_row := mkagg {
  agg_jan : string;
  agg_dept : string;
  agg_name : pyval;
  agg_price : pyfloat;
  agg_qty : pyfloat;
  agg_amount : pyfloat;
  agg_promo : string
}.

Definition jan_group (j : string) (df : list record) : list record :=
  filter (fun r => String.eqb j (jan r)) df.

(** One output row of [.agg({...})] for the group of [j]. *)
Definition agg_group (df : list record) (j : string) : agg_row :=
  let g := jan_group j df in
  mkagg j
    (hd EmptyString (map department g))
    (first_valid (map product_name g))
    (fmax (map unit_price g))
    (fsum (map quantity g))
    (fsum (map total_amount g))
    (hd EmptyString (map promotion g)).

(** [groupby(COL_JAN, as_index=False)]: one group per distinct code, in
    ascending order of the code. *)
Definition groupby_jan (df : list record) : list agg_row :=
  map (agg_group df) (sort_by String.leb (distinct_by String.eqb (map jan df))).

(** Row order of [sort_values(by=COL_QTY, ascending=False)]: larger first,
    NaN last. *)
Definition qty_before (a b : agg_row) : bool :=
  isnan (agg_qty b) || (notnan (agg_qty a) && fge (agg_qty a) (agg_qty b)).

Definition agg_view (filtered_df : list record) : list agg_row :=
  sort_by qty_before (groupby_jan filtered_df).

(** ** Pivot export ([create_matrix_csv]) *)

(** The number a numeric cell stands for, when it is one. *)
Definition as_number (v : pyval) : option pyfloat :=
  match v with
  | VInt z => Some (Fin (inject_Z z))
  | VFloat f => Some f
  | _ => None
  end.

(** Equality of two cells as group keys: text by content, numbers by value. *)
Definition pyval_eqb (a b : pyval) : bool :=
  match a, b with
  | VStr x, VStr y => String.eqb x y
  | VNone, VNone => true
  | _, _ =>
      match as_number a, as_number b with
      | Some x, Some y => feq x y
      | _, _ => false
      end
  end.

Definition fcompare (a b : pyfloat) : comparison :=
  if feq a b then Eq else if fge a b then Gt else Lt.

(** Order of two cells as group keys.  Numbers are put before text; the
    place of keys of unlike type is not used by any statement below. *)
Definition pyval_compare (a b : pyval) : comparison :=
  match a, b with
  | VStr x, VStr y => String.compare x y
  | VStr _, _ => Gt
  | _, VStr _ => Lt
  | _, _ =>
      match as_number a, as_number b with
      | Some x, Some y => fcompare x y
      | Some _, None => Lt
      | None, Some _ => Gt
      | None, None => Eq
      end
  end.

(** The index of the pivot: (department, jan, product name, unit price,
    promotion). *)
Record pivot_key := mkkey {
  k_dept : string;
  k_jan : string;
  k_name : pyval;
  k_price : pyfloat;
  k_promo : string
}.

Definition key_of (r : record) : pivot_key :=
  mkkey (department r) (jan r) (product_name r) (unit_price r) (promotion r).

Definition pivot_key_eqb (a b : pivot_key) : bool :=
  String.eqb (k_dept a) (k_dept b) && String.eqb (k_jan a) (k_jan b) &&
  pyval_eqb (k_name a) (k_name b) && feq (k_price a) (k_price b) &&
  String.eqb (k_promo a) (k_promo b).

Definition lex (c1 c2 : comparison) : comparison :=
  match c1 with Eq => c2 | _ => c1 end.

Definition pivot_key_leb (a b : pivot_key) : bool :=
  match lex (String.compare (k_dept a) (k_dept b))
       (lex (String.compare (k_jan a) (k_jan b))
       (lex (pyval_compare (k_name a) (k_name b))
       (lex (fcompare (k_price a) (k_price b))
            (String.compare (k_promo a) (k_promo b))))) with
  | Gt => false
  | _ => true
  end.

(** The grouping behind [pivot_table] leaves out every row with a null in
    a key: a null date, a null product name or a NaN price (department,
    jan and promotion are always text). *)
Definition groupable (r : record) : bool :=
  has_date r && negb (isna (product_name r)) && notnan (unit_price r).

Definition in_cell (k : pivot_key) (d : date) (r : record) : bool :=
  groupable r && pivot_key_eqb k (key_of r) &&
  match rec_date r with
  | Some d' => date_eqb d d'
  | None => false
  end.

(** The aggregated quantity of one (key, date) cell: absent when no row
    falls in it, and dropped again when the sum is NaN. *)
Definition cell_sum (df : list record) (k : pivot_key) (d : date) : option pyfloat :=
  match filter (in_cell k d) df with
  | [] => None
  | g => let s := fsum (map quantity g) in
         if isnan s then None else Some s
  end.

Definition has_cell (df : list record) (r : record) : bool :=
  match rec_date r with
  | Some d =>
      groupable r &&
      match cell_sum df (key_of r) d with Some _ => true | None => false end
  | None => false
  end.

(** The rows that reach the unstacked table. *)
Definition pivot_source (df : list record) : list record := filter (has_cell df) df.

Fixpoint dates_of (l : list record) : list date :=
  match l with
  | [] => []
  | r :: l' =>
      match rec_date r with
      | Some d => d :: dates_of l'
      | None => dates_of l'
      end
  end.

(** The date columns, ascending. *)
Definition date_cols (df : list record) : list date :=
  sort_by date_leb (distinct_by date_eqb (dates_of (pivot_source df))).

Definition pivot_keys (df : list record) : list pivot_key :=
  sort_by pivot_key_leb (distinct_by pivot_key_eqb (map key_of (pivot_source df))).

Record pivot_row := mkprow {
  pv_dept : string;
  pv_jan : string;
  pv_name : pyval;
  pv_price : pyfloat;
  pv_cells : list pyfloat;
  pv_total_qty : pyfloat;
  pv_total_amount : pyfloat;
  pv_promo : string
}.

(** [fill_value=0] for the cells without data. *)
Definition cell_value (df : list record) (k : pivot_key) (d : date) : pyfloat :=
  match cell_sum df k d with
  | Some s => s
  | None => fzero
  end.

Definition make_pivot_row (df : list record) (dates : list date) (k : pivot_key)
  : pivot_row :=
  let cells := map (cell_value df k) dates in
  let total := fsum cells in
  mkprow (k_dept k) ("'" ++ k_jan k) (k_name k) (k_price k) cells
         total (fmul total (k_price k)) (k_promo k).

(** [d.strftime('%Y/%m/%d')] *)
Definition strftime_Ymd (d : date) : string :=
  Str.zfill 4 (Str.of_Z (year d)) ++ "/" ++ Str.zfill 2 (Str.of_Z (month d))
  ++ "/" ++ Str.zfill 2 (Str.of_Z (day d)).

(** The table handed to [to_csv]: its header, the dates behind the date
    columns and its rows. *)
Record pivot_table := mkpivot {
  pv_header : list string;
  pv_dates : list date;
  pv_rows : list pivot_row
}.

Definition base_cols : list string := ["部門"; "JAN"; "商品名"; "単価"].

(** [create_matrix_csv] up to the serialisation: [None] is the empty
    [b''] of an empty input.  When every row of a non-empty input has a
    null key the table has a header and no row. *)
Definition create_matrix_csv (df : list record) : option pivot_table :=
  match df with
  | [] => None
  | _ =>
      let dates := date_cols df in
      Some (mkpivot
              (base_cols ++ map strftime_Ymd dates ++ ["合計数量"; "合計金額"; "販促"])%list
              dates
              (map (make_pivot_row df dates) (pivot_keys df)))
  end.

(** ** POP renderer ([generate_svg]) *)

(** The literal pieces of the SVG template are written with a backquote
    where the source has a double quote; [T] puts the double quotes back. *)
Fixpoint T (s : string) : string :=
  match s with
  | EmptyString => EmptyString
  | String c s' =>
      String (if Ascii.eqb c "`"%char then ascii_of_nat 34 else c) (T s')
  end.

(** Digits with a comma before every group of three from the right. *)
Fixpoint group3 (rev_digits : string) (n : nat) (acc : string) : string :=
  match rev_digits with
  | EmptyString => acc
  | String c r =>
      match n with
      | O => group3 r 2 (String c (String ","%char acc))
      | S n' => group3 r n' (String c acc)
      end
  end.

(** [f"{n:,}"] for an [int]. *)
Definition format_thousands (z : Z) : string :=
  let body := group3 (Str.rev (Str.of_Z (Z.abs z))) 3 EmptyString in
  if z <? 0 then String "-"%char body else body.

(** [d + datetime.timedelta(days=1)]; past 9999-12-31 is an OverflowError. *)
Definition next_day (d : date) : res date :=
  if day d <? days_in_month (year d) (month d)
  then Ok (mkdate (year d) (month d) (day d + 1))
  else if month d <? 12 then Ok (mkdate (year d) (month d + 1) 1)
  else if year d <? 9999 then Ok (mkdate (year d + 1) 1 1)
  else Raise OverflowError.

(** [daily_qty_map.get(d, 0)] *)
Fixpoint daily_get (m : list (date * pyfloat)) (d : date) : pyfloat :=
  match m with
  | [] => fzero
  | (d', q) :: m' => if date_eqb d d' then q else daily_get m' d
  end.

(** The face-count label chosen from the total amount. *)
Definition face_count (total_amount : pyfloat) : string :=
  if fge total_amount (Fin 100000) then "5F"
  else if fge total_amount (Fin 50000) then "4F"
  else if fge total_amount (Fin 20000) then "3F"
  else if fge total_amount (Fin 5000) then "2F"
  else "1F".

Definition is_sale (promo : string) : bool :=
  negb (String.length promo =? 0)%nat &&
  (Str.contains "特売" promo || Str.contains "セール" promo
   || Str.contains "スポ" promo).

Definition accent_color (sale : bool) : string :=
  if sale then "#ef4444" else "#334155".

Definition background_color (sale : bool) : string :=
  if sale then "#fef2f2" else "#f8fafc".

Section Render.

Variable L : PyLib.

(** One cell of the calendar strip. *)
Definition calendar_part (i : Z) (current_d : date) (qty : pyfloat) : res string :=
  let d_str := Str.of_Z (month current_d) ++ "/" ++ Str.of_Z (day current_d) in
  let fill_col := if i mod 2 =? 0 then "#fff" else "#f9fafb" in
  let text_fill := if fgt qty fzero then "#000" else "#d1d5db" in
  let x_pos := 5 + i * 84 in
  n <- py_int qty ;;
  Ok (T "<g transform=`translate(" ++ Str.of_Z x_pos
      ++ T ", 355)`><rect width=`84` height=`80` fill=`" ++ fill_col
      ++ T "` stroke=`#e2e8f0`/><text x=`42` y=`20` font-family=`sans-serif` font-size=`12` fill=`#64748b` text-anchor=`middle`>"
      ++ d_str
      ++ T "</text><text x=`42` y=`60` font-family=`sans-serif` font-size=`26` fill=`"
      ++ text_fill
      ++ T "` font-weight=`bold` text-anchor=`middle`>" ++ Str.of_Z n
      ++ "</text></g>").

(** The loop over the seven days, from cell [i]; [n] cells remain. *)
Fixpoint calendar_loop (daily_qty_map : list (date * pyfloat)) (n : nat)
    (i : Z) (current_d : date) : res string :=
  match n with
  | O => Ok EmptyString
  | S n' =>
      part <- calendar_part i current_d (daily_get daily_qty_map current_d) ;;
      next <- next_day current_d ;;
      rest <- calendar_loop daily_qty_map n' (i + 1) next ;;
      Ok (part ++ rest)
  end.

Definition generate_svg (row : agg_row) (daily_qty_map : list (date * pyfloat))
    (start_date : date) : res string :=
  let dept := agg_dept row in
  let jan := agg_jan row in
  let name := Str.html_escape (py_str L (agg_name row)) in
  let price := agg_price row in
  let total_qty := agg_qty row in
  let total_amount := agg_amount row in
  let promo := agg_promo row in
  let fc := face_count total_amount in
  let clr := accent_color (is_sale promo) in
  let bg := background_color (is_sale promo) in
  calendar_svg <- calendar_loop daily_qty_map 7 0 start_date ;;
  price_int <- py_int price ;;
  amount_int <- py_int total_amount ;;
  qty_int <- py_int total_qty ;;
  Ok (T "<svg xmlns=`http://www.w3.org/2000/svg` viewBox=`0 0 600 440` style=`background:#fff;`><rect x=`5` y=`5` width=`590` height=`430` fill=`white` stroke=`"
      ++ clr
      ++ T "` stroke-width=`6`/><rect x=`5` y=`5` width=`590` height=`65` fill=`"
      ++ bg
      ++ T "`/><line x1=`200` y1=`5` x2=`200` y2=`70` stroke=`" ++ clr
      ++ T "` stroke-width=`2`/><line x1=`400` y1=`5` x2=`400` y2=`70` stroke=`" ++ clr
      ++ T "` stroke-width=`2`/><line x1=`5` y1=`70` x2=`595` y2=`70` stroke=`" ++ clr
      ++ T "` stroke-width=`2`/><text x=`102` y=`45` font-family=`sans-serif` font-size=`28` font-weight=`900` text-anchor=`middle` fill=`"
      ++ clr ++ T "`>"
      ++ (if (String.length promo =? 0)%nat then "通常" else promo)
      ++ T "</text><text x=`215` y=`25` font-family=`sans-serif` font-size=`12` fill=`#64748b`>部門</text><text x=`215` y=`55` font-family=`sans-serif` font-size=`24` font-weight=`bold` fill=`#1e293b`>"
      ++ dept
      ++ T "</text><text x=`415` y=`25` font-family=`sans-serif` font-size=`12` fill=`#64748b`>フェイス数</text><text x=`500` y=`55` font-family=`sans-serif` font-size=`40` font-weight=`900` text-anchor=`middle` fill=`"
      ++ clr ++ T "`>" ++ fc
      ++ T "</text><text x=`25` y=`105` font-family=`sans-serif` font-size=`12` fill=`#64748b`>JAN CODE</text><text x=`25` y=`145` font-family=`monospace` font-size=`40` font-weight=`bold` letter-spacing=`4` fill=`#1e293b`>"
      ++ jan
      ++ T "</text><text x=`25` y=`185` font-family=`sans-serif` font-size=`34` font-weight=`900` fill=`#000`>"
      ++ name
      ++ T "</text><line x1=`5` y1=`205` x2=`595` y2=`205` stroke=`#e2e8f0` stroke-width=`2`/><text x=`25` y=`235` font-family=`sans-serif` font-size=`12` fill=`#64748b`>単価</text><text x=`25` y=`275` font-family=`sans-serif` font-size=`32` font-weight=`bold`>¥ "
      ++ format_thousands price_int
      ++ T "</text><text x=`25` y=`315` font-family=`sans-serif` font-size=`12` fill=`#64748b`>合計見込額</text><text x=`25` y=`345` font-family=`sans-serif` font-size=`28` font-weight=`bold` fill=`"
      ++ clr ++ T "`>¥ " ++ format_thousands amount_int
      ++ T "</text><rect x=`340` y=`215` width=`240` height=`130` rx=`8` fill=`#f1f5f9`/><text x=`360` y=`245` font-family=`sans-serif` font-size=`14` font-weight=`bold` fill=`#475569`>合計点数</text><text x=`460` y=`325` font-family=`sans-serif` font-size=`90` font-weight=`900` text-anchor=`middle` fill=`#000`>"
      ++ Str.of_Z qty_int
      ++ T "</text><text x=`560` y=`325` font-family=`sans-serif` font-size=`20` font-weight=`bold` text-anchor=`end` fill=`#475569`>点</text>"
      ++ calendar_svg ++ "</svg>").

End Render.

(** ** A small instance of the library routines

    Enough of the library to run the embedding on examples: plain decimal
    numerals ([-12], [0.5]), ISO and day-first dates. *)

Module ExampleLib.

Fixpoint split_at_char (c : ascii) (s : string) : option (string * string) :=
  match s with
  | EmptyString => None
  | String a s' =>
      if Ascii.eqb a c then Some (EmptyString, s')
      else match split_at_char c s' with
           | Some (l, r) => Some (String a l, r)
           | None => None
           end
  end.

Definition nonempty_digits (s : string) : bool :=
  negb (String.length s =? 0)%nat && Str.all_digits s.

(** An unsigned decimal numeral, with or without a fraction. *)
Definition unsigned_decimal (s : string) : option Q :=
  match split_at_char "."%char s with
  | Some (i, f) =>
      if nonempty_digits i && nonempty_digits f
      then Some (Qred (Qplus (inject_Z (Str.digits_val i))
                             (Qmake (Str.digits_val f)
                                    (Pos.of_nat (10 ^ String.length f)))))
      else None
  | None => if nonempty_digits s then Some (inject_Z (Str.digits_val s)) else None
  end.

Definition decimal (s : string) : option pyfloat :=
  match Str.strip s with
  | String c r =>
      if Ascii.eqb c "-"%char
      then match unsigned_decimal r with
           | Some q => Some (Fin (Qred (Qopp q)))
           | None => None
           end
      else match unsigned_decimal (String c r) with
           | Some q => Some (Fin q)
           | None => None
           end
  | EmptyString => None
  end.

Definition checked_date (y m d : Z) : option date :=
  if valid_date y m d then Some (mkdate y m d) else None.

(** [YYYY-MM-DD], or [DD/MM/YYYY] when the first field cannot be a month. *)
Definition simple_date (s : string) : option date :=
  match split_at_char "-"%char s with
  | Some (y, md) =>
      match split_at_char "-"%char md with
      | Some (m, d) =>
          if nonempty_digits y && nonempty_digits m && nonempty_digits d
          then checked_date (Str.digits_val y) (Str.digits_val m) (Str.digits_val d)
          else None
      | None => None
      end
  | None =>
      match split_at_char "/"%char s with
      | Some (d, my) =>
          match split_at_char "/"%char my with
          | Some (m, y) =>
              if nonempty_digits y && nonempty_digits m && nonempty_digits d
                 && (12 <? Str.digits_val d)
              then checked_date (Str.digits_val y) (Str.digits_val m) (Str.digits_val d)
              else None
          | None => None
          end
      | None => None
      end
  end.

(** The [repr] of a float with an integral value ([12.0]); other values are
    not used in the examples. *)
Definition simple_repr (q : Q) : string :=
  Str.of_Z (Z.quot (Qnum q) (Z.pos (Qden q))) ++ ".0".

(** The full-width digits U+FF10..U+FF19. *)
Definition fullwidth_digit (s : string) : option (Z * string) :=
  match s with
  | String a (String b (String c r)) =>
      if (nat_of_ascii a =? 239)%nat && (nat_of_ascii b =? 188)%nat
         && (144 <=? nat_of_ascii c)%nat && (nat_of_ascii c <=? 153)%nat
      then Some (Z.of_nat (nat_of_ascii c) - 144, r)
      else None
  | _ => None
  end.

Definition lib : PyLib :=
  {| float_of_str := decimal;
     to_numeric_str := decimal;
     to_datetime_str := simple_date;
     repr_float := simple_repr;
     today_year := 2024;
     unicode_digit := fullwidth_digit |}.

End ExampleLib.

(** ** Layout detection (the scan at the head of [load_data]) *)

Inductive encoding := Utf8 | Cp932.

(** [format_type]: 1 is the ODR_RES list layout, 2 the matrix layout. *)
Inductive layout := ListLayout | MatrixLayout.

Record detection := mkdetection {
  start_row : nat;
  detected_enc : encoding;
  format_type : option layout
}.

(** The inner loop over [enumerate(lines[:30])], from index [i] on: the
    first line that carries one of the two keyword pairs. *)
Fixpoint scan_lines (lines : list string) (i : nat) : option (nat * layout) :=
  match lines with
  | [] => None
  | line :: rest =>
      if Str.contains "JANコード" line && Str.contains "部門" line
      then Some (i, MatrixLayout)
      else if Str.contains "納品日" line && Str.contains "部門" line
      then Some (i, ListLayout)
      else scan_lines rest (S i)
  end.

(** The outer loop over the encodings, from [encs] on.  [decoded enc] is
    [sample_bytes.decode(enc).splitlines()], [None] for a
    UnicodeDecodeError. *)
Fixpoint detect_from (decoded : encoding -> option (list string))
    (encs : list encoding) : detection :=
  match encs with
  | [] => mkdetection 0 Cp932 None
  | enc :: rest =>
      match decoded enc with
      | Some lines =>
          match scan_lines (firstn 30 lines) 0 with
          | Some (i, f) => mkdetection i enc (Some f)
          | None => detect_from decoded rest
          end
      | None => detect_from decoded rest
      end
  end.

Definition detect_format (decoded : encoding -> option (list string)) : detection :=
  detect_from decoded [Utf8; Cp932].

(** ** POP archive ([create_pop_zip]) *)

(** The characters that the entry names lose: backslash, slash, colon,
    star, question mark, double quote, the angle brackets and the bar. *)
Definition hostile (c : ascii) : bool :=
  existsb (Ascii.eqb c)
    [ "\"%char; "/"%char; ":"%char; "*"%char; "?"%char; ascii_of_nat 34;
      "<"%char; ">"%char; "|"%char ].

(** [re.sub] of that character class by the empty string. *)
Fixpoint safe_name (s : string) : string :=
  match s with
  | EmptyString => EmptyString
  | String c s' => if hostile c then safe_name s' else String c (safe_name s')
  end.

Definition on_day (j : string) (d : date) (r : record) : bool :=
  String.eqb j (jan r) &&
  match rec_date r with
  | Some d' => date_eqb d d'
  | None => false
  end.

(** [daily_map[j]]: for every date on which [raw_df] has rows of the code
    [j], the sum of their quantities (NaN counted as 0).  Rows without a
    date are left out by the grouping. *)
Definition daily_map_for (raw_df : list record) (j : string)
  : list (date * pyfloat) :=
  map (fun d => (d, fsum (map (fun r => fillna0 (quantity r))
                              (filter (on_day j d) raw_df))))
      (sort_by date_leb
         (distinct_by date_eqb (dates_of (jan_group j raw_df)))).

Section Archive.

Variable L : PyLib.

(** One archive entry: its name and its content. *)
Definition pop_entry (raw_df : list record) (start_date : date) (row : agg_row)
  : res (string * string) :=
  svg_str <- generate_svg L row (daily_map_for raw_df (agg_jan row)) start_date ;;
  Ok (safe_name (agg_dept row) ++ "_" ++ safe_name (agg_jan row) ++ ".svg",
      svg_str).

(** The entries written to the archive, in order; equal names are both
    written. *)
Definition create_pop_zip (agg_df : list agg_row) (raw_df : list record)
    (start_date : date) : res (list (string * string)) :=
  mapM (pop_entry raw_df start_date) agg_df.

End Archive.

(** ** Auxiliary notions used in the statements *)

(** The integer [clean_dept] renders: [int(float(dept_val))]. *)
Definition dept_int (L : PyLib) (dept_val : pyval) : res Z :=
  f <- py_float L dept_val ;; py_int f.

(** The year [parse_date_str] puts on an [M/D] token. *)
Definition effective_year (L : PyLib) (default_year : option Z) : Z :=
  match default_year with
  | None => today_year L
  | Some y => y
  end.

(** A year that [datetime.date] can take as a C [int]. *)
Definition c_int (y : Z) : Prop := - 2 ^ 31 <= y < 2 ^ 31.

(** The date normalizer as the (amended) specification words it: the
    three strategies in order, each one tried only when the one before it
    gave no date. *)
Definition ymd_of_8_digits (L : PyLib) (s : string) : option date :=
  match eight_digits L s with
  | Some [y1; y2; y3; y4; m1; m2; d1; d2] =>
      let y := 1000 * fst y1 + 100 * fst y2 + 10 * fst y3 + fst y4 in
      let m := 10 * fst m1 + fst m2 in
      let d := 10 * fst d1 + fst d2 in
      if month_field m1 m2 && day_field d1 d2 && valid_date y m d
      then Some (mkdate y m d) else None
  | _ => None
  end.

Definition md_in_year (L : PyLib) (s : string) (y : Z) : option date :=
  match match_md L s with
  | Some (m, d) => if valid_date y m d then Some (mkdate y m d) else None
  | None => None
  end.

Definition first_some {A} (a b : option A) : option A :=
  match a with Some _ => a | None => b end.

Definition normalize_date_spec (L : PyLib) (s : string) (y : Z) : option date :=
  if (String.length s =? 0)%nat || String.eqb (Str.lower s) "nan" then None
  else first_some (ymd_of_8_digits L s)
         (first_some (md_in_year L s y) (to_datetime_str L s)).

Definition is_inf (f : pyfloat) : bool :=
  match f with Inf _ => true | _ => false end.

(** ** Data of the examples and auxiliary predicates *)

Definition three_digits_ok (n : Z) : bool :=
  let s := Str.zfill 3 (Str.of_Z n) in
  (String.length s =? 3)%nat && Str.all_digits s && (Str.digits_val s =? n).

Definition table_without_code : frame string :=
  mkframe ["納品日"; "部門"; "商品名"; "発注数量"; "売単価"; "発注区分"]
          [[VInt 20240501; VInt 12; VStr "apple"; VInt 3; VInt 100; VFloat NaN]].

Definition odr_header : list string :=
  ["納品日"; "部門"; "商品コード"; "商品名"; "発注数量"; "売単価"; "発注区分"].

Definition table_negative_quantity : frame string :=
  mkframe odr_header
    [[VInt 20240501; VInt 12; VInt 4900000000001; VStr "apple";
      VInt (-3); VInt 100; VFloat NaN]].

Definition table_unparsed_quantity : frame string :=
  mkframe odr_header
    [[VInt 20240501; VInt 12; VInt 4900000000001; VStr "apple";
      VStr "many"; VInt 100; VFloat NaN];
     [VStr "soon"; VInt 12; VInt 4900000000001; VStr "apple";
      VInt 1; VInt 100; VFloat NaN]].

Definition record_unparsed_quantity : record :=
  mkrecord (Some (mkdate 2024 5 1)) "012" "4900000000001" (VStr "apple")
           fzero (Fin (100 # 1)) EmptyString.

Definition matrix_header : list (string * string) :=
  [ ("JANコード", "Unnamed: 0_level_1"); ("部門", "Unnamed: 1_level_1");
    ("商品名", "Unnamed: 2_level_1");
    ("5/1", "数量"); ("Unnamed: 4_level_0", "売価"); ("Unnamed: 5_level_0", "販促");
    ("5/2", "数量"); ("Unnamed: 7_level_0", "売価"); ("Unnamed: 8_level_0", "販促") ].

Definition matrix_cols : list (option string * string) :=
  fill_tops None matrix_header.

Definition matrix_row_half : list pyval :=
  [VInt 4900000000001; VInt 12; VStr "apple";
   VFloat (Fin (1 # 2)); VInt 100; VFloat NaN;
   VInt 0; VInt 100; VFloat NaN].

(** The same row with the product code cell left empty. *)
Definition matrix_row_without_code : list pyval :=
  [VFloat NaN; VInt 12; VStr "apple";
   VFloat (Fin (1 # 2)); VInt 100; VFloat NaN;
   VInt 4; VInt 100; VFloat NaN].

Definition finite (f : pyfloat) : Prop := exists q, f = Fin q.

Definition item_75000 : agg_row :=
  mkagg "4900000000001" "012" (VStr "apple") (Fin (100 # 1)) (Fin (750 # 1))
        (Fin (75000 # 1)) "週末特売".

Definition item_markup : agg_row :=
  mkagg "49<1>" "012" (VStr "<i>apple</i>") (Fin (100 # 1)) (Fin (5 # 1))
        (Fin (500 # 1)) "<b>特売</b>".

Definition two_orders : list record :=
  [ mkrecord (Some (mkdate 2024 5 1)) "012" "4900000000001" (VStr "apple")
             (Fin (3 # 1)) (Fin (100 # 1)) EmptyString;
    mkrecord (Some (mkdate 2024 5 1)) "012" "4900000000001" (VStr "apple")
             (Fin (2 # 1)) (Fin (100 # 1)) EmptyString ].

Definition nameless_then_named : list record :=
  [ mkrecord (Some (mkdate 2024 5 1)) "012" "4900000000001" (VFloat NaN)
             (Fin (3 # 1)) (Fin (100 # 1)) EmptyString;
    mkrecord (Some (mkdate 2024 5 2)) "012" "4900000000001" (VStr "apple")
             (Fin (2 # 1)) (Fin (100 # 1)) EmptyString ].

Definition summary_row_two_orders : agg_row :=
  mkagg "4900000000001" "012" (VStr "apple") (Fin (100 # 1))
        (Fin (5 # 1)) (Fin (500 # 1)) EmptyString.


Definition same_item_two_prices : list record :=
  [ mkrecord (Some (mkdate 2024 5 1)) "012" "4900000000001" (VStr "apple")
             (Fin (3 # 1)) (Fin (100 # 1)) EmptyString;
    mkrecord (Some (mkdate 2024 5 2)) "012" "4900000000001" (VStr "apple")
             (Fin (2 # 1)) (Fin (120 # 1)) EmptyString;
    mkrecord (Some (mkdate 2024 5 2)) "012" "4900000000001" (VStr "apple")
             (Fin (4 # 1)) (Fin (100 # 1)) EmptyString ].

Definition pivot_two_prices : pivot_table :=
  mkpivot
    ["部門"; "JAN"; "商品名"; "単価"; "2024/05/01"; "2024/05/02";
     "合計数量"; "合計金額"; "販促"]
    [mkdate 2024 5 1; mkdate 2024 5 2]
    [ mkprow "012" "'4900000000001" (VStr "apple") (Fin (100 # 1))
             [Fin (3 # 1); Fin (4 # 1)] (Fin (7 # 1)) (Fin (700 # 1)) EmptyString;
      mkprow "012" "'4900000000001" (VStr "apple") (Fin (120 # 1))
             [Fin (0 # 1); Fin (2 # 1)] (Fin (2 # 1)) (Fin (240 # 1)) EmptyString ].

(** Every character of [s] satisfies [p]. *)
Fixpoint all_chars (p : ascii -> bool) (s : string) : bool :=
  match s with
  | EmptyString => true
  | String c s' => p c && all_chars p s'
  end.

Definition first_char (s : string) : option ascii :=
  match s with
  | EmptyString => None
  | String c _ => Some c
  end.

(** The keyword pairs that mark a header line. *)
Definition matrix_pair (line : string) : bool :=
  Str.contains "JANコード" line && Str.contains "部門" line.

Definition list_pair (line : string) : bool :=
  Str.contains "納品日" line && Str.contains "部門" line.

Definition pair_of (f : layout) (line : string) : bool :=
  match f with
  | MatrixLayout => matrix_pair line
  | ListLayout => negb (matrix_pair line) && list_pair line
  end.

Definition plain_line (line : string) : bool :=
  negb (matrix_pair line) && negb (list_pair line).

(** No header line in what the scan reads of one decoding. *)
Definition no_header (decoded : option (list string)) : bool :=
  match decoded with
  | Some lines => forallb plain_line (firstn 30 lines)
  | None => true
  end.

Definition decoded_with_title (enc : encoding) : option (list string) :=
  match enc with
  | Utf8 => Some ["発注チェックリスト"; "JANコード,部門,商品名,5/1,,"; ",,,数量,売価,販促"]
  | Cp932 => None
  end.

Definition decoded_without_header (enc : encoding) : option (list string) :=
  match enc with
  | Utf8 => None
  | Cp932 => Some ["a,b,c"; "1,2,3"]
  end.

Definition table_without_quantity : frame string :=
  mkframe ["納品日"; "部門"; "商品コード"; "商品名"; "売単価"; "発注区分"]
          [[VInt 20240501; VInt 12; VInt 4900000000001; VStr "apple";
            VInt 100; VFloat NaN]].

Definition table_quoted_codes : frame string :=
  mkframe odr_header
    [[VInt 20240501; VStr "7.9"; VStr "'4900000000001"; VStr "apple";
      VInt 3; VInt 100; VStr "None"];
     [VStr "someday"; VInt 12; VStr "4900000000002"; VStr "pear";
      VInt 1; VInt 80; VStr "特売"]].

(** A top header cell that is a label of its own, and one that is the
    placeholder of a merged cell. *)
Definition real_label (top : string) : bool :=
  negb (Str.contains "Unnamed" top) && negb (Str.contains "週合計" top).

Definition placeholder (col : string * string) : bool :=
  Str.contains "Unnamed" (fst col).

Definition table_without_jan : frame (string * string) :=
  mkframe [ ("商品コード", "Unnamed: 0_level_1"); ("部門", "Unnamed: 1_level_1");
            ("5/1", "数量"); ("Unnamed: 3_level_0", "売価") ]
          [[VInt 4900000000001; VInt 12; VInt 4; VInt 100]].

(** The characters that open or close markup or an attribute value. *)
Definition markup_char (c : ascii) : bool :=
  existsb (Ascii.eqb c) [ "<"%char; ">"%char; ascii_of_nat 34; "'"%char ].

(** The row [row] with another product name. *)
Definition with_name (row : agg_row) (name : pyval) : agg_row :=
  mkagg (agg_jan row) (agg_dept row) name (agg_price row) (agg_qty row)
        (agg_amount row) (agg_promo row).

Definition valid (d : date) : bool := valid_date (year d) (month d) (day d).


(** [s.replace(',', '')] *)
Fixpoint remove_commas (s : string) : string :=
  match s with
  | EmptyString => EmptyString
  | String c s' =>
      if Ascii.eqb c ","%char then remove_commas s' else String c (remove_commas s')
  end.

(** The rational a float stands for in a sum that skips NaN. *)
Definition qval (f : pyfloat) : Q :=
  match f with
  | Fin q => q
  | _ => 0%Q
  end.

(** The plain sum of the values of a column. *)
Fixpoint qsum (l : list pyfloat) : Q :=
  match l with
  | [] => 0%Q
  | f :: l' => (qval f + qsum l')%Q
  end.

(** A rational in lowest terms. *)
Definition reduced (q : Q) : Prop := Qred q = q.

(** The sum, over the product codes [ks], of the sums of a column within
    the group of each code. *)
Definition groups_sum (col : record -> pyfloat) (ks : list string)
    (l : list record) : Q :=
  qsum (map (fun j => Fin (qsum (map col (jan_group j l)))) ks).



(** A float that holds a whole number, or is NaN (skipped by the sums). *)
Definition whole (f : pyfloat) : bool :=
  match f with
  | Fin q => (Z.pos (Qden (Qred q)) =? 1)
  | NaN => true
  | Inf _ => false
  end.

(** The sum of the magnitudes of the values of a column. *)
Fixpoint abs_sum (l : list pyfloat) : Q :=
  match l with
  | [] => 0%Q
  | f :: l' => (Qabs (qval f) + abs_sum l')%Q
  end.

(** An ASCII character that is no white space. *)
Definition plain_ascii (c : ascii) : bool :=
  negb (Str.is_space c) && (nat_of_ascii c <? 128)%nat.

(** * Properties *)

(** ** Department normalizer *)

Lemma length_repeat_char c n : String.length (Str.repeat_char c n) = n.
Proof. induction n; simpl; congruence. Qed.

Lemma length_app (a b : string) :
  String.length (a ++ b) = (String.length a + String.length b)%nat.
Proof. induction a; simpl; congruence. Qed.

Lemma zfill_length w s : (w <= String.length (Str.zfill w s))%nat.
Proof.
  unfold Str.zfill. destruct s as [|c s']; simpl.
  - rewrite length_repeat_char. lia.
  - destruct (Ascii.eqb c "-" || Ascii.eqb c "+")%bool; simpl;
      rewrite length_app, length_repeat_char; simpl; lia.
Qed.

Lemma three_digits_table :
  forallb three_digits_ok (map Z.of_nat (seq 0 1000)) = true.
Proof. vm_compute. reflexivity. Qed.

Lemma three_digits (n : Z) :
  0 <= n <= 999 ->
  let s := Str.zfill 3 (Str.of_Z n) in
  String.length s = 3%nat /\ Str.all_digits s = true /\ Str.digits_val s = n.
Proof.
  intros Hn. pose proof three_digits_table as Ht.
  rewrite forallb_forall in Ht.
  assert (Hin : In n (map Z.of_nat (seq 0 1000))).
  { apply in_map_iff. exists (Z.to_nat n). split; [lia|]. apply in_seq. lia. }
  specialize (Ht n Hin). unfold three_digits_ok in Ht.
  apply andb_prop in Ht as [Ht H3]. apply andb_prop in Ht as [H1 H2].
  cbv zeta. repeat split.
  - now apply Nat.eqb_eq.
  - exact H2.
  - now apply Z.eqb_eq.
Qed.

(** The slip that the amended C8 leaves out: an infinite department value
    escapes the [except (ValueError, TypeError)] clause. *)
Lemma clean_dept_infinity_raises (L : PyLib) (neg : bool) :
  clean_dept L (VFloat (Inf neg)) = Raise OverflowError.
Proof. reflexivity. Qed.

(** C8, as stated, fails: the department 1234 comes back as the four
    characters [1234], not as a three-digit string. *)
Lemma C8_counterexample :
  ~ (forall v : pyval,
        exists s, clean_dept ExampleLib.lib v = Ok s /\ String.length s = 3%nat).
Proof.
  intros H. destruct (H (VInt 1234)) as [s [Hs Hl]].
  vm_compute in Hs. injection Hs as <-. discriminate Hl.
Qed.

Lemma round_to_double_exact (a : Z) :
  0 <= a <= 2 ^ 53 -> round_to_double a = a.
Proof.
  intros [H0 H1]. unfold round_to_double.
  destruct (a <? 2 ^ 53) eqn:E; [reflexivity|].
  apply Z.ltb_ge in E. assert (a = 2 ^ 53) by lia. subst a.
  vm_compute. reflexivity.
Qed.

Lemma float_of_int_exact (z : Z) :
  Z.abs z <= 2 ^ 53 -> float_of_int z = Ok (Fin (inject_Z z)).
Proof.
  intros H. unfold float_of_int.
  rewrite round_to_double_exact by (split; [apply Z.abs_nonneg|exact H]).
  replace (2 ^ 1024 <=? Z.abs z) with false.
  - cbv zeta. now rewrite Z.mul_comm, Z.abs_sgn.
  - symmetry. apply Z.leb_gt.
    apply Z.le_lt_trans with (2 ^ 53); [exact H|reflexivity].
Qed.

(** The outcomes of [int(float(v))]. *)
Lemma dept_int_cases (L : PyLib) (v : pyval) :
  (exists n, dept_int L v = Ok n) \/ dept_int L v = Raise ValueError \/
  dept_int L v = Raise TypeError \/ dept_int L v = Raise OverflowError.
Proof.
  assert (Hf : forall f,
            (exists n, py_int f = Ok n) \/ py_int f = Raise ValueError \/
            py_int f = Raise TypeError \/ py_int f = Raise OverflowError).
  { intros [q|neg|]; cbn [py_int];
      [left; eexists; reflexivity | now do 3 right | now right; left]. }
  unfold dept_int. destruct v as [|z|f|s]; cbn [py_float bind].
  - now right; right; left.
  - unfold float_of_int.
    destruct (2 ^ 1024 <=? round_to_double (Z.abs z)); cbn [bind];
      [now do 3 right|apply Hf].
  - apply Hf.
  - destruct (float_of_str L s) as [f|]; cbn [bind]; [apply Hf|now right; left].
Qed.

(** [clean_dept] in terms of the integer it renders. *)
Lemma clean_dept_by_int (L : PyLib) (v : pyval) :
  clean_dept L v =
  match dept_int L v with
  | Ok n => Ok (Str.zfill 3 (Str.of_Z n))
  | Raise ValueError | Raise TypeError => Ok "000"
  | Raise e => Raise e
  end.
Proof.
  unfold clean_dept, clean_dept_body, dept_int.
  destruct (py_float L v) as [f|e]; cbn [bind]; [|destruct e; reflexivity].
  destruct (py_int f) as [n|e]; [reflexivity|destruct e; reflexivity].
Qed.

(** C8, amended: whenever the numeric coercion of the input does not
    overflow, [clean_dept] returns without raising a string of at least
    three characters: the zero-padded decimal rendering of the coerced
    value truncated toward zero (exactly three digits when it lies in
    0..999) -- for an [int] of magnitude up to 2^53 the number itself, for
    a finite float or numeric text the integer part --, and the literal
    [000] when the coercion fails ([None], NaN, text that is no number). *)
Theorem C8_clean_dept_padded (L : PyLib) (v : pyval) :
  dept_int L v <> Raise OverflowError ->
  exists s,
    clean_dept L v = Ok s /\ (3 <= String.length s)%nat /\
    match dept_int L v with
    | Ok n =>
        s = Str.zfill 3 (Str.of_Z n) /\
        (0 <= n <= 999 ->
         String.length s = 3%nat /\ Str.all_digits s = true /\ Str.digits_val s = n)
    | Raise _ => s = "000"
    end /\
    (forall z, v = VInt z -> Z.abs z <= 2 ^ 53 -> s = Str.zfill 3 (Str.of_Z z)) /\
    (forall q, v = VFloat (Fin q) ->
       s = Str.zfill 3 (Str.of_Z (Z.quot (Qnum q) (Z.pos (Qden q))))) /\
    (forall t q, v = VStr t -> float_of_str L t = Some (Fin q) ->
       s = Str.zfill 3 (Str.of_Z (Z.quot (Qnum q) (Z.pos (Qden q))))) /\
    (v = VNone \/ v = VFloat NaN \/
     (exists t, v = VStr t /\
                (float_of_str L t = None \/ float_of_str L t = Some NaN)) ->
     s = "000").
Proof.
  intros Hov. rewrite clean_dept_by_int.
  assert (Hint : forall z, Z.abs z <= 2 ^ 53 -> dept_int L (VInt z) = Ok z).
  { intros z Hz. unfold dept_int. cbn [py_float].
    rewrite (float_of_int_exact z Hz). cbn [bind py_int inject_Z Qnum Qden].
    now rewrite Z.quot_1_r. }
  destruct (dept_int_cases L v) as [[n Hn]|[He|[He|He]]]; [ | | | congruence].
  - rewrite Hn. eexists. split; [reflexivity|]. split; [apply zfill_length|].
    split; [split; [reflexivity|apply three_digits]|].
    split; [|split; [|split]].
    + intros z -> Hz. rewrite (Hint z Hz) in Hn. now injection Hn as <-.
    + intros q ->. unfold dept_int in Hn. cbn in Hn. now injection Hn as <-.
    + intros t q -> Ht. unfold dept_int in Hn. cbn [py_float] in Hn.
      rewrite Ht in Hn. cbn in Hn. now injection Hn as <-.
    + intros [->|[->|[t [-> [Ht|Ht]]]]]; unfold dept_int in Hn;
        cbn [py_float] in Hn; rewrite ?Ht in Hn; discriminate Hn.
  - rewrite He. eexists. split; [reflexivity|]. split; [simpl; lia|].
    split; [reflexivity|]. split; [|split; [|split]]; try reflexivity.
    + intros z -> Hz. rewrite (Hint z Hz) in He. discriminate He.
    + intros q ->. discriminate He.
    + intros t q -> Ht. unfold dept_int in He. cbn [py_float] in He.
      rewrite Ht in He. discriminate He.
  - rewrite He. eexists. split; [reflexivity|]. split; [simpl; lia|].
    split; [reflexivity|]. split; [|split; [|split]]; try reflexivity.
    + intros z -> Hz. rewrite (Hint z Hz) in He. discriminate He.
    + intros q ->. discriminate He.
    + intros t q -> Ht. unfold dept_int in He. cbn [py_float] in He.
      rewrite Ht in He. discriminate He.
Qed.

Lemma C8_witness :
  dept_int ExampleLib.lib (VStr "12.7") <> Raise OverflowError /\
  clean_dept ExampleLib.lib (VStr "12.7") = Ok "012".
Proof.
  assert (H : dept_int ExampleLib.lib (VStr "12.7") <> Raise OverflowError)
    by (vm_compute; discriminate).
  split; [exact H|].
  destruct (C8_clean_dept_padded ExampleLib.lib (VStr "12.7") H)
    as [s [Hs [_ [_ [_ [_ [Ht _]]]]]]].
  rewrite Hs. f_equal.
  exact (Ht "12.7" (127 # 10) eq_refl eq_refl).
Defined.

Example clean_dept_large_ints :
  clean_dept ExampleLib.lib (VInt (2 ^ 53 + 1)) = Ok "9007199254740992" /\
  clean_dept ExampleLib.lib (VInt (2 ^ 1024 - 2 ^ 970)) = Raise OverflowError /\
  (exists s, clean_dept ExampleLib.lib (VInt (2 ^ 1024 - 2 ^ 970 - 1)) = Ok s).
Proof.
  split; [vm_compute; reflexivity|]. split; [vm_compute; reflexivity|].
  eexists. vm_compute. reflexivity.
Qed.

(** ** Date normalizer *)

Lemma date_ctor_c_int (y m d : Z) :
  c_int y ->
  date_ctor y m d = if valid_date y m d then Ok (mkdate y m d) else Raise ValueError.
Proof.
  intros [Hlo Hhi]. unfold date_ctor.
  replace ((y <? - 2 ^ 31) || (2 ^ 31 <=? y))%bool with false; [reflexivity|].
  symmetry. apply orb_false_iff. split; [apply Z.ltb_ge|apply Z.leb_gt]; lia.
Qed.

Lemma parse_date_md_spec (L : PyLib) (s : string) (y : Z) :
  c_int y ->
  parse_date_md L s y = Ok (first_some (md_in_year L s y) (to_datetime_str L s)).
Proof.
  intros Hy. unfold parse_date_md, md_in_year, parse_date_general.
  destruct (match_md L s) as [[m d]|]; [|reflexivity].
  rewrite (date_ctor_c_int y m d Hy).
  destruct (valid_date y m d); reflexivity.
Qed.

(** The date normalizer before its last two strategies: what the
    eight-digit strategy gives, or the [M/D] strategy and what follows. *)
Lemma parse_date_steps (L : PyLib) (s : string) (y : Z) :
  c_int y ->
  match eight_digits L s with
  | Some ds =>
      match strptime_Ymd ds with
      | Ok dt => Ok (Some dt)
      | Raise _ => parse_date_md L s y
      end
  | None => parse_date_md L s y
  end
  = Ok (first_some (ymd_of_8_digits L s)
          (first_some (md_in_year L s y) (to_datetime_str L s))).
Proof.
  intros Hy. unfold ymd_of_8_digits.
  destruct (eight_digits L s) as [ds|]; [|now apply parse_date_md_spec].
  unfold strptime_Ymd.
  destruct ds as [|y1 [|y2 [|y3 [|y4 [|m1 [|m2 [|d1 [|d2 [|x ds]]]]]]]]];
    try (now apply parse_date_md_spec).
  destruct (month_field m1 m2 && day_field d1 d2 && valid_date _ _ _)%bool;
    [reflexivity|now apply parse_date_md_spec].
Qed.

(** C6, as stated, fails: a token that opens with an invalid [M/D] pair is
    not answered with an absent result but handed on to the general parser,
    which reads [31/12/2024] as 31 December 2024. *)
Lemma C6_counterexample :
  ~ (forall (L : PyLib) (s : string) (y m d : Z),
        match_md L s = Some (m, d) -> valid_date y m d = false ->
        parse_date_str L (VStr s) (Some y) = Ok None).
Proof.
  intros H.
  specialize (H ExampleLib.lib "31/12/2024" 2024 31 12 eq_refl eq_refl).
  vm_compute in H. discriminate H.
Qed.

(** C6, amended: for every token and every default year that fits a
    machine integer (today's year when none is supplied),
    [parse_date_str] never raises and returns: nothing for an empty token
    or [nan] in any letter case; otherwise the exact date of a valid
    eight-digit [YYYYMMDD] token; otherwise month and day of a leading
    [M/D] pair in the default year when that is a valid date; otherwise
    -- also when the [M/D] pair is invalid -- whatever the general parser
    makes of the token, nothing when it fails too. *)
Theorem C6_parse_date_str (L : PyLib) (v : pyval) (default_year : option Z) :
  c_int (effective_year L default_year) ->
  parse_date_str L v default_year =
  Ok (normalize_date_spec L (Str.strip (py_str L v))
        (effective_year L default_year)).
Proof.
  intros Hy. unfold parse_date_str, normalize_date_spec.
  fold (effective_year L default_year).
  set (s := Str.strip (py_str L v)). set (y := effective_year L default_year) in *.
  destruct ((String.length s =? 0)%nat || String.eqb (Str.lower s) "nan")%bool;
    [reflexivity|].
  now apply parse_date_steps.
Qed.

Lemma C6_witness :
  c_int (effective_year ExampleLib.lib (Some 2023)) /\
  parse_date_str ExampleLib.lib (VStr " 5/1 ") (Some 2023) =
  Ok (Some (mkdate 2023 5 1)).
Proof.
  assert (Hy : c_int (effective_year ExampleLib.lib (Some 2023))).
  { unfold c_int; simpl; lia. }
  split; [exact Hy|].
  rewrite (C6_parse_date_str ExampleLib.lib (VStr " 5/1 ") (Some 2023) Hy).
  reflexivity.
Defined.

Example parse_date_8_digits :
  parse_date_str ExampleLib.lib (VStr "20240229") None = Ok (Some (mkdate 2024 2 29)).
Proof. reflexivity. Qed.

Example parse_date_feb_30 :
  parse_date_str ExampleLib.lib (VStr "2/30") (Some 2024) = Ok None.
Proof. reflexivity. Qed.

Example parse_date_nan :
  parse_date_str ExampleLib.lib (VFloat NaN) None = Ok None.
Proof. reflexivity. Qed.

(** ** Transactional parser *)

Lemma mem_str_In (c : string) (l : list string) : mem_str c l = true <-> In c l.
Proof.
  unfold mem_str. rewrite existsb_exists. split.
  - intros [x [Hx He]]. apply String.eqb_eq in He. now subst.
  - intros H. exists c. split; [exact H|apply String.eqb_refl].
Qed.

(** C5: a table that lacks any of the three required columns -- delivery
    date, department, product code -- makes the transactional parser
    return the empty record set, whatever else the table holds; it neither
    raises nor guesses. *)
Theorem C5_missing_required_column (L : PyLib) (df : frame string) :
  (exists c, In c required_columns /\ ~ In c (columns df)) ->
  process_format_1 L df = Ok [].
Proof.
  intros [c [Hreq Hmiss]]. unfold process_format_1.
  destruct (forallb (fun c => mem_str c (columns df)) required_columns) eqn:Hall.
  - exfalso. rewrite forallb_forall in Hall.
    apply Hmiss, mem_str_In, Hall, Hreq.
  - reflexivity.
Qed.

Lemma C5_witness :
  (exists c, In c required_columns /\ ~ In c (columns table_without_code)) /\
  process_format_1 ExampleLib.lib table_without_code = Ok [].
Proof.
  assert (H : exists c, In c required_columns /\ ~ In c (columns table_without_code)).
  { exists "商品コード". split; [simpl; auto|].
    simpl. intros [H|[H|[H|[H|[H|[H|[]]]]]]]; discriminate H. }
  split; [exact H|].
  exact (C5_missing_required_column ExampleLib.lib table_without_code H).
Defined.

Lemma zip_records_In ds ps js ns qs us os r :
  In r (zip_records ds ps js ns qs us os) ->
  exists i, nth_error ds i = Some (rec_date r) /\
            nth_error qs i = Some (quantity r) /\
            nth_error us i = Some (unit_price r).
Proof.
  revert ps js ns qs us os.
  induction ds as [|d ds IH]; intros ps js ns qs us os; [intros []|].
  destruct ps as [|p ps], js as [|j js], ns as [|n ns], qs as [|q qs],
    us as [|u us], os as [|o os]; simpl; try (intros []; fail).
  intros [<-|Hin].
  - exists O. simpl. auto.
  - destruct (IH _ _ _ _ _ _ Hin) as [i Hi]. exists (S i). exact Hi.
Qed.

Lemma fillna0_number (f : pyfloat) : isnan (fillna0 f) = false.
Proof. destruct f; reflexivity. Qed.

Lemma fillna0_default (L : PyLib) (v : pyval) :
  isnan (to_numeric L v) = true -> fillna0 (to_numeric L v) = fzero.
Proof. unfold fillna0. intros ->. reflexivity. Qed.

Lemma column_Ok (df : frame string) (name : string) (l : list pyval) :
  column df name = Ok l ->
  exists i, index_of String.eqb name (columns df) = Some i /\
            l = map (cell i) (rows df).
Proof.
  unfold column. destruct (index_of _ _ _) as [i|]; [|discriminate].
  intros H. injection H as <-. eauto.
Qed.

Lemma bind_Ok {A B} (r : res A) (k : A -> res B) (b : B) :
  bind r k = Ok b -> exists a, r = Ok a /\ k a = Ok b.
Proof. destruct r; simpl; [eauto|discriminate]. Qed.

Lemma nth_error_map_row {A B} (f : A -> B) (l : list A) (i : nat) (b : B) :
  nth_error (map f l) i = Some b -> exists a, nth_error l i = Some a /\ b = f a.
Proof.
  revert i. induction l as [|a l IH]; intros [|i]; simpl; try discriminate.
  - intros H. injection H as <-. eauto.
  - apply IH.
Qed.

Lemma concatM_In {A B} (f : A -> res (list B)) (l : list A) (out : list B) (b : B) :
  concatM f l = Ok out -> In b out ->
  exists a x, In a l /\ f a = Ok x /\ In b x.
Proof.
  revert out. induction l as [|a l IH]; simpl; intros out H Hin.
  - injection H as <-. destruct Hin.
  - apply bind_Ok in H as [x [Hx H]]. apply bind_Ok in H as [xs [Hxs H]].
    injection H as <-. apply in_app_or in Hin as [Hin|Hin].
    + exists a, x. auto.
    + destruct (IH xs Hxs Hin) as [a' [x' [Ha' H']]]. exists a', x'. auto.
Qed.

(** What the transactional parser stores in a surviving row. *)
Lemma process_format_1_records (L : PyLib) (df : frame string)
    (out : list record) (r : record) :
  process_format_1 L df = Ok out -> In r out ->
  rec_date r <> None /\
  exists row iq ip,
    In row (rows df) /\
    index_of String.eqb COL_QTY (map rename (columns df)) = Some iq /\
    index_of String.eqb COL_PRICE (map rename (columns df)) = Some ip /\
    quantity r = fillna0 (to_numeric L (cell iq row)) /\
    unit_price r = fillna0 (to_numeric L (cell ip row)).
Proof.
  unfold process_format_1.
  destruct (negb _); [intros H; injection H as <-; intros []|].
  intros H Hin.
  apply bind_Ok in H as [raw_date [_ H]]. apply bind_Ok in H as [dates [_ H]].
  apply bind_Ok in H as [raw_dept [_ H]]. apply bind_Ok in H as [depts [_ H]].
  apply bind_Ok in H as [raw_jan [_ H]]. apply bind_Ok in H as [raw_qty [Hq H]].
  apply bind_Ok in H as [raw_price [Hp H]]. apply bind_Ok in H as [raw_promo [_ H]].
  apply bind_Ok in H as [names [_ H]]. injection H as <-.
  unfold dropna_date in Hin. apply filter_In in Hin as [Hin Hdate].
  split.
  { unfold has_date in Hdate. destruct (rec_date r); [discriminate|discriminate]. }
  apply zip_records_In in Hin as [i [_ [Hqi Hpi]]].
  apply column_Ok in Hq as [iq [Hiq ->]]. apply column_Ok in Hp as [ip [Hip ->]].
  simpl in Hiq, Hip. rewrite map_map in Hqi, Hpi.
  apply nth_error_map_row in Hqi as [row [Hrow Hqr]].
  apply nth_error_map_row in Hpi as [row' [Hrow' Hpr]].
  assert (row' = row) by congruence. subst row'.
  exists row, iq, ip. repeat split; auto. eapply nth_error_In; eauto.
Qed.

Lemma date_cell_record_quantity (L : PyLib) new_cols row dept_val jan_val
    name_val date_str (x : list record) (r : record) :
  date_cell_record L new_cols row dept_val jan_val name_val date_str = Ok x ->
  In r x ->
  isnan (quantity r) = false /\ feq (quantity r) fzero = false.
Proof.
  unfold date_cell_record.
  destruct (_ || _)%bool; [intros H; injection H as <-; intros []|].
  destruct (isnan _ || feq _ fzero)%bool eqn:Hq;
    [intros H; injection H as <-; intros []|].
  apply orb_false_iff in Hq as [Hn Hz].
  intros H. apply bind_Ok in H as [d [_ H]]. apply bind_Ok in H as [p [_ H]].
  injection H as <-. intros [<-|[]]. simpl. auto.
Qed.

(** C1, as stated, fails: nothing in either parser rejects or clamps a
    negative number, so an order quantity of -3 is stored as -3. *)
Lemma C1_counterexample :
  exists r,
    process_format_1 ExampleLib.lib table_negative_quantity = Ok [r] /\
    quantity r = Fin (-3 # 1) /\ fge (quantity r) fzero = false.
Proof. eexists. split; [vm_compute; reflexivity|]. split; reflexivity. Qed.

(** C1, amended: every record the transactional parser stores has a date
    that is not null, and its quantity and unit price are numbers, never
    NaN: the parsed value of the source cell, 0 when that cell does not
    parse (a negative number is kept as it is).  Every record the matrix
    parser stores has a quantity that is a number other than 0. *)
Theorem C1_stored_records (L : PyLib) :
  (forall (df : frame string) (out : list record) (r : record),
      process_format_1 L df = Ok out -> In r out ->
      rec_date r <> None /\
      isnan (quantity r) = false /\ isnan (unit_price r) = false /\
      exists row iq ip,
        In row (rows df) /\
        index_of String.eqb COL_QTY (map rename (columns df)) = Some iq /\
        index_of String.eqb COL_PRICE (map rename (columns df)) = Some ip /\
        quantity r = fillna0 (to_numeric L (cell iq row)) /\
        unit_price r = fillna0 (to_numeric L (cell ip row)) /\
        (isnan (to_numeric L (cell iq row)) = true -> quantity r = fzero) /\
        (isnan (to_numeric L (cell ip row)) = true -> unit_price r = fzero)) /\
  (forall (df : frame (string * string)) (out : list record) (r : record),
      process_format_2_from_df L df = Ok out -> In r out ->
      isnan (quantity r) = false /\ feq (quantity r) fzero = false).
Proof.
  split.
  - intros df out r H Hin.
    destruct (process_format_1_records L df out r H Hin)
      as [Hd [row [iq [ip [Hrow [Hiq [Hip [Hq Hp]]]]]]]].
    split; [exact Hd|]. split; [rewrite Hq; apply fillna0_number|].
    split; [rewrite Hp; apply fillna0_number|].
    exists row, iq, ip. repeat split; auto.
    + intros Hn. rewrite Hq. now apply fillna0_default.
    + intros Hn. rewrite Hp. now apply fillna0_default.
  - intros df out r H Hin. unfold process_format_2_from_df in H.
    destruct (concatM_In _ _ _ _ H Hin) as [row [x [_ [Hx Hrx]]]].
    unfold row_records in Hx.
    destruct (isna _); [injection Hx as <-; destruct Hrx|].
    destruct (concatM_In _ _ _ _ Hx Hrx) as [t [y [_ [Hy Hry]]]].
    eapply date_cell_record_quantity; eauto.
Qed.

Lemma C1_witness :
  process_format_1 ExampleLib.lib table_unparsed_quantity
    = Ok [record_unparsed_quantity] /\
  rec_date record_unparsed_quantity <> None /\
  isnan (quantity record_unparsed_quantity) = false.
Proof.
  assert (H : process_format_1 ExampleLib.lib table_unparsed_quantity
              = Ok [record_unparsed_quantity]) by (vm_compute; reflexivity).
  assert (Hin : In record_unparsed_quantity [record_unparsed_quantity])
    by (left; reflexivity).
  destruct (proj1 (C1_stored_records ExampleLib.lib)
              table_unparsed_quantity _ _ H Hin) as [Hd [Hq _]].
  split; [exact H|]. split; [exact Hd|exact Hq].
Defined.

(** The slip that the amended C1 leaves out: the matrix parser has no
    counterpart of the transactional parser's [dropna] and no [fillna], so
    a date label that does not parse and a missing price are stored as
    they are. *)
Example matrix_keeps_null_date_and_price :
  process_format_2_from_df ExampleLib.lib
    (mkframe [ ("JANコード", "Unnamed: 0_level_1"); ("初回", "数量") ]
             [[VInt 4900000000001; VInt 4]])
  = Ok [ mkrecord None "000" "4900000000001" (VStr EmptyString)
                  (Fin (4 # 1)) NaN EmptyString ].
Proof. vm_compute. reflexivity. Qed.

(** With no default year supplied, the normalizer returns. *)
Lemma parse_date_str_today (L : PyLib) (v : pyval) :
  c_int (today_year L) ->
  parse_date_str L v None =
  Ok (normalize_date_spec L (Str.strip (py_str L v)) (today_year L)).
Proof.
  intros Hy. unfold parse_date_str, normalize_date_spec.
  set (s := Str.strip (py_str L v)).
  destruct ((String.length s =? 0)%nat || String.eqb (Str.lower s) "nan")%bool;
    [reflexivity|].
  now apply parse_date_steps.
Qed.

(** ** Matrix parser *)

(** The body run for one (row, date group) pair emits no record when the
    quantity cell of the group is missing, does not parse, or is exactly
    0, and exactly one record -- carrying that quantity -- for any other
    number, provided the label is a date label and the department
    normalizer returns. *)
Lemma date_cell_record_cases (L : PyLib) (new_cols : list (option string * string))
    (row : list pyval) (dept_val jan_val name_val : pyval) (t : string) :
  let q := to_numeric L (row_get new_cols row (Some t, "数量")) in
  ((isnan q = true \/ feq q fzero = true) ->
   date_cell_record L new_cols row dept_val jan_val name_val t = Ok []) /\
  (isnan q = false -> feq q fzero = false ->
   t <> EmptyString -> t <> "nan" -> c_int (today_year L) ->
   forall p, clean_dept L dept_val = Ok p ->
   exists r,
     date_cell_record L new_cols row dept_val jan_val name_val t = Ok [r] /\
     quantity r = q /\ department r = p /\ jan r = clean_jan L jan_val /\
     product_name r = name_val /\
     unit_price r = to_numeric L (row_get new_cols row (Some t, "売価"))).
Proof.
  intros q. unfold date_cell_record. fold q. split.
  - intros Hq. destruct (_ || String.eqb t "nan")%bool; [reflexivity|].
    destruct Hq as [ -> | -> ]; [reflexivity|]. now rewrite orb_true_r.
  - intros Hn Hz Hne Hnan Hy p Hp.
    assert (Hlen : (String.length t =? 0)%nat = false).
    { destruct t; [congruence|reflexivity]. }
    apply String.eqb_neq in Hnan. rewrite Hlen, Hnan, Hn, Hz. cbn [orb].
    rewrite (parse_date_str_today L (VStr t) Hy), Hp. cbn [bind].
    eexists. split; [reflexivity|]. simpl. auto.
Qed.

Lemma date_cell_record_label (L : PyLib) (new_cols : list (option string * string))
    (row : list pyval) (dept_val jan_val name_val : pyval) (t : string) :
  t = EmptyString \/ t = "nan" ->
  date_cell_record L new_cols row dept_val jan_val name_val t = Ok [].
Proof. intros [ -> | -> ]; reflexivity. Qed.

Lemma date_cell_record_returns (L : PyLib) (new_cols : list (option string * string))
    (row : list pyval) (dept_val jan_val name_val : pyval) (t : string) (p : string) :
  c_int (today_year L) -> clean_dept L dept_val = Ok p ->
  exists l, date_cell_record L new_cols row dept_val jan_val name_val t = Ok l.
Proof.
  intros Hy Hp. unfold date_cell_record.
  destruct (_ || String.eqb t "nan")%bool; [eexists; reflexivity|].
  destruct (_ || _)%bool; [eexists; reflexivity|].
  rewrite (parse_date_str_today L (VStr t) Hy), Hp. cbn [bind].
  eexists. reflexivity.
Qed.

Lemma concatM_flat {A B : Type} (f : A -> res (list B)) (g : A -> list B)
    (l : list A) :
  (forall a, In a l -> f a = Ok (g a)) -> concatM f l = Ok (flat_map g l).
Proof.
  induction l as [|a l IH]; intros H; [reflexivity|].
  cbn [concatM flat_map]. rewrite (H a (or_introl eq_refl)). cbn [bind].
  rewrite IH by (intros b Hb; apply H; now right). reflexivity.
Qed.

Lemma flat_map_nil {A B : Type} (l : list A) :
  flat_map (fun _ : A => @nil B) l = [].
Proof. induction l; simpl; auto. Qed.

Lemma key_eqb_eq (a b : option string * string) : key_eqb a b = true <-> a = b.
Proof.
  destruct a as [[x|] u], b as [[y|] v]; unfold key_eqb; cbn [fst snd].
  - rewrite andb_true_iff, !String.eqb_eq. split.
    + intros [ -> -> ]. reflexivity.
    + intros H. injection H as -> ->. auto.
  - split; [discriminate|discriminate].
  - split; [discriminate|discriminate].
  - rewrite String.eqb_eq. split.
    + intros ->. reflexivity.
    + intros H. injection H as ->. reflexivity.
Qed.

Lemma index_of_absent (k : option string * string)
    (l : list (option string * string)) :
  ~ In k l -> index_of key_eqb k l = None.
Proof.
  induction l as [|x l IH]; intros H; [reflexivity|]. cbn [index_of].
  destruct (key_eqb k x) eqn:E.
  - apply key_eqb_eq in E. subst x. exfalso. apply H. now left.
  - rewrite IH; [reflexivity|]. intros Hin. apply H. now right.
Qed.

(** In a header without a repeated key, the column a key selects is the
    one column that carries it. *)
Lemma index_of_nth (k : option string * string)
    (l : list (option string * string)) (i : nat) :
  NoDup l -> nth_error l i = Some k -> index_of key_eqb k l = Some i.
Proof.
  intros Hnd. revert i. induction Hnd as [|x l Hx Hnd IH]; intros i Hi.
  - destruct i; discriminate Hi.
  - cbn [index_of]. destruct i as [|i]; cbn [nth_error] in Hi.
    + injection Hi as ->. now rewrite (proj2 (key_eqb_eq k k) eq_refl).
    + destruct (key_eqb k x) eqn:E.
      * apply key_eqb_eq in E. subst x. exfalso. apply Hx.
        eapply nth_error_In. exact Hi.
      * now rewrite (IH i Hi).
Qed.

(** C4, as stated, fails: a row without a product code is skipped as a
    whole, so its quantities 0.5 (under 5/1) and 4 (under 5/2) produce no
    record. *)
Lemma C4_counterexample :
  let df := mkframe matrix_header [matrix_row_without_code] in
  let new_cols := fill_tops None (columns df) in
  add_date_cols new_cols [] = ["5/1"; "5/2"] /\
  to_numeric ExampleLib.lib (row_get new_cols matrix_row_without_code (Some "5/1", "数量"))
  = Fin (1 # 2) /\
  to_numeric ExampleLib.lib (row_get new_cols matrix_row_without_code (Some "5/2", "数量"))
  = Fin (4 # 1) /\
  process_format_2_from_df ExampleLib.lib df = Ok [].
Proof. repeat split. Qed.

(** C4, amended: for every table whose filled header has no repeated key,
    the matrix parser returns (the current year fitting a machine integer,
    the department normalizer returning on the rows that have a product
    code) and what it returns is, row after row and date label after date
    label, the records of the (row, date group) pairs: no record when the
    quantity cell of the pair is missing, does not parse, or is exactly 0;
    no record either when the row has no product code or the label is
    empty or [nan]; and exactly one record, carrying that quantity, for
    any other number.  The quantity cell is the row's cell in the one
    column under the label that is headed by the quantity field. *)
Theorem C4_quantity_cell (L : PyLib) (df : frame (string * string)) :
  let new_cols := fill_tops None (columns df) in
  let date_cols := add_date_cols new_cols [] in
  let code := fun row => info_get (base_info new_cols row) "JANコード" VNone in
  let dept := fun row => info_get (base_info new_cols row) "部門" (VStr "000") in
  let qty := fun row t => to_numeric L (row_get new_cols row (Some t, "数量")) in
  NoDup new_cols ->
  c_int (today_year L) ->
  (forall row, In row (rows df) -> isna (code row) = false ->
     exists p, clean_dept L (dept row) = Ok p) ->
  exists per : list pyval -> string -> list record,
    process_format_2_from_df L df
    = Ok (flat_map (fun row => flat_map (per row) date_cols) (rows df)) /\
    forall row t, In row (rows df) ->
      (forall i, nth_error new_cols i = Some (Some t, "数量") ->
         qty row t = to_numeric L (cell i row)) /\
      (~ In (Some t, "数量") new_cols -> per row t = []) /\
      (isnan (qty row t) = true \/ feq (qty row t) fzero = true ->
       per row t = []) /\
      (isna (code row) = true \/ t = EmptyString \/ t = "nan" ->
       per row t = []) /\
      (isnan (qty row t) = false -> feq (qty row t) fzero = false ->
       isna (code row) = false -> t <> EmptyString -> t <> "nan" ->
       exists r, per row t = [r] /\ quantity r = qty row t /\
                 jan r = clean_jan L (code row) /\
                 clean_dept L (dept row) = Ok (department r)).
Proof.
  intros new_cols date_cols code dept qty Hnd Hy Hdept.
  set (name := fun row => info_get (base_info new_cols row) "商品名" (VStr EmptyString)).
  set (per := fun (row : list pyval) (t : string) =>
                if isna (code row) then []
                else match date_cell_record L new_cols row (dept row) (code row)
                             (name row) t with
                     | Ok l => l
                     | Raise _ => []
                     end).
  assert (Hskip : forall row t,
            isnan (qty row t) = true \/ feq (qty row t) fzero = true ->
            per row t = []).
  { intros row t Hq. unfold per. destruct (isna (code row)); [reflexivity|].
    now rewrite (proj1 (date_cell_record_cases L new_cols row (dept row)
                          (code row) (name row) t) Hq). }
  exists per. split.
  - unfold process_format_2_from_df. cbv zeta. fold new_cols. fold date_cols.
    apply concatM_flat. intros row Hrow. unfold row_records. cbv zeta.
    fold (code row). fold (dept row). fold (name row). unfold per.
    destruct (isna (code row)) eqn:Hc.
    + now rewrite flat_map_nil.
    + apply concatM_flat. intros t _.
      destruct (Hdept row Hrow Hc) as [p Hp].
      destruct (date_cell_record_returns L new_cols row (dept row) (code row)
                  (name row) t p Hy Hp) as [l ->].
      reflexivity.
  - intros row t Hrow.
    split.
    { intros i Hi. unfold qty, row_get.
      now rewrite (index_of_nth _ _ _ Hnd Hi). }
    split.
    { intros Hin. apply Hskip. left. unfold qty, row_get.
      now rewrite (index_of_absent _ _ Hin). }
    split; [apply Hskip|].
    split.
    { intros [Hc|Ht]; unfold per; [now rewrite Hc|].
      destruct (isna (code row)); [reflexivity|].
      now rewrite (date_cell_record_label L new_cols row _ _ _ t Ht). }
    intros Hn Hz Hc Hne Hnan.
    destruct (Hdept row Hrow Hc) as [p Hp].
    destruct (proj2 (date_cell_record_cases L new_cols row (dept row)
                       (code row) (name row) t) Hn Hz Hne Hnan Hy p Hp)
      as [r [Hr [Hq [Hd [Hj _]]]]].
    exists r. unfold per. rewrite Hc, Hr.
    split; [reflexivity|]. split; [exact Hq|]. split; [exact Hj|].
    now rewrite Hd.
Qed.

Lemma C4_witness :
  exists per : list pyval -> string -> list record,
    process_format_2_from_df ExampleLib.lib (mkframe matrix_header [matrix_row_half])
    = Ok (flat_map (fun row => flat_map (per row) ["5/1"; "5/2"]) [matrix_row_half]) /\
    (exists r, per matrix_row_half "5/1" = [r] /\ quantity r = Fin (1 # 2)) /\
    per matrix_row_half "5/2" = [].
Proof.
  destruct (C4_quantity_cell ExampleLib.lib
              (mkframe matrix_header [matrix_row_half])) as [per [Hout Hper]].
  - vm_compute. repeat constructor; simpl; intuition discriminate.
  - unfold c_int. simpl. lia.
  - intros row [ <- | [] ] _. exists "012". reflexivity.
  - exists per. split; [exact Hout|].
    destruct (Hper matrix_row_half "5/1" (or_introl eq_refl))
      as [_ [_ [_ [_ H1]]]].
    destruct (Hper matrix_row_half "5/2" (or_introl eq_refl))
      as [_ [_ [H2 _]]].
    split.
    + destruct H1 as [r [Hr [Hq _]]]; try reflexivity; try discriminate.
      exists r. split; [exact Hr|exact Hq].
    + apply H2. right. reflexivity.
Defined.

(** A quantity of 0.5 on 5/1 and of 0 on 5/2: one record, for 5/1. *)
Example matrix_half_and_zero :
  process_format_2_from_df ExampleLib.lib (mkframe matrix_header [matrix_row_half])
  = Ok [ mkrecord (Some (mkdate 2024 5 1)) "012" "4900000000001" (VStr "apple")
                  (Fin (1 # 2)) (Fin (100 # 1)) EmptyString ].
Proof. vm_compute. reflexivity. Qed.

(** End-to-end scenario 2: quantities 0 and 4 give exactly one record. *)
Example matrix_zero_and_four :
  process_format_2_from_df ExampleLib.lib
    (mkframe matrix_header
       [[VInt 4900000000001; VInt 12; VStr "apple";
         VInt 0; VInt 100; VFloat NaN; VInt 4; VInt 100; VStr "特売"]])
  = Ok [ mkrecord (Some (mkdate 2024 5 2)) "012" "4900000000001" (VStr "apple")
                  (Fin (4 # 1)) (Fin (100 # 1)) "特売" ].
Proof. vm_compute. reflexivity. Qed.

(** ** POP renderer *)

Lemma prefix_app (a b : string) : prefix a (a ++ b) = true.
Proof.
  induction a as [|c a IH]; simpl; [now destruct b|].
  destruct (ascii_dec c c); [exact IH|congruence].
Qed.

Lemma app_assoc_str (a b c : string) : (a ++ b) ++ c = a ++ (b ++ c).
Proof. induction a; simpl; congruence. Qed.





Lemma Raise_inj {A : Type} (e1 e2 : exn) : @Raise A e1 = Raise e2 -> e1 = e2.
Proof. intros H. now injection H. Qed.

Lemma Ok_inj {A} (a b : A) : Ok a = Ok b -> a = b.
Proof. intros H. now injection H. Qed.


Lemma py_int_finite (f : pyfloat) : finite f -> exists n, py_int f = Ok n.
Proof. intros [q ->]. eexists. reflexivity. Qed.

Lemma next_day_returns (d : date) :
  year d < 9999 -> exists d', next_day d = Ok d' /\ year d' <= year d + 1.
Proof.
  intros Hy. unfold next_day.
  destruct (day d <? _); [eexists; split; [reflexivity|simpl; lia]|].
  destruct (month d <? 12); [eexists; split; [reflexivity|simpl; lia]|].
  apply Z.ltb_lt in Hy. rewrite Hy. eexists; split; [reflexivity|simpl; lia].
Qed.

Lemma calendar_loop_returns (m : list (date * pyfloat)) (n : nat)
    (i : Z) (d : date) :
  (forall d', finite (daily_get m d')) -> year d + Z.of_nat n <= 9999 ->
  exists s, calendar_loop m n i d = Ok s.
Proof.
  intros Hm. revert i d. induction n as [|n IH]; intros i d Hy.
  - eexists. reflexivity.
  - cbn [calendar_loop]. unfold calendar_part.
    destruct (py_int_finite _ (Hm d)) as [k ->]. cbn [bind].
    destruct (next_day_returns d) as [d' [-> Hd']]; [lia|]. cbn [bind].
    destruct (IH (i + 1) d') as [rest ->]; [lia|]. cbn [bind].
    eexists. reflexivity.
Qed.






(** The renderer returns a document whenever the numbers it prints are
    finite and the seven days stay inside the calendar. *)
Lemma generate_svg_returns (L : PyLib) (row : agg_row)
    (m : list (date * pyfloat)) (d : date) :
  finite (agg_price row) -> finite (agg_amount row) -> finite (agg_qty row) ->
  (forall d', finite (daily_get m d')) -> year d <= 9992 ->
  exists s, generate_svg L row m d = Ok s.
Proof.
  intros Hp Ha Hq Hm Hy. unfold generate_svg.
  destruct (calendar_loop_returns m 7 0 d Hm) as [cal ->]; [simpl; lia|].
  destruct (py_int_finite _ Hp) as [pi ->].
  destruct (py_int_finite _ Ha) as [ai ->].
  destruct (py_int_finite _ Hq) as [qi ->].
  cbn [bind]. eexists. reflexivity.
Qed.




(** End-to-end scenario 3: the document of an item with a total amount of
    75,000 and a special-sale label shows the tier [4F] in the alternate
    accent colour. *)
Example render_item_75000 :
  exists s,
    generate_svg ExampleLib.lib item_75000 [(mkdate 2024 5 2, Fin (3 # 1))]
                 (mkdate 2024 5 1) = Ok s /\
    Str.contains (T "fill=`#ef4444`>4F</text>") s = true /\
    Str.contains (T "height=`65` fill=`#fef2f2`/>") s = true /\
    Str.contains (T "fill=`#000` font-weight=`bold` text-anchor=`middle`>3</text>") s
    = true.
Proof. eexists. split; [vm_compute; reflexivity|]. repeat split; vm_compute; reflexivity. Qed.

(** C10 fails on the code: only the product name goes through
    [html.escape]; the promotion label and the product code (like the
    department) are interpolated as they are, so their markup characters
    reach the document. *)
Theorem C10_unescaped_fields :
  exists s,
    generate_svg ExampleLib.lib item_markup [] (mkdate 2024 5 1) = Ok s /\
    Str.contains ">&lt;i&gt;apple&lt;/i&gt;</text>" s = true /\
    Str.contains "><b>特売</b></text>" s = true /\
    Str.contains ">49<1></text>" s = true.
Proof. eexists. split; [vm_compute; reflexivity|]. repeat split; vm_compute; reflexivity. Qed.

(** ** Order facts about floats *)

Lemma fge_refl (a : pyfloat) : notnan a = true -> fge a a = true.
Proof.
  destruct a as [q|[|]|]; simpl; try reflexivity; try discriminate.
  intros _. apply Qle_bool_iff, Qle_refl.
Qed.

Lemma fge_total (a b : pyfloat) :
  notnan a = true -> notnan b = true -> fge a b = true \/ fge b a = true.
Proof.
  destruct a as [x|[|]|], b as [y|[|]|]; simpl; auto; try discriminate.
  intros _ _. rewrite !Qle_bool_iff.
  destruct (Qlt_le_dec x y) as [H|H]; [right; now apply Qlt_le_weak|now left].
Qed.

Lemma fge_trans (a b c : pyfloat) :
  fge a b = true -> fge b c = true -> fge a c = true.
Proof.
  destruct a as [x|[|]|], b as [y|[|]|], c as [z|[|]|]; simpl; auto;
    try discriminate.
  rewrite !Qle_bool_iff. intros H1 H2. eapply Qle_trans; eauto.
Qed.

Lemma feq_fge (a b : pyfloat) : feq a b = true -> fge b a = true.
Proof.
  destruct a as [x|[|]|], b as [y|[|]|]; simpl; auto; try discriminate.
  intros H. apply Qeq_bool_iff in H. apply Qle_bool_iff. rewrite H. apply Qle_refl.
Qed.

Lemma fgt_false_fge (y m : pyfloat) :
  notnan y = true -> notnan m = true -> fgt y m = false -> fge m y = true.
Proof.
  intros Hy Hm H. unfold fgt in H. apply andb_false_iff in H as [H|H].
  - destruct (fge_total y m Hy Hm) as [H'|H']; congruence.
  - apply negb_false_iff in H. now apply feq_fge.
Qed.

Lemma fgt_fge (y m : pyfloat) : fgt y m = true -> fge y m = true.
Proof. unfold fgt. intros H. now apply andb_prop in H as [H _]. Qed.

(** The running maximum of [fmax]. *)
Lemma fold_max_spec (l : list pyfloat) (x : pyfloat) :
  notnan x = true -> Forall (fun y => notnan y = true) l ->
  let m := fold_left (fun m y => if fgt y m then y else m) l x in
  In m (x :: l) /\ fge m x = true /\ Forall (fun y => fge m y = true) l.
Proof.
  revert x. induction l as [|y l IH]; intros x Hx Hl; cbn [fold_left].
  - cbv zeta. split; [now left|]. split; [now apply fge_refl|constructor].
  - inversion Hl as [|? ? Hy Hl']; subst.
    destruct (fgt y x) eqn:Hgt.
    + destruct (IH y Hy Hl') as [Hin [Hmy Hall]]. cbv zeta. split.
      * destruct Hin as [<-|Hin]; [right; now left|right; now right].
      * split; [eapply fge_trans; [exact Hmy|now apply fgt_fge]|].
        constructor; assumption.
    + destruct (IH x Hx Hl') as [Hin [Hmx Hall]]. cbv zeta. split.
      * destruct Hin as [<-|Hin]; [now left|right; now right].
      * split; [exact Hmx|]. constructor; [|assumption].
        eapply fge_trans; [exact Hmx|now apply fgt_false_fge].
Qed.

(** [fmax] is the greatest of the entries that are numbers, and NaN when
    there is none. *)
Lemma fmax_spec (l : list pyfloat) :
  (forall y, In y l -> notnan y = true -> fge (fmax l) y = true) /\
  ((exists y, In y l /\ notnan y = true) -> In (fmax l) l /\ notnan (fmax l) = true) /\
  ((forall y, In y l -> notnan y = false) -> fmax l = NaN).
Proof.
  unfold fmax.
  assert (Hf : Forall (fun y => notnan y = true) (filter notnan l)).
  { apply Forall_forall. intros y Hy. now apply filter_In in Hy. }
  destruct (filter notnan l) as [|x l'] eqn:E.
  - split; [|split].
    + intros y Hy Hn. assert (In y (filter notnan l)) by now apply filter_In.
      rewrite E in H. destruct H.
    + intros [y [Hy Hn]]. assert (In y (filter notnan l)) by now apply filter_In.
      rewrite E in H. destruct H.
    + reflexivity.
  - inversion Hf as [|? ? Hx Hl']; subst.
    destruct (fold_max_spec l' x Hx Hl') as [Hin [Hmx Hall]].
    assert (Hsub : forall y, In y (x :: l') -> In y l /\ notnan y = true).
    { intros y Hy. rewrite <- E in Hy. now apply filter_In in Hy. }
    split; [|split].
    + intros y Hy Hn. assert (Hy' : In y (x :: l')).
      { rewrite <- E. now apply filter_In. }
      destruct Hy' as [<-|Hy']; [exact Hmx|].
      rewrite Forall_forall in Hall. now apply Hall.
    + intros _. now apply Hsub.
    + intros Hall'. destruct (Hsub x (or_introl eq_refl)) as [Hx1 Hx2].
      rewrite (Hall' x Hx1) in Hx2. discriminate.
Qed.

(** ** Sorting and grouping facts *)

Section SortFacts.

Context {A : Type}.
Variable leb : A -> A -> bool.

Lemma insert_by_perm (x : A) (l : list A) :
  Permutation (x :: l) (insert_by leb x l).
Proof.
  induction l as [|y l IH]; simpl; [reflexivity|].
  destruct (leb x y); [reflexivity|].
  rewrite perm_swap. now constructor.
Qed.

Lemma sort_by_perm (l : list A) : Permutation l (sort_by leb l).
Proof.
  induction l as [|x l IH]; simpl; [constructor|].
  rewrite <- insert_by_perm. now constructor.
Qed.

Lemma sort_by_In (l : list A) (x : A) : In x (sort_by leb l) <-> In x l.
Proof.
  split; apply Permutation_in; [symmetry|]; apply sort_by_perm.
Qed.

Hypothesis leb_total : forall a b, leb a b = true \/ leb b a = true.

Let R (a b : A) : Prop := leb a b = true.

Lemma insert_by_sorted (x : A) (l : list A) :
  Sorted R l -> Sorted R (insert_by leb x l).
Proof.
  induction l as [|y l IH]; intros Hs; simpl.
  - repeat constructor.
  - destruct (leb x y) eqn:Hxy.
    + constructor; [exact Hs|]. constructor. exact Hxy.
    + inversion Hs as [|? ? Hs' Hhd]; subst.
      constructor; [now apply IH|].
      assert (Hyx : R y x) by (destruct (leb_total x y); [congruence|assumption]).
      destruct l as [|z l]; simpl; [now constructor|].
      destruct (leb x z); constructor; [exact Hyx|].
      now inversion Hhd.
Qed.

Lemma sort_by_sorted (l : list A) : Sorted R (sort_by leb l).
Proof.
  induction l as [|x l IH]; simpl; [constructor|now apply insert_by_sorted].
Qed.

End SortFacts.

Section DistinctFacts.

Context {A : Type}.
Variable eqb : A -> A -> bool.

Lemma distinct_by_In (l : list A) (x : A) : In x (distinct_by eqb l) -> In x l.
Proof.
  revert x. induction l as [|a l IH]; simpl; intros x; [tauto|].
  intros [<-|H]; [now left|]. apply filter_In in H as [H _]. right. now apply IH.
Qed.

Lemma ForallOrdPairs_filter (P : A -> A -> Prop) (f : A -> bool) (l : list A) :
  ForallOrdPairs P l -> ForallOrdPairs P (filter f l).
Proof.
  induction 1 as [|a l Ha Hl IH]; simpl; [constructor|].
  destruct (f a); [|exact IH]. constructor; [|exact IH].
  apply Forall_forall. intros y Hy. apply filter_In in Hy as [Hy _].
  rewrite Forall_forall in Ha. now apply Ha.
Qed.

(** No two entries of [distinct_by] are equal as keys. *)
Lemma distinct_by_pairs (l : list A) :
  ForallOrdPairs (fun a b => eqb a b = false) (distinct_by eqb l).
Proof.
  induction l as [|a l IH]; simpl; constructor.
  - apply Forall_forall. intros y Hy. apply filter_In in Hy as [_ Hy].
    now apply negb_true_iff.
  - now apply ForallOrdPairs_filter.
Qed.

Hypothesis eqb_trans : forall a b c, eqb a b = true -> eqb b c = true -> eqb a c = true.

(** Every element has its key among the entries of [distinct_by]. *)
Lemma distinct_by_covers (l : list A) (x : A) :
  (forall a, In a l -> eqb a a = true) ->
  In x l -> exists y, In y (distinct_by eqb l) /\ eqb y x = true.
Proof.
  induction l as [|a l IH]; simpl; [tauto|].
  intros Hrefl [<-|Hx]; [exists a; auto|].
  destruct (IH (fun b Hb => Hrefl b (or_intror Hb)) Hx) as [y [Hy Hyx]].
  destruct (eqb a y) eqn:Hay.
  - exists a. split; [now left|]. eapply eqb_trans; eauto.
  - exists y. split; [|exact Hyx]. right. apply filter_In. split; [exact Hy|].
    now rewrite Hay.
Qed.

End DistinctFacts.

Lemma StronglySorted_weaken {A} (P Q : A -> A -> Prop) (l : list A) :
  (forall a b, P a b -> Q a b) -> StronglySorted P l -> StronglySorted Q l.
Proof.
  intros HPQ. induction 1 as [|a l Hs IH Ha]; constructor; [exact IH|].
  eapply Forall_impl; [|exact Ha]. intros b. apply HPQ.
Qed.

Lemma ForallOrdPairs_NoDup {A} (eqb : A -> A -> bool) (l : list A) :
  (forall a, eqb a a = true) ->
  ForallOrdPairs (fun a b => eqb a b = false) l -> NoDup l.
Proof.
  intros Hrefl. induction 1 as [|a l Ha Hl IH]; constructor; [|exact IH].
  intros Hin. rewrite Forall_forall in Ha. specialize (Ha a Hin).
  rewrite Hrefl in Ha. discriminate.
Qed.

(** ** Summary aggregation *)

Lemma qty_before_total (a b : agg_row) :
  qty_before a b = true \/ qty_before b a = true.
Proof.
  unfold qty_before, notnan.
  destruct (isnan (agg_qty b)) eqn:Hb; [now left|].
  destruct (isnan (agg_qty a)) eqn:Ha; [now right|]. simpl.
  apply fge_total; unfold notnan; now rewrite ?Ha, ?Hb.
Qed.

Lemma qty_before_trans (a b c : agg_row) :
  qty_before a b = true -> qty_before b c = true -> qty_before a c = true.
Proof.
  unfold qty_before, notnan.
  destruct (isnan (agg_qty c)) eqn:Hc; [reflexivity|]. simpl.
  destruct (isnan (agg_qty b)) eqn:Hb; simpl; [discriminate 2|].
  destruct (isnan (agg_qty a)) eqn:Ha; simpl; [discriminate 1|].
  apply fge_trans.
Qed.

Lemma groupby_jan_keys (df : list record) :
  map agg_jan (groupby_jan df)
  = sort_by String.leb (distinct_by String.eqb (map jan df)).
Proof.
  unfold groupby_jan. rewrite map_map. simpl. apply map_id.
Qed.

Lemma jan_keys_NoDup (df : list record) :
  NoDup (sort_by String.leb (distinct_by String.eqb (map jan df))).
Proof.
  eapply Permutation_NoDup; [apply sort_by_perm|].
  apply (ForallOrdPairs_NoDup String.eqb); [apply String.eqb_refl|].
  apply distinct_by_pairs.
Qed.

Lemma jan_keys_In (df : list record) (j : string) :
  In j (sort_by String.leb (distinct_by String.eqb (map jan df)))
  <-> In j (map jan df).
Proof.
  rewrite sort_by_In. split; [apply distinct_by_In|].
  intros H.
  destruct (distinct_by_covers String.eqb
              (fun a b c Hab Hbc =>
                 proj2 (String.eqb_eq a c)
                   (eq_trans (proj1 (String.eqb_eq a b) Hab)
                             (proj1 (String.eqb_eq b c) Hbc)))
              (map jan df) j (fun a _ => String.eqb_refl a) H) as [y [Hy Hyj]].
  apply String.eqb_eq in Hyj. now subst.
Qed.

Lemma agg_view_In (df : list record) (x : agg_row) :
  In x (agg_view df) <->
  In (agg_jan x) (map jan df) /\ x = agg_group df (agg_jan x).
Proof.
  unfold agg_view. rewrite sort_by_In. unfold groupby_jan. rewrite in_map_iff.
  split.
  - intros [j [<- Hj]]. simpl. split; [now apply jan_keys_In|reflexivity].
  - intros [Hj Hx]. exists (agg_jan x). split; [now symmetry|now apply jan_keys_In].
Qed.

Lemma jan_group_nonempty (df : list record) (j : string) :
  In j (map jan df) ->
  exists r0 rest, jan_group j df = r0 :: rest /\ jan r0 = j.
Proof.
  intros H. apply in_map_iff in H as [r [Hr Hin]].
  assert (Hg : In r (jan_group j df)).
  { apply filter_In. split; [exact Hin|]. subst. apply String.eqb_refl. }
  destruct (jan_group j df) as [|r0 rest] eqn:E; [destruct Hg|].
  exists r0, rest. split; [reflexivity|].
  assert (H0 : In r0 (jan_group j df)) by (rewrite E; now left).
  apply filter_In in H0 as [_ H0]. apply String.eqb_eq in H0. now symmetry.
Qed.

Lemma first_valid_head (v : pyval) (l : list pyval) :
  isna v = false -> first_valid (v :: l) = v.
Proof. unfold first_valid. simpl. now intros ->. Qed.

(** [first_valid] picks the first entry that is not null. *)
Lemma first_valid_records (g : list record) :
  (exists pre r post,
      g = (pre ++ r :: post)%list /\
      Forall (fun u => isna (product_name u) = true) pre /\
      isna (product_name r) = false /\
      first_valid (map product_name g) = product_name r) \/
  (Forall (fun u => isna (product_name u) = true) g /\
   first_valid (map product_name g) = VNone).
Proof.
  induction g as [|u g IH].
  - right. split; [constructor|reflexivity].
  - destruct (isna (product_name u)) eqn:Hu.
    + assert (Hf : first_valid (map product_name (u :: g))
                   = first_valid (map product_name g)).
      { unfold first_valid. simpl. now rewrite Hu. }
      destruct IH as [[pre [v [post [-> [Hpre [Hv Hfv]]]]]]|[Hall Hfv]].
      * left. exists (u :: pre), v, post. repeat split; auto.
        now rewrite Hf.
      * right. split; [now constructor|now rewrite Hf].
    + left. exists [], u, g. repeat split; auto.
      simpl. now apply first_valid_head.
Qed.

(** End-to-end scenario 1: quantities 3 and 2 at price 100 aggregate to a
    total quantity of 5 and a total amount of 500. *)
Example summary_two_orders :
  agg_view two_orders
  = [ mkagg "4900000000001" "012" (VStr "apple") (Fin (100 # 1))
            (Fin (5 # 1)) (Fin (500 # 1)) EmptyString ].
Proof. vm_compute. reflexivity. Qed.

(** C2, as stated, fails: pandas' [first] skips nulls, so when the first
    record of a group has no product name (an empty cell of the source
    file), the summary takes the name of a later record. *)
Lemma C2_counterexample :
  exists r0 rest x,
    jan_group "4900000000001" nameless_then_named = r0 :: rest /\
    agg_view nameless_then_named = [x] /\
    agg_name x = VStr "apple" /\ agg_name x <> product_name r0.
Proof.
  do 3 eexists. split; [vm_compute; reflexivity|].
  split; [vm_compute; reflexivity|]. split; [reflexivity|discriminate].
Qed.

(** C2, amended: the summary has one row per distinct jan of the input,
    ordered by descending total quantity; in each row the unit price is the
    greatest price of the group, the total quantity the sum of the
    quantities, the total amount the sum of quantity times price over the
    records of the group, department and promotion label are those of the
    first record in group order, and the product name is the first name in
    group order that is not null (the first record's, when it has one). *)
Theorem C2_summary (df : list record) :
  NoDup (map agg_jan (agg_view df)) /\
  (forall j, In j (map agg_jan (agg_view df)) <-> In j (map jan df)) /\
  StronglySorted
    (fun x y => isnan (agg_qty y) = true \/ fge (agg_qty x) (agg_qty y) = true)
    (agg_view df) /\
  (forall x, In x (agg_view df) ->
     exists r0 rest,
       jan_group (agg_jan x) df = r0 :: rest /\
       agg_dept x = department r0 /\
       agg_promo x = promotion r0 /\
       (isna (product_name r0) = false -> agg_name x = product_name r0) /\
       ((exists pre r post,
           r0 :: rest = (pre ++ r :: post)%list /\
           Forall (fun u => isna (product_name u) = true) pre /\
           isna (product_name r) = false /\ agg_name x = product_name r) \/
        (Forall (fun u => isna (product_name u) = true) (r0 :: rest) /\
         agg_name x = VNone)) /\
       agg_qty x = fsum (map quantity (r0 :: rest)) /\
       agg_amount x = fsum (map total_amount (r0 :: rest)) /\
       (forall r, In r (r0 :: rest) -> notnan (unit_price r) = true ->
                  fge (agg_price x) (unit_price r) = true) /\
       ((exists r, In r (r0 :: rest) /\ notnan (unit_price r) = true) ->
        In (agg_price x) (map unit_price (r0 :: rest)))).
Proof.
  split.
  { unfold agg_view.
    eapply Permutation_NoDup; [apply Permutation_map, sort_by_perm|].
    rewrite groupby_jan_keys. apply jan_keys_NoDup. }
  split.
  { intros j. unfold agg_view. rewrite <- jan_keys_In, <- groupby_jan_keys.
    split; apply Permutation_in; [symmetry|];
      apply Permutation_map, sort_by_perm. }
  split.
  { unfold agg_view.
    assert (Hs := sort_by_sorted qty_before qty_before_total (groupby_jan df)).
    apply Sorted_StronglySorted in Hs;
      [|intros a b c; apply qty_before_trans].
    eapply StronglySorted_weaken; [|exact Hs].
    intros a b H. unfold qty_before in H.
    apply orb_prop in H as [H|H]; [now left|right].
    now apply andb_prop in H as [_ H]. }
  intros x Hx. apply agg_view_In in Hx as [Hj Hx].
  destruct (jan_group_nonempty df (agg_jan x) Hj) as [r0 [rest [Hg _]]].
  exists r0, rest. split; [exact Hg|].
  rewrite Hx. unfold agg_group. cbn [agg_jan agg_dept agg_name agg_price
    agg_qty agg_amount agg_promo]. rewrite Hg.
  split; [reflexivity|]. split; [reflexivity|].
  split; [intros Hn; now apply first_valid_head|].
  split; [apply first_valid_records|].
  split; [reflexivity|]. split; [reflexivity|].
  destruct (fmax_spec (map unit_price (r0 :: rest))) as [Hge [Hin _]].
  split.
  - intros r Hr Hn. apply Hge; [now apply in_map|exact Hn].
  - intros [r [Hr Hn]]. apply Hin. exists (unit_price r).
    split; [now apply in_map|exact Hn].
Qed.

Lemma C2_witness :
  exists r0 rest,
    In summary_row_two_orders (agg_view two_orders) /\
    jan_group (agg_jan summary_row_two_orders) two_orders = r0 :: rest /\
    agg_qty summary_row_two_orders = fsum (map quantity (r0 :: rest)) /\
    agg_amount summary_row_two_orders = fsum (map total_amount (r0 :: rest)).
Proof.
  assert (Hin : In summary_row_two_orders (agg_view two_orders))
    by (vm_compute; left; reflexivity).
  destruct (proj2 (proj2 (proj2 (C2_summary two_orders)))
              summary_row_two_orders Hin)
    as [r0 [rest [Hg [_ [_ [_ [_ [Hq [Ha _]]]]]]]]].
  exists r0, rest. split; [exact Hin|]. split; [exact Hg|]. split; assumption.
Defined.

(** ** Pivot export *)

Lemma date_eqb_eq (a b : date) : date_eqb a b = true <-> a = b.
Proof.
  unfold date_eqb. destruct a as [y m d], b as [y' m' d']. simpl.
  rewrite !andb_true_iff, !Z.eqb_eq. split.
  - intros [[-> ->] ->]. reflexivity.
  - intros H. injection H as -> -> ->. auto.
Qed.








Lemma dates_of_In (l : list record) (d : date) :
  In d (dates_of l) <-> exists r, In r l /\ rec_date r = Some d.
Proof.
  induction l as [|r l IH]; simpl.
  - split; [tauto|intros [r [[] _]]].
  - destruct (rec_date r) as [d'|] eqn:E; simpl; rewrite IH; split.
    + intros [<-|[r' [Hr' Hd]]]; [exists r; auto|exists r'; auto].
    + intros [r' [[<-|Hr'] Hd]]; [left; congruence|right; eauto].
    + intros [r' [Hr' Hd]]. eauto.
    + intros [r' [[<-|Hr'] Hd]]; [congruence|eauto].
Qed.



























(** One item at two unit prices: two pivot rows, one summary row. *)
Example pivot_same_item_two_prices :
  create_matrix_csv same_item_two_prices = Some pivot_two_prices /\
  length (agg_view same_item_two_prices) = 1%nat.
Proof. split; vm_compute; reflexivity. Qed.


(** * Further properties of the code *)

(** ** Archive entry names *)

Lemma all_chars_app (p : ascii -> bool) (a b : string) :
  all_chars p (a ++ b) = all_chars p a && all_chars p b.
Proof.
  induction a as [|c a IH]; simpl; [reflexivity|].
  now rewrite IH, andb_assoc.
Qed.

Lemma safe_name_clean (s : string) :
  all_chars (fun c => negb (hostile c)) (safe_name s) = true.
Proof.
  induction s as [|c s IH]; simpl; [reflexivity|].
  destruct (hostile c) eqn:Hc; [exact IH|]. simpl. now rewrite Hc.
Qed.

Lemma safe_name_fixed (s : string) :
  all_chars (fun c => negb (hostile c)) s = true -> safe_name s = s.
Proof.
  induction s as [|c s IH]; simpl; [reflexivity|].
  intros H. apply andb_prop in H as [Hc Hs]. apply negb_true_iff in Hc.
  rewrite Hc. now rewrite IH.
Qed.

(** The sanitising of a name component removes every path-hostile
    character, leaves a component without such characters as it is, and
    so changes nothing when applied twice. *)
Theorem safe_name_sanitises (s : string) :
  all_chars (fun c => negb (hostile c)) (safe_name s) = true /\
  (all_chars (fun c => negb (hostile c)) s = true -> safe_name s = s) /\
  safe_name (safe_name s) = safe_name s.
Proof.
  split; [apply safe_name_clean|]. split; [apply safe_name_fixed|].
  apply safe_name_fixed, safe_name_clean.
Qed.

Lemma mapM_Ok_inv {A B} (f : A -> res B) (l : list A) (out : list B) :
  mapM f l = Ok out -> Forall2 (fun a b => f a = Ok b) l out.
Proof.
  revert out. induction l as [|a l IH]; simpl; intros out H.
  - apply Ok_inj in H. subst. constructor.
  - apply bind_Ok in H as [b [Hb H]]. apply bind_Ok in H as [bs [Hbs H]].
    apply Ok_inj in H. subst. constructor; auto.
Qed.

(** When the archive is built, it holds one entry per summary row, in the
    order of the rows -- two rows that reduce to the same name are both
    written --, every entry is the rendered document of its row, and no
    entry name holds a path-hostile character. *)
Theorem create_pop_zip_entries (L : PyLib) (agg_df : list agg_row)
    (raw_df : list record) (start_date : date) (entries : list (string * string)) :
  create_pop_zip L agg_df raw_df start_date = Ok entries ->
  length entries = length agg_df /\
  Forall2 (fun row e =>
             fst e = safe_name (agg_dept row) ++ "_" ++ safe_name (agg_jan row)
                     ++ ".svg" /\
             all_chars (fun c => negb (hostile c)) (fst e) = true /\
             generate_svg L row (daily_map_for raw_df (agg_jan row)) start_date
             = Ok (snd e))
          agg_df entries.
Proof.
  intros H. apply mapM_Ok_inv in H. split.
  - symmetry. eapply Forall2_length; eauto.
  - eapply Forall2_impl; [|exact H]. intros row [name svg] He.
    unfold pop_entry in He. apply bind_Ok in He as [svg' [Hsvg He]].
    apply Ok_inj in He. injection He as <- <-. cbn [fst snd].
    split; [reflexivity|]. split; [|exact Hsvg].
    rewrite all_chars_app, safe_name_clean. cbn [andb append all_chars].
    rewrite all_chars_app, safe_name_clean. reflexivity.
Qed.

Lemma create_pop_zip_entries_witness :
  exists entries,
    create_pop_zip ExampleLib.lib (agg_view two_orders) two_orders
                   (mkdate 2024 5 1) = Ok entries /\
    length entries = length (agg_view two_orders).
Proof.
  destruct (create_pop_zip ExampleLib.lib (agg_view two_orders) two_orders
                           (mkdate 2024 5 1)) as [entries|e] eqn:E.
  - exists entries. split; [reflexivity|].
    exact (proj1 (create_pop_zip_entries _ _ _ _ _ E)).
  - vm_compute in E. discriminate E.
Defined.

(** ** Daily quantities of the calendar strip *)

Lemma daily_get_map (F : date -> pyfloat) (ds : list date) (d : date) :
  daily_get (map (fun d' => (d', F d')) ds) d
  = if existsb (date_eqb d) ds then F d else fzero.
Proof.
  induction ds as [|d' ds IH]; simpl; [reflexivity|].
  destruct (date_eqb d d') eqn:E; simpl; [|exact IH].
  apply date_eqb_eq in E. now subst.
Qed.

(** The quantity the strip shows for a day is the sum of the quantities
    (NaN counted as 0) of the raw records of that product code on that
    day; with no such record the sum is empty and the day shows 0. *)
Theorem daily_map_sums (raw_df : list record) (j : string) (d : date) :
  daily_get (daily_map_for raw_df j) d
  = fsum (map (fun r => fillna0 (quantity r)) (filter (on_day j d) raw_df)).
Proof.
  { unfold daily_map_for.
    rewrite (daily_get_map
               (fun d => fsum (map (fun r => fillna0 (quantity r))
                                   (filter (on_day j d) raw_df)))).
    destruct (existsb _ _) eqn:E; [reflexivity|].
    destruct (filter (on_day j d) raw_df) as [|r g] eqn:Eg; [reflexivity|].
    exfalso.
    assert (Hr : In r (filter (on_day j d) raw_df)) by (rewrite Eg; now left).
    apply filter_In in Hr as [Hr Hday]. unfold on_day in Hday.
    apply andb_prop in Hday as [Hj Hd].
    destruct (rec_date r) as [d'|] eqn:Hd'; [|discriminate].
    apply date_eqb_eq in Hd. subst d'.
    assert (Hin : In d (sort_by date_leb
                          (distinct_by date_eqb (dates_of (jan_group j raw_df))))).
    { apply sort_by_In.
      assert (H0 : In d (dates_of (jan_group j raw_df))).
      { apply dates_of_In. exists r. split; [|exact Hd'].
        apply filter_In. auto. }
      destruct (distinct_by_covers date_eqb
                  (fun a b c Hab Hbc =>
                     proj2 (date_eqb_eq a c)
                       (eq_trans (proj1 (date_eqb_eq a b) Hab)
                                 (proj1 (date_eqb_eq b c) Hbc)))
                  _ d (fun a _ => proj2 (date_eqb_eq a a) eq_refl) H0)
        as [y [Hy Hyd]].
      apply date_eqb_eq in Hyd. now subst. }
    assert (Hex : existsb (date_eqb d)
              (sort_by date_leb
                 (distinct_by date_eqb (dates_of (jan_group j raw_df)))) = true).
    { apply existsb_exists. exists d. split; [exact Hin|now apply date_eqb_eq]. }
    congruence. }
Qed.

(** ** Layout detection *)

Lemma scan_lines_found (lines : list string) (i0 i : nat) (f : layout) :
  scan_lines lines i0 = Some (i, f) ->
  exists k line,
    i = (i0 + k)%nat /\ nth_error lines k = Some line /\
    pair_of f line = true /\
    forallb plain_line (firstn k lines) = true.
Proof.
  revert i0. induction lines as [|l lines IH]; intros i0; simpl; [discriminate|].
  fold (matrix_pair l). fold (list_pair l).
  destruct (matrix_pair l) eqn:Hm.
  - intros H. injection H as <- <-. exists O, l. simpl. rewrite Hm.
    repeat split. lia.
  - destruct (list_pair l) eqn:Hl.
    + intros H. injection H as <- <-. exists O, l. simpl. rewrite Hm, Hl.
      repeat split. lia.
    + intros H. destruct (IH _ H) as [k [line [Hi [Hn [Hp Hall]]]]].
      exists (S k), line. simpl. unfold plain_line at 1. rewrite Hm, Hl, Hall.
      repeat split; auto. lia.
Qed.

Lemma scan_lines_none (lines : list string) (i0 : nat) :
  scan_lines lines i0 = None <-> forallb plain_line lines = true.
Proof.
  revert i0. induction lines as [|l lines IH]; intros i0; simpl; [tauto|].
  fold (matrix_pair l). fold (list_pair l). unfold plain_line at 1.
  destruct (matrix_pair l); simpl; [split; discriminate|].
  destruct (list_pair l); simpl; [split; discriminate|]. apply IH.
Qed.

Lemma nth_error_firstn_Some {A} (n k : nat) (l : list A) (a : A) :
  nth_error (firstn n l) k = Some a -> (k < n)%nat /\ nth_error l k = Some a.
Proof.
  revert k l. induction n as [|n IH]; intros k l; simpl.
  - destruct k; discriminate.
  - destruct l as [|x l]; [destruct k; discriminate|].
    destruct k as [|k]; simpl; [intros H; split; [lia|exact H]|].
    intros H. destruct (IH _ _ H). split; [lia|assumption].
Qed.

Lemma firstn_firstn_le {A} (n k : nat) (l : list A) :
  (k <= n)%nat -> firstn k (firstn n l) = firstn k l.
Proof. intros H. rewrite firstn_firstn. f_equal. lia. Qed.

(** When the detection settles on a layout, the header row it reports is
    one of the first 30 lines of the text in the reported encoding, that
    line carries the keyword pair of the layout (the matrix pair wins on a
    line that carries both), no earlier line carries either pair, and
    cp932 is reported only when UTF-8 did not decode or showed no header
    line. *)
Theorem detect_format_found (decoded : encoding -> option (list string))
    (f : layout) :
  format_type (detect_format decoded) = Some f ->
  exists lines line,
    decoded (detected_enc (detect_format decoded)) = Some lines /\
    (start_row (detect_format decoded) < 30)%nat /\
    nth_error lines (start_row (detect_format decoded)) = Some line /\
    pair_of f line = true /\
    forallb plain_line (firstn (start_row (detect_format decoded)) lines) = true /\
    (detected_enc (detect_format decoded) = Cp932 -> no_header (decoded Utf8) = true).
Proof.
  unfold detect_format. cbn [detect_from].
  assert (Hscan : forall lines i g,
            scan_lines (firstn 30 lines) 0 = Some (i, g) ->
            exists line, (i < 30)%nat /\ nth_error lines i = Some line /\
                         pair_of g line = true /\
                         forallb plain_line (firstn i lines) = true).
  { intros lines i g H. apply scan_lines_found in H
      as [k [line [Hi [Hn [Hp Hall]]]]]. simpl in Hi. subst k.
    apply nth_error_firstn_Some in Hn as [Hlt Hn]. exists line.
    rewrite firstn_firstn_le in Hall by lia. auto. }
  destruct (decoded Utf8) as [l8|] eqn:E8.
  - destruct (scan_lines (firstn 30 l8) 0) as [[i g]|] eqn:S8.
    + cbn [format_type start_row detected_enc]. intros H. injection H as ->.
      destruct (Hscan _ _ _ S8) as [line [Hlt [Hn [Hp Hall]]]].
      exists l8, line. rewrite E8. repeat split; auto. discriminate.
    + destruct (decoded Cp932) as [l9|] eqn:E9; [|discriminate].
      destruct (scan_lines (firstn 30 l9) 0) as [[i g]|] eqn:S9; [|discriminate].
      cbn [format_type start_row detected_enc]. intros H. injection H as ->.
      destruct (Hscan _ _ _ S9) as [line [Hlt [Hn [Hp Hall]]]].
      exists l9, line. rewrite E9. repeat split; auto.
      intros _. now apply scan_lines_none in S8.
  - destruct (decoded Cp932) as [l9|] eqn:E9; [|discriminate].
    destruct (scan_lines (firstn 30 l9) 0) as [[i g]|] eqn:S9; [|discriminate].
    cbn [format_type start_row detected_enc]. intros H. injection H as ->.
    destruct (Hscan _ _ _ S9) as [line [Hlt [Hn [Hp Hall]]]].
    exists l9, line. rewrite E9. repeat split; auto.
Qed.

(** The detection reports no layout exactly when neither decoding shows a
    header line among its first 30 lines (a decoding that fails shows
    none); it then reports row 0 and cp932, the defaults. *)
Theorem detect_format_unknown (decoded : encoding -> option (list string)) :
  (format_type (detect_format decoded) = None <->
   no_header (decoded Utf8) = true /\ no_header (decoded Cp932) = true) /\
  (format_type (detect_format decoded) = None ->
   start_row (detect_format decoded) = O /\
   detected_enc (detect_format decoded) = Cp932).
Proof.
  unfold detect_format, no_header. cbn [detect_from].
  destruct (decoded Utf8) as [l8|].
  - destruct (scan_lines (firstn 30 l8) 0) as [[i g]|] eqn:S8.
    + cbn [format_type start_row detected_enc]. split; [|discriminate]. split; [discriminate|].
      intros [H _]. apply (proj2 (scan_lines_none _ 0)) in H. congruence.
    + apply scan_lines_none in S8. rewrite S8.
      destruct (decoded Cp932) as [l9|].
      * destruct (scan_lines (firstn 30 l9) 0) as [[i g]|] eqn:S9.
        -- cbn [format_type start_row detected_enc]. split; [|discriminate]. split; [discriminate|].
           intros [_ H]. apply (proj2 (scan_lines_none _ 0)) in H. congruence.
        -- apply scan_lines_none in S9. rewrite S9. cbn [format_type start_row detected_enc]. tauto.
      * cbn [format_type start_row detected_enc]. tauto.
  - destruct (decoded Cp932) as [l9|].
    + destruct (scan_lines (firstn 30 l9) 0) as [[i g]|] eqn:S9.
      * cbn [format_type start_row detected_enc]. split; [|discriminate]. split; [discriminate|].
        intros [_ H]. apply (proj2 (scan_lines_none _ 0)) in H. congruence.
      * apply scan_lines_none in S9. rewrite S9. cbn [format_type start_row detected_enc]. tauto.
    + cbn [format_type start_row detected_enc]. tauto.
Qed.

Lemma detect_format_found_witness :
  format_type (detect_format decoded_with_title) = Some MatrixLayout /\
  exists lines line,
    decoded_with_title (detected_enc (detect_format decoded_with_title))
    = Some lines /\
    (start_row (detect_format decoded_with_title) < 30)%nat /\
    nth_error lines (start_row (detect_format decoded_with_title)) = Some line /\
    pair_of MatrixLayout line = true /\
    forallb plain_line
      (firstn (start_row (detect_format decoded_with_title)) lines) = true /\
    (detected_enc (detect_format decoded_with_title) = Cp932 ->
     no_header (decoded_with_title Utf8) = true).
Proof.
  split; [reflexivity|].
  exact (detect_format_found decoded_with_title MatrixLayout eq_refl).
Defined.

Lemma detect_format_unknown_witness :
  format_type (detect_format decoded_without_header) = None /\
  start_row (detect_format decoded_without_header) = O /\
  detected_enc (detect_format decoded_without_header) = Cp932.
Proof.
  split; [reflexivity|].
  exact (proj2 (detect_format_unknown decoded_without_header) eq_refl).
Defined.

(** ** Failure of the department normalizer *)

(** Above [2^53] the rounding keeps the 53 leading bits: the quotient by
    the unit in the last place lies in [2^52, 2^53). *)
Lemma round_bounds (a : Z) :
  2 ^ 53 <= a ->
  let e := Z.log2 a - 52 in
  1 <= e /\ 2 ^ (e + 52) <= a < 2 ^ (e + 53) /\
  2 ^ e = 2 * 2 ^ (e - 1) /\ 0 < 2 ^ (e - 1) /\
  a = 2 ^ e * (a / 2 ^ e) + a mod 2 ^ e /\ 0 <= a mod 2 ^ e < 2 ^ e /\
  2 ^ 52 <= a / 2 ^ e < 2 ^ 53.
Proof.
  intros Ha e.
  assert (Hpos : 0 < a) by (assert (0 < 2 ^ 53) by reflexivity; lia).
  destruct (Z.log2_spec a Hpos) as [Hl Hu].
  assert (Hlog : 53 <= Z.log2 a).
  { change 53 with (Z.log2 (2 ^ 53)). now apply Z.log2_le_mono. }
  assert (He : 1 <= e) by (unfold e; lia).
  assert (HP : 0 < 2 ^ e) by (apply Z.pow_pos_nonneg; lia).
  split; [exact He|]. split.
  { unfold e. replace (Z.log2 a - 52 + 52) with (Z.log2 a) by lia.
    replace (Z.log2 a - 52 + 53) with (Z.succ (Z.log2 a)) by lia. lia. }
  split.
  { replace e with (Z.succ (e - 1)) at 1 by lia. rewrite Z.pow_succ_r by lia. lia. }
  split; [apply Z.pow_pos_nonneg; lia|].
  split; [apply Z.div_mod; lia|].
  split; [apply Z.mod_pos_bound; lia|].
  assert (H52 : 2 ^ (e + 52) = 2 ^ e * 2 ^ 52) by (rewrite Z.pow_add_r; lia).
  assert (H53 : 2 ^ (e + 53) = 2 ^ e * 2 ^ 53) by (rewrite Z.pow_add_r; lia).
  assert (Hle : 2 ^ (e + 52) <= a < 2 ^ (e + 53)).
  { unfold e. replace (Z.log2 a - 52 + 52) with (Z.log2 a) by lia.
    replace (Z.log2 a - 52 + 53) with (Z.succ (Z.log2 a)) by lia. lia. }
  split.
  - apply Z.div_le_lower_bound; lia.
  - apply Z.div_lt_upper_bound; lia.
Qed.

(** The rounded magnitude of an [int] leaves the binary64 range from
    [2^1024 - 2^970] on: below it the nearest double is finite, from it
    on rounding to nearest (ties to even) reaches [2^1024]. *)
Lemma round_overflow (a : Z) :
  0 <= a ->
  (2 ^ 1024 <=? round_to_double a) = true <-> 2 ^ 1024 - 2 ^ 970 <= a.
Proof.
  intros Ha0. rewrite Z.leb_le. unfold round_to_double.
  destruct (a <? 2 ^ 53) eqn:Hs.
  - apply Z.ltb_lt in Hs.
    assert (2 ^ 53 < 2 ^ 1024 - 2 ^ 970) by reflexivity.
    assert (0 < 2 ^ 970) by reflexivity. lia.
  - apply Z.ltb_ge in Hs.
    destruct (round_bounds a Hs) as (He & Hle & Hhalf & Hhpos & Hdm & Hr & Hq).
    assert (Hpos : 0 < a) by (assert (0 < 2 ^ 53) by reflexivity; lia).
    cbv zeta.
    set (e := Z.log2 a - 52) in *.
    set (P := 2 ^ e) in *. set (h := 2 ^ (e - 1)) in *.
    set (q := a / P) in *. set (r := a mod P) in *.
    assert (H52 : 2 ^ (e + 52) = P * 2 ^ 52) by (unfold P; rewrite Z.pow_add_r; lia).
    assert (HPq : 0 <= P * q) by nia.
    split.
    + intros Hm.
      destruct (Z.le_gt_cases (2 ^ 1024 - 2 ^ 970) a) as [|Hlt]; [assumption|exfalso].
      assert (Hlog : Z.log2 a <= 1023).
      { assert (Ha : a < 2 ^ 1024) by (assert (0 < 2 ^ 970) by reflexivity; lia).
        destruct (Z.le_gt_cases (Z.log2 a) 1023) as [|Hg]; [assumption|exfalso].
        assert (2 ^ 1024 <= 2 ^ Z.log2 a) by (apply Z.pow_le_mono_r; lia).
        destruct (Z.log2_spec a Hpos). lia. }
      assert (Hh : h <= 2 ^ 970).
      { unfold h. apply Z.pow_le_mono_r; unfold e; lia. }
      destruct ((h <? r) || ((r =? h) && Z.odd q)) eqn:Hup.
      * assert (h <= r).
        { apply orb_true_iff in Hup. destruct Hup as [Hup|Hup].
          - apply Z.ltb_lt in Hup. lia.
          - apply andb_true_iff in Hup. destruct Hup as [Hup _].
            apply Z.eqb_eq in Hup. lia. }
        lia.
      * lia.
    + intros Hge.
      destruct (Z.le_gt_cases (2 ^ 1024) a) as [Hbig|Hsmall].
      * assert (Hlog : 1024 <= Z.log2 a).
        { change 1024 with (Z.log2 (2 ^ 1024)). now apply Z.log2_le_mono. }
        assert (2 ^ 1024 <= 2 ^ (e + 52)).
        { apply Z.pow_le_mono_r; unfold e; lia. }
        assert (P * 2 ^ 52 <= P * q) by (apply Z.mul_le_mono_nonneg_l; lia).
        destruct ((h <? r) || ((r =? h) && Z.odd q)); lia.
      * assert (Hlog : Z.log2 a = 1023).
        { apply Z.log2_unique; [lia|].
          assert (2 ^ 1023 <= 2 ^ 1024 - 2 ^ 970) by (vm_compute; discriminate).
          change (Z.succ 1023) with 1024. lia. }
        assert (He971 : e = 971) by (unfold e; lia).
        assert (HP : P = 2 ^ 971) by (unfold P; now rewrite He971).
        assert (Hh : h = 2 ^ 970) by (unfold h; now rewrite He971).
        assert (Hq1 : 2 ^ 53 - 1 <= q).
        { unfold q. apply Z.div_le_lower_bound; [lia|]. rewrite HP.
          assert (2 ^ 971 * (2 ^ 53 - 1) = 2 ^ 1024 - 2 ^ 971) by reflexivity.
          assert (2 ^ 971 = 2 * 2 ^ 970) by reflexivity.
          assert (0 < 2 ^ 970) by reflexivity. lia. }
        assert (Hqeq : q = 2 ^ 53 - 1) by lia.
        assert (Hodd : Z.odd q = true) by (rewrite Hqeq; reflexivity).
        assert (Hrh : h <= r).
        { assert (P * q = 2 ^ 1024 - 2 ^ 971).
          { rewrite HP, Hqeq. reflexivity. }
          assert (2 ^ 971 = 2 * 2 ^ 970) by reflexivity.
          lia. }
        assert (Hup : (h <? r) || ((r =? h) && Z.odd q) = true).
        { rewrite Hodd, andb_true_r.
          destruct (Z.eq_dec r h) as [->|Hn].
          - rewrite Z.eqb_refl. apply orb_true_r.
          - replace (h <? r) with true; [reflexivity|].
            symmetry. apply Z.ltb_lt. lia. }
        rewrite Hup.
        assert ((q + 1) * P = 2 ^ 1024).
        { rewrite HP, Hqeq. reflexivity. }
        lia.
Qed.

(** [clean_dept] raises nothing but OverflowError, and raises it exactly
    when the value is an [int] whose nearest double is out of range
    (magnitude from [2^1024 - 2^970] on) or coerces to an infinity; every
    other input gets a string. *)
Theorem clean_dept_raises (L : PyLib) (v : pyval) (e : exn) :
  clean_dept L v = Raise e <->
  e = OverflowError /\
  ((exists z, v = VInt z /\ 2 ^ 1024 - 2 ^ 970 <= Z.abs z) \/
   (exists neg, py_float L v = Ok (Inf neg))).
Proof.
  unfold clean_dept, clean_dept_body.
  destruct v as [|z|f|s]; cbn [py_float bind].
  - split; [discriminate|]. intros [_ [[z [H _]]|[neg H]]]; discriminate.
  - unfold float_of_int.
    pose proof (round_overflow (Z.abs z) (Z.abs_nonneg z)) as Hov.
    destruct (2 ^ 1024 <=? round_to_double (Z.abs z)) eqn:Hz; cbn [bind py_int].
    + split.
      * intros H. apply Raise_inj in H. subst e. split; [reflexivity|]. left.
        exists z. split; [reflexivity|]. now apply Hov.
      * intros [He _]. now rewrite He.
    + split; [discriminate|]. intros [_ [[z' [H Hz']]|[neg H]]].
      * assert (z' = z) by congruence. subst z'.
        apply Hov in Hz'. discriminate Hz'.
      * discriminate.
  - destruct f as [q|neg|]; cbn [bind py_int].
    + split; [discriminate|]. intros [_ [[z [H _]]|[neg H]]]; discriminate.
    + split.
      * intros H. injection H as <-. split; [reflexivity|]. right. eauto.
      * intros [-> _]. reflexivity.
    + split; [discriminate|]. intros [_ [[z [H _]]|[neg H]]]; discriminate.
  - destruct (float_of_str L s) as [f|]; cbn [bind].
    + destruct f as [q|neg|]; cbn [bind py_int].
      * split; [discriminate|]. intros [_ [[z [H _]]|[neg H]]]; discriminate.
      * split.
        -- intros H. injection H as <-. split; [reflexivity|]. right. eauto.
        -- intros [-> _]. reflexivity.
      * split; [discriminate|]. intros [_ [[z [H _]]|[neg H]]]; discriminate.
    + split; [discriminate|]. intros [_ [[z [H _]]|[neg H]]]; discriminate.
Qed.

(** ** Product-code normalizer *)

Lemma lstrip_by_first (p : ascii -> bool) (s : string) (c : ascii) :
  first_char (Str.lstrip_by p s) = Some c -> p c = false.
Proof.
  induction s as [|a s IH]; simpl; [discriminate|].
  destruct (p a) eqn:Ha; [exact IH|]. simpl. intros H. injection H as <-. exact Ha.
Qed.

Lemma substring_first (n : nat) (s : string) (c : ascii) :
  first_char (substring 0 n s) = Some c -> first_char s = Some c.
Proof.
  destruct s as [|a s]; destruct n; simpl; try discriminate. auto.
Qed.

Lemma clean_jan_first (L : PyLib) (v : pyval) :
  first_char (clean_jan L v) <> Some "'"%char.
Proof.
  unfold clean_jan, Str.drop_dot_zero, Str.lstrip_quote.
  set (s := Str.lstrip_by _ _). intros H.
  assert (Hs : first_char s = Some "'"%char).
  { destruct (Str.ends_with ".0" s); [now apply substring_first in H|exact H]. }
  apply lstrip_by_first in Hs. discriminate Hs.
Qed.


Lemma rev_acc_app (s acc : string) : Str.rev_acc s acc = Str.rev s ++ acc.
Proof.
  unfold Str.rev. revert acc. induction s as [|c s IH]; intros acc; simpl.
  - reflexivity.
  - rewrite IH, (IH (String c EmptyString)), app_assoc_str. reflexivity.
Qed.

Lemma app_empty_r (s : string) : s ++ EmptyString = s.
Proof. induction s; simpl; congruence. Qed.

Lemma rev_app (a b : string) : Str.rev (a ++ b) = Str.rev b ++ Str.rev a.
Proof.
  induction a as [|c a IH]; simpl.
  - now rewrite app_empty_r.
  - unfold Str.rev at 1 3. simpl. rewrite !rev_acc_app, IH, app_assoc_str.
    reflexivity.
Qed.

Lemma rev_rev (s : string) : Str.rev (Str.rev s) = s.
Proof.
  induction s as [|c s IH]; [reflexivity|].
  unfold Str.rev at 2. simpl. rewrite rev_acc_app, rev_app, IH. reflexivity.
Qed.

Lemma all_digits_app (a b : string) :
  Str.all_digits (a ++ b) = Str.all_digits a && Str.all_digits b.
Proof.
  induction a as [|c a IH]; simpl; [reflexivity|]. now rewrite IH, andb_assoc.
Qed.

Lemma all_digits_rev (s : string) : Str.all_digits (Str.rev s) = Str.all_digits s.
Proof.
  induction s as [|c s IH]; [reflexivity|].
  unfold Str.rev. simpl. rewrite rev_acc_app, all_digits_app, IH. simpl.
  rewrite andb_true_r. apply andb_comm.
Qed.

Lemma digit_plain (c : ascii) :
  Str.is_digit c = true ->
  Str.is_space c = false /\ Ascii.eqb "'"%char c = false /\
  Ascii.eqb c "."%char = false.
Proof.
  unfold Str.is_digit, Str.is_space. intros H.
  apply andb_prop in H as [H1 H2]. apply Nat.leb_le in H1, H2.
  split; [|split].
  - apply orb_false_iff. split; apply andb_false_iff.
    + right. apply Nat.leb_gt. lia.
    + right. apply Nat.leb_gt. lia.
  - apply Ascii.eqb_neq. intros <-.
    change (nat_of_ascii "'") with 39%nat in H1. lia.
  - apply Ascii.eqb_neq. intros ->.
    change (nat_of_ascii ".") with 46%nat in H1. lia.
Qed.

Lemma lstrip_by_head (p : ascii -> bool) (c : ascii) (s : string) :
  p c = false -> Str.lstrip_by p (String c s) = String c s.
Proof. intros H. simpl. now rewrite H. Qed.

Lemma lstrip_by_digits (p : ascii -> bool) (s : string) :
  (forall c, Str.is_digit c = true -> p c = false) ->
  Str.all_digits s = true -> Str.lstrip_by p s = s.
Proof.
  intros Hp. destruct s as [|c s]; [reflexivity|]. simpl.
  intros H. apply andb_prop in H as [Hc _]. now rewrite (Hp c Hc).
Qed.

Lemma rstrip_by_digits (p : ascii -> bool) (s : string) :
  (forall c, Str.is_digit c = true -> p c = false) ->
  Str.all_digits s = true -> Str.rstrip_by p s = s.
Proof.
  intros Hp H. unfold Str.rstrip_by.
  rewrite lstrip_by_digits; [apply rev_rev|exact Hp|now rewrite all_digits_rev].
Qed.

Lemma space2_ascii (a b : ascii) :
  (nat_of_ascii a <? 128)%nat = true -> Str.space2 a b = false.
Proof.
  intros H. apply Nat.ltb_lt in H. unfold Str.space2.
  replace (nat_of_ascii a =? 194)%nat with false; [reflexivity|].
  symmetry. apply Nat.eqb_neq. lia.
Qed.

Lemma space3_ascii (a b c : ascii) :
  (nat_of_ascii a <? 128)%nat = true -> Str.space3 a b c = false.
Proof.
  intros H. apply Nat.ltb_lt in H. unfold Str.space3. cbv zeta.
  replace (nat_of_ascii a =? 225)%nat with false
    by (symmetry; apply Nat.eqb_neq; lia).
  replace (nat_of_ascii a =? 226)%nat with false
    by (symmetry; apply Nat.eqb_neq; lia).
  replace (nat_of_ascii a =? 227)%nat with false
    by (symmetry; apply Nat.eqb_neq; lia).
  reflexivity.
Qed.

Lemma space2_rev_ascii (a b : ascii) :
  (nat_of_ascii a <? 128)%nat = true -> Str.space2 b a = false.
Proof.
  intros H. apply Nat.ltb_lt in H. unfold Str.space2.
  replace (nat_of_ascii a =? 133)%nat with false
    by (symmetry; apply Nat.eqb_neq; lia).
  replace (nat_of_ascii a =? 160)%nat with false
    by (symmetry; apply Nat.eqb_neq; lia).
  apply andb_false_r.
Qed.

Lemma space3_rev_ascii (a b c : ascii) :
  (nat_of_ascii a <? 128)%nat = true -> Str.space3 c b a = false.
Proof.
  intros H. apply Nat.ltb_lt in H. unfold Str.space3. cbv zeta.
  replace (nat_of_ascii a =? 128)%nat with false
    by (symmetry; apply Nat.eqb_neq; lia).
  replace (128 <=? nat_of_ascii a)%nat with false
    by (symmetry; apply Nat.leb_gt; lia).
  replace (nat_of_ascii a =? 168)%nat with false
    by (symmetry; apply Nat.eqb_neq; lia).
  replace (nat_of_ascii a =? 169)%nat with false
    by (symmetry; apply Nat.eqb_neq; lia).
  replace (nat_of_ascii a =? 175)%nat with false
    by (symmetry; apply Nat.eqb_neq; lia).
  replace (nat_of_ascii a =? 159)%nat with false
    by (symmetry; apply Nat.eqb_neq; lia).
  rewrite !andb_false_r. reflexivity.
Qed.

(** Text that opens with a plain ASCII character has nothing to strip on
    the left, and text that ends with one nothing on the right. *)
Lemma lstrip_ws_plain (t : string) :
  (forall c, first_char t = Some c -> plain_ascii c = true) ->
  Str.lstrip_ws t = t.
Proof.
  destruct t as [|a r1]; [reflexivity|]. intros H.
  specialize (H a eq_refl). unfold plain_ascii in H.
  apply andb_prop in H as [Hs Ha]. apply negb_true_iff in Hs.
  cbn [Str.lstrip_ws]. rewrite Hs.
  destruct r1 as [|b r2]; [reflexivity|]. rewrite (space2_ascii a b Ha).
  destruct r2 as [|c r3]; [reflexivity|]. now rewrite (space3_ascii a b c Ha).
Qed.

Lemma lstrip_ws_rev_plain (t : string) :
  (forall c, first_char t = Some c -> plain_ascii c = true) ->
  Str.lstrip_ws_rev t = t.
Proof.
  destruct t as [|a r1]; [reflexivity|]. intros H.
  specialize (H a eq_refl). unfold plain_ascii in H.
  apply andb_prop in H as [Hs Ha]. apply negb_true_iff in Hs.
  cbn [Str.lstrip_ws_rev]. rewrite Hs.
  destruct r1 as [|b r2]; [reflexivity|]. rewrite (space2_rev_ascii a b Ha).
  destruct r2 as [|c r3]; [reflexivity|]. now rewrite (space3_rev_ascii a b c Ha).
Qed.

Lemma digit_plain_ascii (c : ascii) :
  Str.is_digit c = true -> plain_ascii c = true.
Proof.
  intros H. unfold plain_ascii. rewrite (proj1 (digit_plain c H)). cbn [negb andb].
  unfold Str.is_digit in H. apply andb_prop in H as [_ H].
  apply Nat.leb_le in H. apply Nat.ltb_lt. lia.
Qed.

Lemma first_char_digits (s : string) (c : ascii) :
  Str.all_digits s = true -> first_char s = Some c -> plain_ascii c = true.
Proof.
  destruct s as [|a s]; [discriminate|]. simpl. intros H Hc.
  injection Hc as <-. apply andb_prop in H as [H _]. now apply digit_plain_ascii.
Qed.

Lemma strip_digits (s : string) : Str.all_digits s = true -> Str.strip s = s.
Proof.
  intros H. unfold Str.strip.
  rewrite (lstrip_ws_plain s); [|intros c; now apply first_char_digits].
  rewrite lstrip_ws_rev_plain; [apply rev_rev|].
  intros c. apply first_char_digits. now rewrite all_digits_rev.
Qed.

Lemma prefix_two (a b : ascii) (x : string) :
  prefix (String a (String b EmptyString)) x = true ->
  exists r, x = String a (String b r).
Proof.
  destruct x as [|a' [|b' r]]; cbn [prefix]; try discriminate.
  - destruct (ascii_dec a a'); discriminate.
  - destruct (ascii_dec a a') as [<-|]; [|discriminate].
    destruct (ascii_dec b b') as [<-|]; [|discriminate]. eauto.
Qed.

Lemma drop_dot_zero_digits (s : string) :
  Str.all_digits s = true -> Str.drop_dot_zero s = s.
Proof.
  intros H. unfold Str.drop_dot_zero, Str.ends_with.
  change (Str.rev ".0") with "0.".
  destruct (prefix "0." (Str.rev s)) eqn:E; [|reflexivity].
  exfalso. apply prefix_two in E as [r Hr].
  rewrite <- all_digits_rev, Hr in H. simpl in H. discriminate H.
Qed.

Lemma substring_app_l (a b : string) : substring 0 (String.length a) (a ++ b) = a.
Proof. induction a as [|c a IH]; simpl; [now destruct b|now rewrite IH]. Qed.

Lemma drop_dot_zero_suffix (s : string) : Str.drop_dot_zero (s ++ ".0") = s.
Proof.
  unfold Str.drop_dot_zero, Str.ends_with. rewrite rev_app.
  change (Str.rev ".0") with "0.". rewrite prefix_app, length_app. simpl.
  replace (String.length s + 2 - 2)%nat with (String.length s) by lia.
  apply substring_app_l.
Qed.

Lemma lstrip_by_id (p : ascii -> bool) (t : string) :
  (forall c, first_char t = Some c -> p c = false) -> Str.lstrip_by p t = t.
Proof.
  destruct t as [|c t]; [reflexivity|]. simpl. intros H.
  now rewrite (H c eq_refl).
Qed.

Lemma first_char_digits_app (p : ascii -> bool) (a b : string) (c : ascii) :
  (forall d, Str.is_digit d = true -> p d = false) ->
  Str.all_digits a = true ->
  (forall d, first_char b = Some d -> p d = false) ->
  first_char (a ++ b) = Some c -> p c = false.
Proof.
  intros Hp Ha Hb. destruct a as [|x a]; simpl; [apply Hb|].
  simpl in Ha. apply andb_prop in Ha as [Hx _].
  intros H. injection H as <-. now apply Hp.
Qed.

Lemma strip_id (t : string) :
  (forall c, first_char t = Some c -> plain_ascii c = true) ->
  (forall c, first_char (Str.rev t) = Some c -> plain_ascii c = true) ->
  Str.strip t = t.
Proof.
  intros Hl Hr. unfold Str.strip.
  rewrite (lstrip_ws_plain t Hl), (lstrip_ws_rev_plain _ Hr). apply rev_rev.
Qed.

Lemma first_char_digits_then (a b : string) (c : ascii) :
  Str.all_digits a = true ->
  (forall d, first_char b = Some d -> plain_ascii d = true) ->
  first_char (a ++ b) = Some c -> plain_ascii c = true.
Proof.
  intros Ha Hb. destruct a as [|x a]; simpl; [apply Hb|].
  simpl in Ha. apply andb_prop in Ha as [Hx _].
  intros H. injection H as <-. now apply digit_plain_ascii.
Qed.

Lemma digit_not_space (c : ascii) : Str.is_digit c = true -> Str.is_space c = false.
Proof. intros H. now apply digit_plain. Qed.

Lemma digit_not_quote (c : ascii) :
  Str.is_digit c = true -> Ascii.eqb "'"%char c = false.
Proof. intros H. now apply digit_plain. Qed.

(** The product-code normalizer undoes what spreadsheets do to a code of
    decimal digits: the code itself, the code behind an apostrophe and the
    code followed by [.0] all come back as the code; and whatever the
    input, the result does not begin with an apostrophe. *)
Theorem clean_jan_codes (L : PyLib) (s : string) :
  Str.all_digits s = true ->
  clean_jan L (VStr s) = s /\
  clean_jan L (VStr ("'" ++ s)) = s /\
  clean_jan L (VStr (s ++ ".0")) = s /\
  forall v, first_char (clean_jan L v) <> Some "'"%char.
Proof.
  intros H.
  assert (Hrev : Str.all_digits (Str.rev s) = true) by now rewrite all_digits_rev.
  assert (Hq : Str.lstrip_quote s = s).
  { apply lstrip_by_digits; [exact digit_not_quote|exact H]. }
  unfold clean_jan. cbn [py_str]. repeat split.
  - rewrite (strip_digits s H), Hq. now apply drop_dot_zero_digits.
  - rewrite strip_id.
    + change (Str.lstrip_quote ("'" ++ s)) with (Str.lstrip_quote s).
      rewrite Hq. now apply drop_dot_zero_digits.
    + intros c Hc. injection Hc as <-. reflexivity.
    + intros c. rewrite rev_app.
      apply first_char_digits_then; [exact Hrev|].
      intros d Hd. injection Hd as <-. reflexivity.
  - rewrite strip_id.
    + unfold Str.lstrip_quote. rewrite lstrip_by_id; [apply drop_dot_zero_suffix|].
      intros c. apply (first_char_digits_app (Ascii.eqb "'"));
        [exact digit_not_quote|exact H|].
      intros d Hd. injection Hd as <-. reflexivity.
    + intros c. apply first_char_digits_then; [exact H|].
      intros d Hd. injection Hd as <-. reflexivity.
    + intros c. rewrite rev_app. intros Hc. injection Hc as <-. reflexivity.
  - apply clean_jan_first.
Qed.

Lemma clean_jan_codes_witness :
  clean_jan ExampleLib.lib (VStr "4900000000001") = "4900000000001" /\
  clean_jan ExampleLib.lib (VStr "'4900000000001") = "4900000000001" /\
  clean_jan ExampleLib.lib (VStr "4900000000001.0") = "4900000000001".
Proof.
  destruct (clean_jan_codes ExampleLib.lib "4900000000001" eq_refl)
    as [H1 [H2 [H3 _]]].
  split; [exact H1|]. split; [exact H2|exact H3].
Defined.

(** ** Transactional parser: what it stores and when it gives up *)

Lemma index_of_missing (name : string) (l : list string) :
  ~ In name l -> index_of String.eqb name l = None.
Proof.
  induction l as [|x l IH]; simpl; intros H; [reflexivity|].
  destruct (String.eqb name x) eqn:E.
  - apply String.eqb_eq in E. subst. tauto.
  - rewrite IH; tauto.
Qed.

Lemma column_missing (df : frame string) (name : string) :
  ~ In name (columns df) -> column df name = Raise KeyError.
Proof. intros H. unfold column. now rewrite index_of_missing. Qed.

(** A table that has the three required columns but lacks one of order
    quantity, unit price, order class or product name (under their source
    or unified names) is not answered with an empty set or a partial
    table: the parser raises (the KeyError of the missing column, unless a
    normalizer raised before). *)
Theorem process_format_1_incomplete (L : PyLib) (df : frame string) (c : string) :
  (forall r, In r required_columns -> In r (columns df)) ->
  In c [COL_QTY; COL_PRICE; COL_PROMO; COL_NAME] ->
  ~ In c (map rename (columns df)) ->
  exists e, process_format_1 L df = Raise e.
Proof.
  intros Hreq Hc Hmiss. unfold process_format_1.
  assert (Hall : forallb (fun c => mem_str c (columns df)) required_columns = true).
  { apply forallb_forall. intros r Hr. now apply mem_str_In, Hreq. }
  rewrite Hall. cbn [negb].
  set (df' := mkframe (map rename (columns df)) (rows df)).
  assert (Hcol : column df' c = Raise KeyError) by now apply column_missing.
  repeat match goal with
         | |- exists e, bind ?r _ = Raise e =>
             let E := fresh "E" in
             destruct r eqn:E; cbn [bind]; [|eauto]
         end.
  simpl in Hc. destruct Hc as [<-|[<-|[<-|[<-|[]]]]]; congruence.
Qed.

Lemma process_format_1_incomplete_witness :
  exists e, process_format_1 ExampleLib.lib table_without_quantity = Raise e.
Proof.
  apply (process_format_1_incomplete ExampleLib.lib table_without_quantity COL_QTY).
  - intros r Hr. simpl in Hr. simpl.
    destruct Hr as [<-|[<-|[<-|[]]]]; auto.
  - simpl. auto.
  - simpl. intros [H|[H|[H|[H|[H|[H|[]]]]]]]; discriminate H.
Defined.

Lemma zip_records_fields ds ps js ns qs us os r :
  In r (zip_records ds ps js ns qs us os) ->
  In (department r) ps /\ In (jan r) js /\ In (product_name r) ns /\
  In (promotion r) os.
Proof.
  revert ps js ns qs us os.
  induction ds as [|d ds IH]; intros ps js ns qs us os; [intros []|].
  destruct ps as [|p ps], js as [|j js], ns as [|n ns], qs as [|q qs],
    us as [|u us], os as [|o os]; simpl; try (intros []; fail).
  intros [<-|Hin].
  - simpl. auto.
  - destruct (IH _ _ _ _ _ _ Hin) as [H1 [H2 [H3 H4]]]. auto.
Qed.

Lemma zip_records_length ds ps js ns qs us os :
  (length (zip_records ds ps js ns qs us os) <= length ds)%nat.
Proof.
  revert ps js ns qs us os.
  induction ds as [|d ds IH]; intros ps js ns qs us os; [simpl; lia|].
  destruct ps as [|p ps], js as [|j js], ns as [|n ns], qs as [|q qs],
    us as [|u us], os as [|o os]; simpl; try lia.
  specialize (IH ps js ns qs us os). lia.
Qed.

Lemma mapM_Ok_In {A B} (f : A -> res B) (l : list A) (out : list B) (b : B) :
  mapM f l = Ok out -> In b out -> exists a, In a l /\ f a = Ok b.
Proof.
  intros H. apply mapM_Ok_inv in H. induction H as [|a b' l out Hab _ IH].
  - intros [].
  - intros [<-|Hin]; [exists a; split; [now left|exact Hab]|].
    destruct (IH Hin) as [a' [Ha' Hf]]. exists a'. split; [now right|exact Hf].
Qed.

Lemma mapM_Ok_length {A B} (f : A -> res B) (l : list A) (out : list B) :
  mapM f l = Ok out -> length out = length l.
Proof.
  intros H. apply mapM_Ok_inv in H. symmetry. eapply Forall2_length; eauto.
Qed.

Lemma clean_dept_Ok_length (L : PyLib) (v : pyval) (s : string) :
  clean_dept L v = Ok s -> (3 <= String.length s)%nat.
Proof.
  unfold clean_dept, clean_dept_body.
  destruct (py_float L v) as [f|e]; cbn [bind].
  - destruct (py_int f) as [n|e]; cbn [bind].
    + intros H. apply Ok_inj in H. subst. apply zfill_length.
    + destruct e; intros H; try discriminate; apply Ok_inj in H; subst; simpl; lia.
  - destruct e; intros H; try discriminate; apply Ok_inj in H; subst; simpl; lia.
Qed.

Lemma promo_cell_not_null_text (L : PyLib) (v : pyval) :
  promo_cell L v <> "nan" /\ promo_cell L v <> "None".
Proof.
  unfold promo_cell. set (s := if isna v then _ else _).
  destruct (String.eqb s "nan") eqn:E1; cbn [orb]; [split; discriminate|].
  destruct (String.eqb s "None") eqn:E2; [split; discriminate|].
  split; now apply String.eqb_neq.
Qed.

(** What the transactional parser returns has at most one record per
    source row, and in every record the department has at least three
    characters, the product code does not begin with an apostrophe, and
    the promotion label is neither of the null spellings [nan] and
    [None]. *)
Theorem process_format_1_stores (L : PyLib) (df : frame string)
    (out : list record) :
  process_format_1 L df = Ok out ->
  (length out <= length (rows df))%nat /\
  forall r, In r out ->
    (3 <= String.length (department r))%nat /\
    first_char (jan r) <> Some "'"%char /\
    promotion r <> "nan" /\ promotion r <> "None".
Proof.
  unfold process_format_1.
  destruct (negb _);
    [intros H; apply Ok_inj in H; subst; split; [simpl; lia|intros r []]|].
  intros H.
  apply bind_Ok in H as [raw_date [Hrd H]]. apply bind_Ok in H as [dates [Hd H]].
  apply bind_Ok in H as [raw_dept [_ H]]. apply bind_Ok in H as [depts [Hp H]].
  apply bind_Ok in H as [raw_jan [_ H]]. apply bind_Ok in H as [raw_qty [_ H]].
  apply bind_Ok in H as [raw_price [_ H]]. apply bind_Ok in H as [raw_promo [_ H]].
  apply bind_Ok in H as [names [_ H]]. apply Ok_inj in H. subst out.
  split.
  - unfold dropna_date.
    eapply Nat.le_trans; [apply filter_length_le|].
    eapply Nat.le_trans; [apply zip_records_length|].
    rewrite (mapM_Ok_length _ _ _ Hd).
    apply column_Ok in Hrd as [i [_ ->]]. rewrite length_map. simpl. lia.
  - intros r Hr. apply filter_In in Hr as [Hr _].
    apply zip_records_fields in Hr as [Hdept [Hjan [_ Hpromo]]].
    split.
    { destruct (mapM_Ok_In _ _ _ _ Hp Hdept) as [v [_ Hv]].
      eapply clean_dept_Ok_length; eauto. }
    split.
    { apply in_map_iff in Hjan as [v [<- _]]. apply clean_jan_first. }
    apply in_map_iff in Hpromo as [v [<- _]]. apply promo_cell_not_null_text.
Qed.

Lemma process_format_1_stores_witness :
  exists out,
    process_format_1 ExampleLib.lib table_quoted_codes = Ok out /\
    (length out <= length (rows table_quoted_codes))%nat /\
    map department out = ["007"] /\ map jan out = ["4900000000001"] /\
    map promotion out = [EmptyString].
Proof.
  destruct (process_format_1 ExampleLib.lib table_quoted_codes) as [out|e] eqn:E.
  - exists out. split; [reflexivity|].
    split; [exact (proj1 (process_format_1_stores _ _ _ E))|].
    vm_compute in E. apply Ok_inj in E. subst out. repeat split.
  - vm_compute in E. discriminate E.
Defined.

(** ** Matrix parser: the header *)

Lemma fill_tops_app (l0 : option string) (a b : list (string * string)) :
  exists l1, fill_tops l0 (a ++ b) = (fill_tops l0 a ++ fill_tops l1 b)%list.
Proof.
  revert l0. induction a as [|[top bottom] a IH]; intros l0; simpl.
  - exists l0. reflexivity.
  - destruct (IH (if negb (Str.contains "Unnamed" top)
                     && negb (Str.contains "週合計" top)
                  then Some top else l0)) as [l1 ->].
    exists l1. reflexivity.
Qed.

Lemma fill_tops_run (t : option string) (mids rest : list (string * string)) :
  forallb placeholder mids = true ->
  fill_tops t (mids ++ rest)
  = (map (fun c => (t, snd c)) mids ++ fill_tops t rest)%list.
Proof.
  induction mids as [|[top bottom] mids IH]; simpl; [reflexivity|].
  unfold placeholder at 1. simpl. intros H. apply andb_prop in H as [Hp Hm].
  rewrite Hp. simpl. now rewrite IH.
Qed.

(** The forward fill of the two-row header: wherever a labelled column is
    followed by a run of placeholder columns, the labelled column and the
    whole run carry that label (bottoms untouched), and the fill goes on
    from there with that label; a weekly-total column keeps its own label
    but hands on the label before it. *)
Theorem fill_tops_forward (l0 : option string) (pre mids rest : list (string * string))
    (top bottom : string) :
  forallb placeholder mids = true ->
  (real_label top = true ->
   fill_tops l0 (pre ++ (top, bottom) :: mids ++ rest)
   = (fill_tops l0 pre ++ (Some top, bottom)
        :: map (fun c => (Some top, snd c)) mids ++ fill_tops (Some top) rest)%list) /\
  (Str.contains "Unnamed" top = false -> Str.contains "週合計" top = true ->
   exists l1,
     fill_tops l0 (pre ++ (top, bottom) :: mids ++ rest)
     = (fill_tops l0 pre ++ (Some top, bottom)
          :: map (fun c => (l1, snd c)) mids ++ fill_tops l1 rest)%list /\
     (pre = [] -> l1 = l0)).
Proof.
  intros Hm. split.
  - intros Hreal. destruct (fill_tops_app l0 pre ((top, bottom) :: mids ++ rest))
      as [l1 ->]. f_equal. cbn [fill_tops].
    unfold real_label in Hreal. rewrite Hreal.
    apply andb_prop in Hreal as [Hu _]. apply negb_true_iff in Hu. rewrite Hu.
    f_equal. now apply fill_tops_run.
  - intros Hu Hw.
    assert (Hstep : forall l, fill_tops l ((top, bottom) :: mids ++ rest)
              = ((Some top, bottom) :: map (fun c => (l, snd c)) mids
                   ++ fill_tops l rest)%list).
    { intros l. cbn [fill_tops]. rewrite Hu, Hw. cbn [negb andb].
      f_equal. now apply fill_tops_run. }
    destruct pre as [|c pre].
    + exists l0. split; [|reflexivity]. cbn [app fill_tops]. apply Hstep.
    + destruct (fill_tops_app l0 (c :: pre) ((top, bottom) :: mids ++ rest))
        as [l1 ->]. exists l1. split; [|discriminate]. f_equal. apply Hstep.
Qed.

Lemma fill_tops_forward_witness :
  fill_tops None matrix_header
  = [ (Some "JANコード", "Unnamed: 0_level_1"); (Some "部門", "Unnamed: 1_level_1");
      (Some "商品名", "Unnamed: 2_level_1");
      (Some "5/1", "数量"); (Some "5/1", "売価"); (Some "5/1", "販促");
      (Some "5/2", "数量"); (Some "5/2", "売価"); (Some "5/2", "販促") ].
Proof.
  pose proof (proj1 (fill_tops_forward None
      [ ("JANコード", "Unnamed: 0_level_1"); ("部門", "Unnamed: 1_level_1");
        ("商品名", "Unnamed: 2_level_1") ]
      [ ("Unnamed: 4_level_0", "売価"); ("Unnamed: 5_level_0", "販促") ]
      [ ("5/2", "数量"); ("Unnamed: 7_level_0", "売価");
        ("Unnamed: 8_level_0", "販促") ]
      "5/1" "数量" eq_refl) eq_refl) as H.
  unfold matrix_header. cbn [app] in H. rewrite H. reflexivity.
Defined.

Lemma NoDup_snoc {A} (l : list A) (x : A) :
  NoDup l -> ~ In x l -> NoDup (l ++ [x]).
Proof.
  intros Hl Hx. eapply Permutation_NoDup; [apply Permutation_cons_append|].
  now constructor.
Qed.

Lemma mem_str_false (c : string) (l : list string) :
  mem_str c l = false -> ~ In c l.
Proof. intros H Hin. apply mem_str_In in Hin. congruence. Qed.

Lemma add_date_cols_grows (cols : list (option string * string))
    (acc : list string) (t : string) :
  In t acc -> In t (add_date_cols cols acc).
Proof.
  revert acc. induction cols as [|[top bottom] cols IH]; intros acc H; simpl;
    [exact H|].
  apply IH. destruct (Str.contains "Unnamed" bottom); [exact H|].
  destruct top as [t'|]; [|exact H].
  destruct (_ && _)%bool; [apply in_or_app; now left|exact H].
Qed.

(** The date labels of the matrix header: each label once; a label is
    among them exactly when some column under it has a field name in the
    bottom row and the label is not a weekly total. *)
Theorem add_date_cols_labels (new_cols : list (option string * string)) :
  NoDup (add_date_cols new_cols []) /\
  forall t, In t (add_date_cols new_cols []) <->
            Str.contains "週合計" t = false /\
            exists bottom, In (Some t, bottom) new_cols /\
                           Str.contains "Unnamed" bottom = false.
Proof.
  assert (Hinv : forall cols acc,
    NoDup acc ->
    NoDup (add_date_cols cols acc) /\
    forall t, In t (add_date_cols cols acc) <->
              In t acc \/
              (Str.contains "週合計" t = false /\
               exists bottom, In (Some t, bottom) cols /\
                              Str.contains "Unnamed" bottom = false)).
  { induction cols as [|[top bottom] cols IH]; intros acc Hacc.
    - simpl. split; [exact Hacc|]. intros t. split; [auto|].
      intros [H|[_ [b [[] _]]]]. exact H.
    - cbn [add_date_cols].
      destruct (Str.contains "Unnamed" bottom) eqn:Hb.
      + destruct (IH acc Hacc) as [Hn Hiff]. split; [exact Hn|].
        intros t. rewrite Hiff. split.
        * intros [H|[Hw [b [Hin Hu]]]]; [now left|right].
          split; [exact Hw|]. exists b. split; [now right|exact Hu].
        * intros [H|[Hw [b [[Heq|Hin] Hu]]]]; [now left| |right; eauto].
          injection Heq as _ <-. congruence.
      + destruct top as [t0|].
        * destruct (negb (Str.contains "週合計" t0) && negb (mem_str t0 acc))%bool
            eqn:Hc.
          -- apply andb_prop in Hc as [Hw Hm]. apply negb_true_iff in Hw, Hm.
             destruct (IH (acc ++ [t0])%list
                          (NoDup_snoc _ _ Hacc (mem_str_false _ _ Hm)))
               as [Hn Hiff].
             split; [exact Hn|]. intros t. rewrite Hiff, in_app_iff. simpl. split.
             ++ intros [[H|[<-|[]]]|[Hw' [b [Hin Hu]]]].
                ** now left.
                ** right. split; [exact Hw|]. exists bottom. auto.
                ** right. split; [exact Hw'|]. exists b. auto.
             ++ intros [H|[Hw' [b [[Heq|Hin] Hu]]]].
                ** left. now left.
                ** injection Heq as <- <-. left. right. now left.
                ** right. eauto.
          -- destruct (IH acc Hacc) as [Hn Hiff]. split; [exact Hn|].
             intros t. rewrite Hiff. split.
             ++ intros [H|[Hw [b [Hin Hu]]]]; [now left|right].
                split; [exact Hw|]. exists b. split; [now right|exact Hu].
             ++ intros [H|[Hw [b [[Heq|Hin] Hu]]]]; [now left| |right; eauto].
                injection Heq as <- <-. left.
                apply andb_false_iff in Hc as [Hc|Hc].
                ** apply negb_false_iff in Hc. congruence.
                ** apply negb_false_iff in Hc. now apply mem_str_In.
        * destruct (IH acc Hacc) as [Hn Hiff]. split; [exact Hn|].
          intros t. rewrite Hiff. split.
          -- intros [H|[Hw [b [Hin Hu]]]]; [now left|right].
             split; [exact Hw|]. exists b. split; [now right|exact Hu].
          -- intros [H|[Hw [b [[Heq|Hin] Hu]]]]; [now left| |right; eauto].
             discriminate Heq. }
  destruct (Hinv new_cols [] (NoDup_nil _)) as [Hn Hiff].
  split; [exact Hn|]. intros t. rewrite Hiff. split; [|auto].
  intros [[]|H]. exact H.
Qed.

(** ** Matrix parser: the records *)

Lemma info_get_absent (info : list (option string * pyval)) (name : string)
    (default : pyval) :
  (forall kv, In kv info -> fst kv <> Some name) ->
  info_get info name default = default.
Proof.
  unfold info_get. revert default.
  induction info as [|kv info IH]; intros default H; simpl; [reflexivity|].
  assert (Hkv : fst kv <> Some name) by (apply H; now left).
  destruct (fst kv) as [t|].
  - destruct (String.eqb t name) eqn:E.
    + apply String.eqb_eq in E. subst. congruence.
    + apply IH. intros kv' Hin. apply H. now right.
  - apply IH. intros kv' Hin. apply H. now right.
Qed.

Lemma concatM_nil {A B} (f : A -> res (list B)) (l : list A) :
  (forall a, In a l -> f a = Ok []) -> concatM f l = Ok [].
Proof.
  induction l as [|a l IH]; intros H; simpl; [reflexivity|].
  rewrite (H a (or_introl eq_refl)). cbn [bind].
  rewrite IH; [reflexivity|]. intros a' Ha'. apply H. now right.
Qed.

(** A matrix table in which no fixed column is headed by the product code
    label gives the empty record set, whatever its rows hold: the parser
    does not raise and does not guess another column. *)
Theorem matrix_without_code_column (L : PyLib) (df : frame (string * string)) :
  (forall k, In k (fixed_keys (fill_tops None (columns df))) ->
             fst k <> Some "JANコード") ->
  process_format_2_from_df L df = Ok [].
Proof.
  intros H. unfold process_format_2_from_df. apply concatM_nil.
  intros row _. unfold row_records.
  rewrite info_get_absent; [reflexivity|].
  intros kv Hkv. unfold base_info in Hkv. apply in_map_iff in Hkv as [k [<- Hk]].
  simpl. now apply H.
Qed.

Lemma matrix_without_code_column_witness :
  process_format_2_from_df ExampleLib.lib table_without_jan = Ok [].
Proof.
  apply matrix_without_code_column.
  intros k Hk. vm_compute in Hk.
  destruct Hk as [<-|[<-|[]]]; discriminate.
Defined.

Lemma concatM_length {A B} (f : A -> res (list B)) (l : list A) (n : nat)
    (out : list B) :
  (forall a x, f a = Ok x -> (length x <= n)%nat) ->
  concatM f l = Ok out -> (length out <= length l * n)%nat.
Proof.
  intros Hf. revert out. induction l as [|a l IH]; simpl; intros out H.
  - apply Ok_inj in H. subst. simpl. lia.
  - apply bind_Ok in H as [x [Hx H]]. apply bind_Ok in H as [xs [Hxs H]].
    apply Ok_inj in H. subst. rewrite List.length_app.
    specialize (Hf _ _ Hx). specialize (IH _ Hxs). lia.
Qed.

Lemma date_cell_record_one (L : PyLib) new_cols row dept_val jan_val name_val
    (t : string) (x : list record) :
  date_cell_record L new_cols row dept_val jan_val name_val t = Ok x ->
  (length x <= 1)%nat /\
  forall r, In r x ->
    t <> EmptyString /\ t <> "nan" /\
    parse_date_str L (VStr t) None = Ok (rec_date r) /\
    clean_dept L dept_val = Ok (department r) /\
    jan r = clean_jan L jan_val /\ product_name r = name_val.
Proof.
  unfold date_cell_record.
  destruct ((String.length t =? 0)%nat || String.eqb t "nan")%bool eqn:Ht;
    [intros H; apply Ok_inj in H; subst; split; [simpl; lia|intros r []]|].
  destruct (isnan _ || feq _ fzero)%bool;
    [intros H; apply Ok_inj in H; subst; split; [simpl; lia|intros r []]|].
  intros H. apply bind_Ok in H as [d [Hd H]]. apply bind_Ok in H as [p [Hp H]].
  apply Ok_inj in H. subst x. split; [simpl; lia|].
  intros r [<-|[]]. simpl. apply orb_false_iff in Ht as [Hlen Hnan].
  repeat split; auto.
  - intros ->. discriminate Hlen.
  - now apply String.eqb_neq.
Qed.

(** What the matrix parser returns has at most one record per row and date
    label, and every record stems from a date label of the header -- not
    empty, not [nan] -- whose normalized form is the record's date; its
    department has at least three characters and its product code does
    not begin with an apostrophe. *)
Theorem process_format_2_stores (L : PyLib) (df : frame (string * string))
    (out : list record) :
  process_format_2_from_df L df = Ok out ->
  let date_cols := add_date_cols (fill_tops None (columns df)) [] in
  (length out <= length (rows df) * length date_cols)%nat /\
  forall r, In r out ->
    (exists t, In t date_cols /\ t <> EmptyString /\ t <> "nan" /\
               parse_date_str L (VStr t) None = Ok (rec_date r)) /\
    (3 <= String.length (department r))%nat /\
    first_char (jan r) <> Some "'"%char.
Proof.
  unfold process_format_2_from_df. intros H. cbv zeta.
  set (new_cols := fill_tops None (columns df)) in *.
  set (date_cols := add_date_cols new_cols []) in *.
  split.
  - eapply concatM_length; [|exact H]. intros row x Hx. unfold row_records in Hx.
    destruct (isna _); [apply Ok_inj in Hx; subst; simpl; lia|].
    apply (concatM_length _ _ 1) in Hx; [lia|].
    intros t y Hy. now apply date_cell_record_one in Hy.
  - intros r Hr. destruct (concatM_In _ _ _ _ H Hr) as [row [x [_ [Hx Hrx]]]].
    unfold row_records in Hx.
    destruct (isna _); [apply Ok_inj in Hx; subst; destruct Hrx|].
    destruct (concatM_In _ _ _ _ Hx Hrx) as [t [y [Ht [Hy Hry]]]].
    apply date_cell_record_one in Hy as [_ Hy].
    destruct (Hy r Hry) as [Hne [Hnan [Hd [Hp [Hj _]]]]].
    split; [exists t; auto|]. split.
    + eapply clean_dept_Ok_length; eauto.
    + rewrite Hj. apply clean_jan_first.
Qed.

Lemma process_format_2_stores_witness :
  exists out,
    process_format_2_from_df ExampleLib.lib
      (mkframe matrix_header [matrix_row_half]) = Ok out /\
    (length out <= 1 * 2)%nat.
Proof.
  destruct (process_format_2_from_df ExampleLib.lib
              (mkframe matrix_header [matrix_row_half])) as [out|e] eqn:E.
  - exists out. split; [reflexivity|].
    exact (proj1 (process_format_2_stores _ _ _ E)).
  - vm_compute in E. discriminate E.
Defined.

(** ** Calendar arithmetic of the strip *)

Lemma days_in_month_bounds (y m : Z) : 28 <= days_in_month y m <= 31.
Proof.
  unfold days_in_month.
  destruct (m =? 2); [destruct (is_leap y); lia|].
  destruct ((m =? 4) || (m =? 6) || (m =? 9) || (m =? 11))%bool; lia.
Qed.

(** The day after a valid date is a valid date that comes strictly later;
    the one date without a next day is 31 December 9999, where the step
    raises OverflowError. *)
Theorem next_day_valid (d : date) :
  valid d = true ->
  (d = mkdate 9999 12 31 /\ next_day d = Raise OverflowError) \/
  (exists d', next_day d = Ok d' /\ valid d' = true /\
              date_leb d d' = true /\ date_eqb d d' = false).
Proof.
  destruct d as [y m dd]. unfold valid, valid_date, next_day. cbn [year month day].
  rewrite !andb_true_iff, !Z.leb_le. intros [[[[[Hy1 Hy2] Hm1] Hm2] Hd1] Hd2].
  destruct (dd <? days_in_month y m) eqn:Hd.
  - right. apply Z.ltb_lt in Hd. eexists. split; [reflexivity|].
    unfold date_leb, date_eqb. cbn [year month day].
    rewrite !andb_true_iff, !Z.leb_le. split; [lia|].
    rewrite Z.ltb_irrefl, !Z.eqb_refl. cbn [orb andb]. split.
    + apply orb_true_iff. right. apply Z.leb_le. lia.
    + apply Z.eqb_neq. lia.
  - apply Z.ltb_ge in Hd. destruct (m <? 12) eqn:Hm.
    + right. apply Z.ltb_lt in Hm. eexists. split; [reflexivity|].
      unfold date_leb, date_eqb. cbn [year month day].
      pose proof (days_in_month_bounds y (m + 1)).
      rewrite !andb_true_iff, !Z.leb_le. split; [lia|].
      rewrite Z.ltb_irrefl, !Z.eqb_refl. cbn [orb andb]. split.
      * apply orb_true_iff. left. apply Z.ltb_lt. lia.
      * replace (m =? m + 1) with false; [reflexivity|].
        symmetry. apply Z.eqb_neq. lia.
    + apply Z.ltb_ge in Hm. assert (m = 12) by lia. subst m.
      destruct (y <? 9999) eqn:Hy.
      * right. apply Z.ltb_lt in Hy. eexists. split; [reflexivity|].
        unfold date_leb, date_eqb. cbn [year month day].
        split; [|split].
        -- rewrite !andb_true_iff, !Z.leb_le. cbn. lia.
        -- apply orb_true_iff. left. apply Z.ltb_lt. lia.
        -- replace (y =? y + 1) with false; [reflexivity|].
           symmetry. apply Z.eqb_neq. lia.
      * left. apply Z.ltb_ge in Hy. split; [|reflexivity].
        assert (days_in_month y 12 = 31) by reflexivity.
        f_equal; lia.
Qed.

Lemma next_day_valid_witness :
  exists d', next_day (mkdate 2024 2 28) = Ok d' /\ valid d' = true /\
             date_leb (mkdate 2024 2 28) d' = true /\
             date_eqb (mkdate 2024 2 28) d' = false.
Proof.
  destruct (next_day_valid (mkdate 2024 2 28) eq_refl) as [[H _]|H];
    [discriminate H|exact H].
Defined.

(** ** Rendering: when it returns, when it fails, what the name can do *)

Lemma generate_svg_returns_witness :
  exists s,
    generate_svg ExampleLib.lib item_75000 [(mkdate 2024 5 2, Fin (3 # 1))]
                 (mkdate 2024 5 1) = Ok s.
Proof.
  apply generate_svg_returns; try (eexists; reflexivity).
  - intros d'. simpl. destruct (date_eqb d' _); eexists; reflexivity.
  - simpl. lia.
Defined.





Lemma html_escape_no_markup (s : string) :
  all_chars (fun c => negb (markup_char c)) (Str.html_escape s) = true.
Proof.
  induction s as [|c s IH]; [reflexivity|]. cbn [Str.html_escape].
  destruct (Ascii.eqb c "&") eqn:E1; [rewrite all_chars_app, IH; reflexivity|].
  destruct (Ascii.eqb c "<") eqn:E2; [rewrite all_chars_app, IH; reflexivity|].
  destruct (Ascii.eqb c ">") eqn:E3; [rewrite all_chars_app, IH; reflexivity|].
  destruct (Ascii.eqb c (ascii_of_nat 34)) eqn:E4;
    [rewrite all_chars_app, IH; reflexivity|].
  destruct (Ascii.eqb c "'") eqn:E5; [rewrite all_chars_app, IH; reflexivity|].
  cbn [all_chars]. rewrite IH, andb_true_r.
  unfold markup_char. cbn [existsb]. now rewrite E2, E3, E4, E5.
Qed.

(** The segments of a chain [x1 ++ (x2 ++ ...)] before and after the
    segment [n]. *)
Ltac segments_before n t :=
  match t with
  | n ++ _ => constr:(EmptyString)
  | ?x ++ ?rest => let p := segments_before n rest in constr:(x ++ p)
  end.

Ltac segments_after n t :=
  match t with
  | n ++ ?rest => constr:(rest)
  | _ ++ ?rest => segments_after n rest
  end.

(** The product name reaches the document in one place and only in
    escaped form: a document that is rendered for a row is the same for
    every other name except for the escaped name between one fixed prefix
    and one fixed suffix, and the escaped name holds no angle bracket and
    no quote. *)
Theorem generate_svg_name_escaped (L : PyLib) (row : agg_row)
    (m : list (date * pyfloat)) (d : date) (s : string) :
  generate_svg L row m d = Ok s ->
  exists pre post,
    forall name,
      generate_svg L (with_name row name) m d
      = Ok (pre ++ Str.html_escape (py_str L name) ++ post) /\
      all_chars (fun c => negb (markup_char c))
                (Str.html_escape (py_str L name)) = true.
Proof.
  unfold generate_svg. intros H.
  apply bind_Ok in H as [cal [Hcal H]]. apply bind_Ok in H as [pi [Hpi H]].
  apply bind_Ok in H as [ai [Hai H]]. apply bind_Ok in H as [qi [Hqi H]].
  match type of H with
  | Ok ?chain = _ =>
      let n := constr:(Str.html_escape (py_str L (agg_name row))) in
      let p := segments_before n chain in
      let q := segments_after n chain in
      exists p, q
  end.
  intros name. split; [|apply html_escape_no_markup].
  cbn [with_name agg_jan agg_dept agg_name agg_price agg_qty agg_amount
       agg_promo].
  rewrite Hcal, Hpi, Hai, Hqi. cbn [bind]. f_equal.
  rewrite !app_assoc_str. reflexivity.
Qed.

Lemma generate_svg_name_escaped_witness :
  exists pre post,
    forall name,
      generate_svg ExampleLib.lib (with_name item_75000 name) []
                   (mkdate 2024 5 1)
      = Ok (pre ++ Str.html_escape (py_str ExampleLib.lib name) ++ post) /\
      all_chars (fun c => negb (markup_char c))
                (Str.html_escape (py_str ExampleLib.lib name)) = true.
Proof.
  destruct (generate_svg ExampleLib.lib item_75000 [] (mkdate 2024 5 1))
    as [s|e] eqn:E.
  - exact (generate_svg_name_escaped _ _ _ _ _ E).
  - vm_compute in E. discriminate E.
Defined.

(** ** Thousands separators *)

Lemma string_of_uint_digits (d : Decimal.uint) :
  Str.all_digits (NilEmpty.string_of_uint d) = true.
Proof. induction d; simpl; auto. Qed.

Lemma of_Z_digits (z : Z) : 0 <= z -> Str.all_digits (Str.of_Z z) = true.
Proof.
  intros Hz. unfold Str.of_Z. destruct z as [|p|p]; [reflexivity| |lia].
  simpl. unfold NilZero.string_of_uint.
  destruct (Pos.to_uint p) eqn:E; try (rewrite <- E; apply string_of_uint_digits).
  reflexivity.
Qed.

Lemma of_Z_negative (z : Z) :
  z < 0 -> Str.of_Z z = String "-" (Str.of_Z (Z.abs z)).
Proof. intros Hz. destruct z as [|p|p]; try lia. reflexivity. Qed.

Lemma digit_not_comma (c : ascii) : Str.is_digit c = true -> Ascii.eqb c "," = false.
Proof.
  unfold Str.is_digit. intros H. apply andb_prop in H as [H1 _].
  apply Nat.leb_le in H1. apply Ascii.eqb_neq. intros ->.
  change (nat_of_ascii ",") with 44%nat in H1. lia.
Qed.

Lemma group3_digits (r : string) (n : nat) (acc : string) :
  Str.all_digits r = true ->
  remove_commas (group3 r n acc) = Str.rev_acc r (remove_commas acc).
Proof.
  revert n acc. induction r as [|c r IH]; intros n acc H; [reflexivity|].
  simpl in H. apply andb_prop in H as [Hc Hr].
  apply digit_not_comma in Hc.
  destruct n as [|n]; cbn [group3 Str.rev_acc]; rewrite (IH _ _ Hr);
    cbn [remove_commas]; rewrite Hc; reflexivity.
Qed.

(** The thousands format changes nothing but the commas: without them
    the formatted text is the plain decimal rendering of the integer,
    sign included. *)
Theorem format_thousands_digits (z : Z) :
  remove_commas (format_thousands z) = Str.of_Z z.
Proof.
  unfold format_thousands.
  assert (Hbody : remove_commas
                    (group3 (Str.rev (Str.of_Z (Z.abs z))) 3 EmptyString)
                  = Str.of_Z (Z.abs z)).
  { rewrite group3_digits.
    - cbn [remove_commas]. apply rev_rev.
    - rewrite all_digits_rev. apply of_Z_digits. lia. }
  destruct (z <? 0) eqn:Hz.
  - apply Z.ltb_lt in Hz. cbn [remove_commas].
    change (Ascii.eqb "-" ",") with false. cbn iota.
    rewrite Hbody. symmetry. now apply of_Z_negative.
  - apply Z.ltb_ge in Hz. rewrite Hbody. now rewrite Z.abs_eq.
Qed.

Lemma safe_name_sanitises_witness :
  all_chars (fun c => negb (hostile c)) "4900000000001" = true /\
  safe_name "4900000000001" = "4900000000001".
Proof.
  split; [reflexivity|].
  exact (proj1 (proj2 (safe_name_sanitises "4900000000001")) eq_refl).
Defined.

(** ** Totals of the summary *)

Lemma Qred_reduced (q : Q) : reduced (Qred q).
Proof. unfold reduced. apply Qred_complete, Qred_correct. Qed.

Lemma reduced_eq (a b : Q) : reduced a -> reduced b -> (a == b)%Q -> a = b.
Proof.
  unfold reduced. intros Ha Hb H. rewrite <- Ha, <- Hb. now apply Qred_complete.
Qed.

Lemma fold_fadd_value (l : list pyfloat) (a : Q) :
  Forall (fun f => is_inf f = false /\ notnan f = true) l -> reduced a ->
  exists a', fold_left fadd l (Fin a) = Fin a' /\
             (a' == a + qsum l)%Q /\ reduced a'.
Proof.
  revert a. induction l as [|f l IH]; intros a Hl Ha; cbn [fold_left qsum].
  - exists a. split; [reflexivity|]. split; [ring|exact Ha].
  - inversion Hl as [|? ? [Hi Hn] Hl']; subst.
    destruct f as [x| |]; try discriminate. cbn [fadd qval].
    destruct (IH (Qred (a + x)) Hl' (Qred_reduced _)) as [a' [-> [Hv Hr]]].
    exists a'. split; [reflexivity|]. split; [|exact Hr].
    rewrite Hv, Qred_correct. ring.
Qed.

Lemma qsum_filter_notnan (l : list pyfloat) :
  (qsum (filter notnan l) == qsum l)%Q.
Proof.
  induction l as [|f l IH]; simpl; [reflexivity|].
  destruct f as [x|neg|]; simpl; rewrite IH; ring.
Qed.

(** A sum without infinities among its terms: the number it is. *)
Lemma fsum_value (l : list pyfloat) :
  Forall (fun f => is_inf f = false) l ->
  exists q, fsum l = Fin q /\ (q == qsum l)%Q /\ reduced q.
Proof.
  intros Hl. unfold fsum, fzero.
  destruct (fold_fadd_value (filter notnan l) 0) as [q [Hq [Hv Hr]]].
  - apply Forall_forall. intros f Hf. apply filter_In in Hf as [Hf Hn].
    rewrite Forall_forall in Hl. auto.
  - reflexivity.
  - exists q. split; [exact Hq|]. split; [|exact Hr].
    rewrite Hv, qsum_filter_notnan. ring.
Qed.

Lemma qsum_perm (l l' : list pyfloat) :
  Permutation l l' -> (qsum l == qsum l')%Q.
Proof.
  induction 1; simpl.
  - reflexivity.
  - now rewrite IHPermutation.
  - ring.
  - now rewrite IHPermutation1.
Qed.

Section GroupTotals.

Variable col : record -> pyfloat.

Lemma groups_sum_nil (ks : list string) : (groups_sum col ks [] == 0)%Q.
Proof.
  unfold groups_sum. induction ks as [|k ks IH]; simpl; [reflexivity|].
  simpl in IH. rewrite IH. ring.
Qed.

Lemma groups_sum_cons_out (ks : list string) (r : record) (l : list record) :
  ~ In (jan r) ks -> (groups_sum col ks (r :: l) == groups_sum col ks l)%Q.
Proof.
  unfold groups_sum. induction ks as [|k ks IH]; intros H; [reflexivity|].
  cbn [map qsum qval]. unfold jan_group at 1. cbn [filter].
  fold (jan_group k l).
  assert (Hk : String.eqb k (jan r) = false).
  { apply String.eqb_neq. intros ->. apply H. now left. }
  rewrite Hk, IH; [reflexivity|]. intros Hin. apply H. now right.
Qed.

Lemma groups_sum_cons_in (ks : list string) (r : record) (l : list record) :
  NoDup ks -> In (jan r) ks ->
  (groups_sum col ks (r :: l) == qval (col r) + groups_sum col ks l)%Q.
Proof.
  induction ks as [|k ks IH]; intros Hnd Hin; [destruct Hin|].
  inversion Hnd as [|? ? Hk Hnd']; subst.
  unfold groups_sum. cbn [map qsum qval].
  fold (groups_sum col ks (r :: l)). fold (groups_sum col ks l).
  unfold jan_group at 1. cbn [filter]. fold (jan_group k l).
  destruct (String.eqb k (jan r)) eqn:E.
  - apply String.eqb_eq in E. subst k.
    rewrite (groups_sum_cons_out ks r l Hk). cbn [map qsum]. ring.
  - destruct Hin as [->|Hin]; [rewrite String.eqb_refl in E; discriminate|].
    rewrite (IH Hnd' Hin). ring.
Qed.

Lemma groups_sum_all (ks : list string) (l : list record) :
  NoDup ks -> (forall r, In r l -> In (jan r) ks) ->
  (groups_sum col ks l == qsum (map col l))%Q.
Proof.
  intros Hnd. induction l as [|r l IH]; intros Hin.
  - apply groups_sum_nil.
  - rewrite groups_sum_cons_in; [|exact Hnd|apply Hin; now left].
    rewrite IH; [reflexivity|]. intros r' Hr'. apply Hin. now right.
Qed.

(** The totals of the groups add up to the total of the column. *)
Lemma group_totals_add_up (proj : agg_row -> pyfloat) (df : list record) :
  (forall j, proj (agg_group df j) = fsum (map col (jan_group j df))) ->
  (forall r, In r df -> is_inf (col r) = false) ->
  fsum (map proj (agg_view df)) = fsum (map col df).
Proof.
  intros Hproj Hinf.
  assert (Hgroup : forall j, exists q,
            proj (agg_group df j) = Fin q /\
            (q == qsum (map col (jan_group j df)))%Q).
  { intros j. rewrite Hproj.
    destruct (fsum_value (map col (jan_group j df))) as [q [Hq [Hv _]]]; [|eauto].
    apply Forall_forall. intros f Hf. apply in_map_iff in Hf as [r [<- Hr]].
    apply Hinf. now apply filter_In in Hr. }
  assert (Hrows : forall ks,
            (qsum (map proj (map (agg_group df) ks)) == groups_sum col ks df)%Q /\
            Forall (fun f => is_inf f = false) (map proj (map (agg_group df) ks))).
  { induction ks as [|k ks [IH1 IH2]]; [split; [reflexivity|constructor]|].
    destruct (Hgroup k) as [q [Hq Hv]]. unfold groups_sum. cbn [map qsum].
    rewrite Hq. cbn [qval]. split.
    - fold (groups_sum col ks df). rewrite IH1, Hv. reflexivity.
    - constructor; [reflexivity|exact IH2]. }
  set (ks := sort_by String.leb (distinct_by String.eqb (map jan df))).
  destruct (Hrows ks) as [Hval Hfin].
  assert (Hperm : Permutation (map proj (map (agg_group df) ks))
                              (map proj (agg_view df))).
  { apply Permutation_map. unfold agg_view, groupby_jan. apply sort_by_perm. }
  destruct (fsum_value (map proj (agg_view df))) as [a [-> [Ha Hra]]].
  { eapply Permutation_Forall; eauto. }
  destruct (fsum_value (map col df)) as [b [-> [Hb Hrb]]].
  { apply Forall_forall. intros f Hf. apply in_map_iff in Hf as [r [<- Hr]].
    now apply Hinf. }
  f_equal. apply reduced_eq; [exact Hra|exact Hrb|].
  rewrite Ha, Hb, <- (qsum_perm _ _ Hperm), Hval.
  apply groups_sum_all; [apply jan_keys_NoDup|].
  intros r Hr. apply jan_keys_In. now apply in_map.
Qed.

End GroupTotals.

Lemma whole_value (f : pyfloat) :
  whole f = true ->
  is_inf f = false /\ exists n, (qval f == inject_Z n)%Q.
Proof.
  destruct f as [q|neg|]; cbn [whole is_inf qval]; intros H.
  - split; [reflexivity|]. exists (Qnum (Qred q)).
    apply Z.eqb_eq in H. rewrite <- (Qred_correct q) at 1.
    destruct (Qred q) as [a b]. cbn [Qnum Qden] in *.
    unfold Qeq, inject_Z. cbn [Qnum Qden]. lia.
  - discriminate H.
  - split; [reflexivity|]. exists 0. reflexivity.
Qed.

Lemma Qred_whole (n : Z) : Qred (inject_Z n) = inject_Z n.
Proof.
  unfold Qred, inject_Z.
  pose proof (Z.ggcd_gcd n 1) as Hg.
  pose proof (Z.ggcd_correct_divisors n 1) as Hd.
  destruct (Z.ggcd n 1) as [g [a b]]. cbn [fst] in Hg.
  rewrite Z.gcd_1_r in Hg. subst g. destruct Hd as [Ha Hb].
  assert (a = n) by lia. assert (b = 1) by lia. subst a b. reflexivity.
Qed.

(** A column of whole numbers sums to a whole number, no larger than the
    sum of the magnitudes. *)
Lemma whole_qsum (l : list pyfloat) :
  Forall (fun f => whole f = true) l ->
  exists n, (qsum l == inject_Z n)%Q /\ (inject_Z (Z.abs n) <= abs_sum l)%Q.
Proof.
  induction 1 as [|f l Hf Hl [n [Hn Hb]]].
  - exists 0. split; [reflexivity|]. cbn. apply Qle_refl.
  - destruct (whole_value f Hf) as [_ [m Hm]].
    exists (m + n). cbn [qsum abs_sum]. rewrite Hm, Hn. split.
    + now rewrite inject_Z_plus.
    + apply Qle_trans with (inject_Z (Z.abs m) + inject_Z (Z.abs n))%Q.
      * rewrite <- inject_Z_plus. rewrite <- Zle_Qle. apply Z.abs_triangle.
      * apply Qplus_le_compat; [|exact Hb].
        unfold Qabs, inject_Z. apply Qle_refl.
Qed.

(** The sum of a column of whole numbers whose magnitudes add up to at
    most [2^53]: a whole number of at most that magnitude, so that the
    binary64 additions behind it are exact in whatever order they are
    made. *)
Lemma fsum_whole (l : list pyfloat) :
  Forall (fun f => whole f = true) l ->
  (abs_sum l <= inject_Z (2 ^ 53))%Q ->
  exists n, fsum l = Fin (inject_Z n) /\ Z.abs n <= 2 ^ 53.
Proof.
  intros Hw Hb.
  destruct (fsum_value l) as [q [Hq [Hv Hr]]].
  { eapply Forall_impl; [|exact Hw]. intros f Hf.
    now destruct (whole_value f Hf). }
  destruct (whole_qsum l Hw) as [n [Hn Hle]].
  exists n. split.
  - rewrite Hq. f_equal. unfold reduced in Hr. rewrite <- Hr.
    rewrite (Qred_complete q (inject_Z n)) by (now rewrite Hv, Hn).
    apply Qred_whole.
  - rewrite Zle_Qle. eapply Qle_trans; eauto.
Qed.

(** The headline totals agree with the records: the total quantity and
    the total amount summed over the rows of the summary are the totals
    over the records it was built from (NaN entries skipped on both
    sides), for quantities and amounts that are whole numbers whose
    magnitudes add up to at most [2^53] -- the range in which the
    binary64 sums of the code are exact, whatever their order; the totals
    are then whole numbers of that range. *)
Theorem agg_view_totals (df : list record) :
  (forall r, In r df -> whole (quantity r) = true) ->
  (forall r, In r df -> whole (total_amount r) = true) ->
  (abs_sum (map quantity df) <= inject_Z (2 ^ 53))%Q ->
  (abs_sum (map total_amount df) <= inject_Z (2 ^ 53))%Q ->
  fsum (map agg_qty (agg_view df)) = fsum (map quantity df) /\
  fsum (map agg_amount (agg_view df)) = fsum (map total_amount df) /\
  (exists n, fsum (map quantity df) = Fin (inject_Z n) /\ Z.abs n <= 2 ^ 53) /\
  (exists n, fsum (map total_amount df) = Fin (inject_Z n) /\
             Z.abs n <= 2 ^ 53).
Proof.
  intros Hq Ha Bq Ba.
  assert (Wq : Forall (fun f => whole f = true) (map quantity df)).
  { apply Forall_forall. intros f Hf. apply in_map_iff in Hf as [r [Hf Hr]].
    subst f. now apply Hq. }
  assert (Wa : Forall (fun f => whole f = true) (map total_amount df)).
  { apply Forall_forall. intros f Hf. apply in_map_iff in Hf as [r [Hf Hr]].
    subst f. now apply Ha. }
  split; [|split; [|split]].
  - apply (group_totals_add_up quantity agg_qty df); [reflexivity|].
    intros r Hr. now destruct (whole_value _ (Hq r Hr)).
  - apply (group_totals_add_up total_amount agg_amount df); [reflexivity|].
    intros r Hr. now destruct (whole_value _ (Ha r Hr)).
  - now apply fsum_whole.
  - now apply fsum_whole.
Qed.

Lemma agg_view_totals_witness :
  fsum (map agg_qty (agg_view same_item_two_prices))
  = fsum (map quantity same_item_two_prices) /\
  fsum (map agg_amount (agg_view same_item_two_prices))
  = fsum (map total_amount same_item_two_prices) /\
  (exists n, fsum (map quantity same_item_two_prices) = Fin (inject_Z n) /\
             Z.abs n <= 2 ^ 53) /\
  (exists n, fsum (map total_amount same_item_two_prices) = Fin (inject_Z n) /\
             Z.abs n <= 2 ^ 53).
Proof.
  apply agg_view_totals.
  - intros r [ <- | [ <- | [ <- | [] ] ] ]; reflexivity.
  - intros r [ <- | [ <- | [ <- | [] ] ] ]; reflexivity.
  - vm_compute. discriminate.
  - vm_compute. discriminate.
Defined.

(** ** Tokens that open with month and day *)

Lemma digit_lower (a : ascii) :
  Str.is_digit a = true -> Str.lower_char a = a /\ a <> "n"%char /\ a <> "/"%char.
Proof.
  unfold Str.is_digit, Str.lower_char. intros H.
  apply andb_prop in H as [H1 H2]. apply Nat.leb_le in H1, H2.
  split; [|split].
  - replace ((65 <=? nat_of_ascii a)%nat) with false; [reflexivity|].
    symmetry. apply Nat.leb_gt. lia.
  - intros ->. change (nat_of_ascii "n") with 110%nat in H2. lia.
  - intros ->. change (nat_of_ascii "/") with 47%nat in H1. lia.
Qed.

Lemma slash_not_digit : Str.is_digit "/" = false.
Proof. reflexivity. Qed.

Lemma digit_at_slash (L : PyLib) (r : string) : digit_at L (String "/" r) = None.
Proof. reflexivity. Qed.

(** A token on which the [M/D] pattern matches opens with one or two
    digits and a slash. *)
Lemma match_md_inv (L : PyLib) (s : string) (m d : Z) :
  match_md L s = Some (m, d) ->
  exists v1 a1 r1,
    digit_at L s = Some (v1, a1, r1) /\
    ((exists r, r1 = String "/" r) \/
     (exists v2 a2 r, digit_at L r1 = Some (v2, a2, String "/" r))).
Proof.
  unfold match_md, digits12.
  destruct (digit_at L s) as [[[v1 a1] r1]|]; [|discriminate].
  intros H. exists v1, a1, r1. split; [reflexivity|].
  destruct (digit_at L r1) as [[[v2 a2] r2]|] eqn:E2.
  - right. exists v2, a2. cbn [fst snd] in H.
    destruct r2 as [|c r].
    + destruct r1 as [|c1 r1']; [discriminate H|].
      destruct (Ascii.eqb c1 "/") eqn:Ec; [|discriminate H].
      apply Ascii.eqb_eq in Ec. subst c1. rewrite digit_at_slash in E2.
      discriminate E2.
    + destruct (Ascii.eqb c "/") eqn:Ec.
      * apply Ascii.eqb_eq in Ec. subst c. eauto.
      * destruct r1 as [|c1 r1']; [discriminate H|].
        destruct (Ascii.eqb c1 "/") eqn:Ec1; [|discriminate H].
        apply Ascii.eqb_eq in Ec1. subst c1. rewrite digit_at_slash in E2.
        discriminate E2.
  - left. cbn [fst snd] in H. destruct r1 as [|c1 r1']; [discriminate H|].
    destruct (Ascii.eqb c1 "/") eqn:Ec1; [|discriminate H].
    apply Ascii.eqb_eq in Ec1. subst c1. eauto.
Qed.

Lemma digit_at_first (L : PyLib) (s : string) (x : Z * bool * string) :
  digit_at L s = Some x ->
  exists c r, s = String c r /\ Str.lower_char c = c /\ c <> "n"%char.
Proof.
  destruct s as [|c r]; [discriminate|]. intros H. exists c, r.
  split; [reflexivity|]. unfold digit_at in H.
  destruct (Str.is_digit c) eqn:Hd.
  - destruct (digit_lower c Hd) as [Hl [Hn _]]. auto.
  - destruct (128 <=? nat_of_ascii c)%nat eqn:Hc; [|discriminate H].
    apply Nat.leb_le in Hc. split.
    + unfold Str.lower_char.
      replace (nat_of_ascii c <=? 90)%nat with false;
        [now rewrite andb_false_r|].
      symmetry. apply Nat.leb_gt. lia.
    + intros ->. change (nat_of_ascii "n") with 110%nat in Hc. lia.
Qed.

Lemma match_md_token (L : PyLib) (s : string) (m d : Z) :
  match_md L s = Some (m, d) ->
  (String.length s =? 0)%nat = false /\
  eight_digits L s = None /\
  String.eqb (Str.lower s) "nan" = false.
Proof.
  intros H. apply match_md_inv in H as [v1 [a1 [r1 [E1 Hr]]]].
  destruct (digit_at_first L s _ E1) as [c [r [-> [Hl Hn]]]].
  split; [reflexivity|]. split.
  - unfold eight_digits. cbn [read_digits]. rewrite E1.
    destruct Hr as [[r' ->]|[v2 [a2 [r' E2]]]].
    + now rewrite digit_at_slash.
    + rewrite E2. now rewrite digit_at_slash.
  - cbn [Str.lower]. rewrite Hl. apply String.eqb_neq. intros E.
    injection E as E _. exact (Hn E).
Qed.

(** A token that opens with a month/day pair which is a valid date in the
    default year is normalized to that date, whatever follows the pair:
    the general parser is not consulted, and a year written in the token
    is ignored. *)
Theorem parse_date_str_month_day (L : PyLib) (s : string) (y m d : Z) :
  Str.strip s = s ->
  match_md L s = Some (m, d) -> valid_date y m d = true ->
  parse_date_str L (VStr s) (Some y) = Ok (Some (mkdate y m d)).
Proof.
  intros Hs Hm Hv. unfold parse_date_str. cbn [py_str]. rewrite Hs.
  destruct (match_md_token L s m d Hm) as [Hlen [Hdig Hnan]].
  rewrite Hlen, Hnan, Hdig. cbn [orb].
  unfold parse_date_md. rewrite Hm.
  assert (Hy : c_int y).
  { unfold valid_date in Hv. rewrite !andb_true_iff, !Z.leb_le in Hv.
    unfold c_int. lia. }
  rewrite (date_ctor_c_int y m d Hy), Hv. reflexivity.
Qed.

Lemma parse_date_str_month_day_witness :
  parse_date_str ExampleLib.lib (VStr "12/25/2023") (Some 2024)
  = Ok (Some (mkdate 2024 12 25)).
Proof.
  apply parse_date_str_month_day; reflexivity.
Defined.

(** Digits outside ASCII belong to the class [\d] and are read by [int]:
    a full-width digit in the day of a month/day token, and in the day of
    an eight-digit token (after 1 or 2 only, as [strptime] has it). *)
Example parse_date_str_fullwidth_day :
  parse_date_str ExampleLib.lib (VStr "1/2３") (Some 2024)
  = Ok (Some (mkdate 2024 1 23)) /\
  parse_date_str ExampleLib.lib (VStr "2023052３") (Some 2024)
  = Ok (Some (mkdate 2023 5 23)) /\
  parse_date_str ExampleLib.lib (VStr "2023053１") (Some 2024) = Ok None.
Proof. repeat split. Qed.

(** [strip] removes the white space of Unicode too: here the ideographic
    space around a department cell. *)
Example strip_ideographic_space : Str.strip "　12　" = "12".
Proof. reflexivity. Qed.
